(** * Configuration synthesis for MultiClusterIngress resources

    A shallow embedding of the controller file that turns a list of
    MultiClusterIngress resources into NGINX upstreams, servers and
    locations ([createUpstreamsFromMCIs], [createServersFromMCIs],
    [getBackendServersFromMCIs], [mergeAlternativeBackendsByMCI],
    [checkOverlapWithMCI], ...), followed by the properties of the
    specification stated and settled against that embedding.

    Conventions.
    - Go maps are [gmap]s; a pointer stored in a map is identified with the
      key it is stored under, and an in-place mutation through the pointer
      is a write back under that key.
    - A nil dereference or an index out of range is a run-time panic; the
      monad [M] carries it as [None], together with the klog lines written
      so far.
    - klog lines are recorded with their severity and their format string
      (arguments are not formatted).
    - Go does not fix the order in which [range] visits a map.  The final
      assembly, whose output lists are built in that order, takes it as a
      parameter ([MapOrder]); [goOrder] is the order used where the result
      is run on samples. *)

From stdpp Require Import gmap strings list fin_maps pretty.
From Stdlib Require Import ZArith Sorted.

Local Open Scope string_scope.
Local Open Scope list_scope.

(** ** Run-time effects: panics and the log *)

(** klog.V(n).Infof, klog.Warningf / klog.Warning, klog.Errorf. *)
Inductive Severity : Type :=
| InfoV (verbosity : nat)
| Warning
| Error.

Record LogEntry : Type := mkLog { severity : Severity; format : string }.

Definition M (A : Type) : Type := (option A * list LogEntry)%type.

Definition ret {A : Type} (a : A) : M A := (Some a, []).

Definition bind {A B : Type} (m : M A) (f : A -> M B) : M B :=
  match m with
  | (Some a, l) => let '(b, l') := f a in (b, l ++ l')
  | (None, l) => (None, l)
  end.

Definition panic {A : Type} : M A := (None, []).

Definition klog (s : Severity) (fmt : string) : M unit :=
  (Some tt, [mkLog s fmt]).

(** Dereference of a possibly nil pointer. *)
Definition deref {A : Type} (p : option A) : M A :=
  match p with
  | Some a => ret a
  | None => panic
  end.

Declare Scope go_scope.
Delimit Scope go_scope with go.
Notation "'let*' p ':=' m 'in' k" := (bind m (fun p => k))
  (at level 10, p pattern, m at level 100, k at level 200) : go_scope.
Notation "m ;; k" := (bind m (fun _ => k))
  (at level 100, k at level 200, right associativity) : go_scope.
Local Open Scope go_scope.

Definition result {A : Type} (m : M A) : option A := fst m.
Definition logged {A : Type} (m : M A) : list LogEntry := snd m.


(** ** Resource model *)

(** A Go [error]; [None] is nil. *)
Definition error : Type := option string.

(** intstr.IntOrString *)
Inductive IntOrString : Type :=
| IntVal (n : Z)
| StrVal (s : string).

Module Endpoint.
Record t : Type := mk { Address : string; Port : string }.
End Endpoint.

Module ServicePort.
Record t : Type := mk { Name : string; Port : Z }.
End ServicePort.

(** apiv1.Service, reduced to the fields read here. *)
Module Service.
Record t : Type := mk { Namespace : string; Name : string; Ports : list ServicePort.t }.
Definition empty : t := mk "" "" [].
End Service.

(** networking.IngressServiceBackend *)
Module ServiceBackend.
Record t : Type := mk { Name : string; PortName : string; PortNumber : Z }.
End ServiceBackend.

(** networking.IngressBackend; a nil [Service] is a non-service backend. *)
Module IngressBackend.
Record t : Type := mk { Service : option ServiceBackend.t }.
End IngressBackend.

(** networking.PathType is a string type; the field is a pointer. *)
Definition PathType : Type := string.
Definition PathTypeExact : PathType := "Exact".
Definition PathTypePrefix : PathType := "Prefix".

Module HTTPIngressPath.
Record t : Type := mk {
  Path : string;
  PathType : option PathType;
  Backend : IngressBackend.t }.
End HTTPIngressPath.

(** [HTTP] is the pointer rule.HTTP; [Some paths] stands for a non-nil
    HTTPIngressRuleValue with those Paths. *)
Module IngressRule.
Record t : Type := mk { Host : string; HTTP : option (list HTTPIngressPath.t) }.
End IngressRule.

Module IngressTLS.
Record t : Type := mk { Hosts : list string; SecretName : string }.
End IngressTLS.

Module Spec.
Record t : Type := mk {
  DefaultBackend : option IngressBackend.t;
  Rules : list IngressRule.t;
  TLS : list IngressTLS.t }.
End Spec.

(** *** Parsed annotations (the fields this file reads) *)

Module Canary.
Record t : Type := mk {
  Enabled : bool;
  Weight : Z;
  WeightTotal : Z;
  Header : string;
  HeaderValue : string;
  HeaderPattern : string;
  Cookie : string }.
End Canary.

Module UpstreamHashBy.
Record t : Type := mk {
  UpstreamHashBy : string;
  UpstreamHashBySubset : bool;
  UpstreamHashBySubsetSize : Z }.
End UpstreamHashBy.

Module AffinityCookie.
Record t : Type := mk {
  Name : string;
  Expires : string;
  MaxAge : string;
  Path : string;
  Secure : bool;
  SameSite : string;
  ConditionalSameSiteNone : bool;
  ChangeOnFailure : bool }.
End AffinityCookie.

(** anns.SessionAffinity *)
Module AffinityConfig.
Record t : Type := mk {
  Type_ : string;
  Mode : string;
  CanaryBehavior : string;
  Cookie : AffinityCookie.t }.
End AffinityConfig.

Module Redirect.
Record t : Type := mk { URL : string; Code : Z; FromToWWW : bool }.
Definition zero : t := mk "" 0 false.
End Redirect.

Module Rewrite.
Record t : Type := mk { Target : string; UseRegex : bool }.
Definition zero : t := mk "" false.
End Rewrite.

(** anns.CertificateAuth and anns.ProxySSL *)
Module AuthSSL.
Record t : Type := mk { Secret : string; CAFileName : string; AuthTLSError : string }.
Definition zero : t := mk "" "" "".
End AuthSSL.

Module SSLCipher.
Record t : Type := mk { SSLCiphers : string; SSLPreferServerCiphers : string }.
End SSLCipher.

Module Annotations.
Record t : Type := mk {
  Canary : Canary.t;
  UpstreamHashBy : UpstreamHashBy.t;
  LoadBalancing : string;
  ServiceUpstream : bool;
  SessionAffinity : AffinityConfig.t;
  Redirect : Redirect.t;
  Rewrite : Rewrite.t;
  DefaultBackend : option Service.t;
  Aliases : list string;
  ServerSnippet : string;
  StreamSnippet : string;
  SSLCipher : SSLCipher.t;
  SSLPassthrough : bool;
  CertificateAuth : AuthSSL.t;
  ProxySSL : AuthSSL.t }.
End Annotations.

(** karmadanetwork.MultiClusterIngress: metadata and spec. *)
Module KarmadaMCI.
Record t : Type := mk {
  Namespace : string;
  Name : string;
  ObjectAnnotations : list (string * string);
  Spec : Spec.t }.
End KarmadaMCI.

(** ingress.MultiClusterIngress: the resource with its parsed annotations. *)
Module MCI.
Record t : Type := mk {
  MultiClusterIngress : KarmadaMCI.t;
  ParsedAnnotations : Annotations.t }.
Definition Namespace (m : t) : string := KarmadaMCI.Namespace (MultiClusterIngress m).
Definition Name (m : t) : string := KarmadaMCI.Name (MultiClusterIngress m).
Definition Spec (m : t) : Spec.t := KarmadaMCI.Spec (MultiClusterIngress m).
Definition withAnnotations (a : Annotations.t) (m : t) : t :=
  mk (MultiClusterIngress m) a.
End MCI.

(** *** Backends *)

Module TrafficShapingPolicy.
Record t : Type := mk {
  Weight : Z;
  WeightTotal : Z;
  Header : string;
  HeaderValue : string;
  HeaderPattern : string;
  Cookie : string }.
Definition zero : t := mk 0%Z 0%Z "" "" "" "".
End TrafficShapingPolicy.

Module CookieSessionAffinity.
Record t : Type := mk {
  Name : string;
  Expires : string;
  MaxAge : string;
  Secure : bool;
  Path : string;
  SameSite : string;
  ConditionalSameSiteNone : bool;
  ChangeOnFailure : bool;
  Locations : gmap string (list string) }.
Definition zero : t := mk "" "" "" false "" "" false false ∅.
End CookieSessionAffinity.

Module SessionAffinity.
Record t : Type := mk {
  AffinityType : string;
  AffinityMode : string;
  CookieSessionAffinity : CookieSessionAffinity.t }.
Definition zero : t := mk "" "" CookieSessionAffinity.zero.
End SessionAffinity.

Module Backend.
Record t : Type := mk {
  Name : string;
  Service : option Service.t;
  Port : IntOrString;
  SSLPassthrough : bool;
  Endpoints : list Endpoint.t;
  SessionAffinity : SessionAffinity.t;
  UpstreamHashBy : UpstreamHashBy.t;
  LoadBalancing : string;
  NoServer : bool;
  TrafficShapingPolicy : TrafficShapingPolicy.t;
  AlternativeBackends : list string }.

Definition setName (v : string) (b : t) : t :=
  mk v (Service b) (Port b) (SSLPassthrough b) (Endpoints b) (SessionAffinity b)
     (UpstreamHashBy b) (LoadBalancing b) (NoServer b) (TrafficShapingPolicy b)
     (AlternativeBackends b).
Definition setService (v : option Service.t) (b : t) : t :=
  mk (Name b) v (Port b) (SSLPassthrough b) (Endpoints b) (SessionAffinity b)
     (UpstreamHashBy b) (LoadBalancing b) (NoServer b) (TrafficShapingPolicy b)
     (AlternativeBackends b).
Definition setPort (v : IntOrString) (b : t) : t :=
  mk (Name b) (Service b) v (SSLPassthrough b) (Endpoints b) (SessionAffinity b)
     (UpstreamHashBy b) (LoadBalancing b) (NoServer b) (TrafficShapingPolicy b)
     (AlternativeBackends b).
Definition setSSLPassthrough (v : bool) (b : t) : t :=
  mk (Name b) (Service b) (Port b) v (Endpoints b) (SessionAffinity b)
     (UpstreamHashBy b) (LoadBalancing b) (NoServer b) (TrafficShapingPolicy b)
     (AlternativeBackends b).
Definition setEndpoints (v : list Endpoint.t) (b : t) : t :=
  mk (Name b) (Service b) (Port b) (SSLPassthrough b) v (SessionAffinity b)
     (UpstreamHashBy b) (LoadBalancing b) (NoServer b) (TrafficShapingPolicy b)
     (AlternativeBackends b).
Definition setSessionAffinity (v : SessionAffinity.t) (b : t) : t :=
  mk (Name b) (Service b) (Port b) (SSLPassthrough b) (Endpoints b) v
     (UpstreamHashBy b) (LoadBalancing b) (NoServer b) (TrafficShapingPolicy b)
     (AlternativeBackends b).
Definition setUpstreamHashBy (v : UpstreamHashBy.t) (b : t) : t :=
  mk (Name b) (Service b) (Port b) (SSLPassthrough b) (Endpoints b) (SessionAffinity b)
     v (LoadBalancing b) (NoServer b) (TrafficShapingPolicy b)
     (AlternativeBackends b).
Definition setLoadBalancing (v : string) (b : t) : t :=
  mk (Name b) (Service b) (Port b) (SSLPassthrough b) (Endpoints b) (SessionAffinity b)
     (UpstreamHashBy b) v (NoServer b) (TrafficShapingPolicy b)
     (AlternativeBackends b).
Definition setNoServer (v : bool) (b : t) : t :=
  mk (Name b) (Service b) (Port b) (SSLPassthrough b) (Endpoints b) (SessionAffinity b)
     (UpstreamHashBy b) (LoadBalancing b) v (TrafficShapingPolicy b)
     (AlternativeBackends b).
Definition setTrafficShapingPolicy (v : TrafficShapingPolicy.t) (b : t) : t :=
  mk (Name b) (Service b) (Port b) (SSLPassthrough b) (Endpoints b) (SessionAffinity b)
     (UpstreamHashBy b) (LoadBalancing b) (NoServer b) v
     (AlternativeBackends b).
Definition setAlternativeBackends (v : list string) (b : t) : t :=
  mk (Name b) (Service b) (Port b) (SSLPassthrough b) (Endpoints b) (SessionAffinity b)
     (UpstreamHashBy b) (LoadBalancing b) (NoServer b) (TrafficShapingPolicy b)
     v.
End Backend.

(** *** Certificates *)

(** The part of an x509 certificate that hostname checks look at. *)
Module X509.
Record t : Type := mk { DNSNames : list string; CommonName : string }.
End X509.

Module SSLCert.
Record t : Type := mk {
  Name : string;
  Certificate : option X509.t;
  ExpireTime : Z }.
End SSLCert.

(** *** Locations and servers *)

(** proxy.Config; the sixteen Proxy* settings are copied as one block. *)
Module Proxy.
Record t : Type := mk { BodySize : string; ConnectTimeout : Z; ProxyHTTPVersion : string }.
Definition zero : t := mk "" 0 "".
End Proxy.

Module Logs.
Record t : Type := mk { Access : bool; Rewrite : bool }.
End Logs.

Module Location.
Record t : Type := mk {
  Path : string;
  PathType : option PathType;
  IsDefBackend : bool;
  MultiClusterIngress : option MCI.t;
  Backend : string;
  Service : option Service.t;
  Port : IntOrString;
  Redirect : Redirect.t;
  Rewrite : Rewrite.t;
  Proxy : Proxy.t;
  Logs : Logs.t;
  DefaultBackend : option Service.t;
  DefaultBackendUpstreamName : string }.

Definition setPath (v : string) (l : t) : t :=
  mk v (PathType l) (IsDefBackend l) (MultiClusterIngress l) (Backend l) (Service l)
     (Port l) (Redirect l) (Rewrite l) (Proxy l) (Logs l) (DefaultBackend l)
     (DefaultBackendUpstreamName l).
Definition setIsDefBackend (v : bool) (l : t) : t :=
  mk (Path l) (PathType l) v (MultiClusterIngress l) (Backend l) (Service l)
     (Port l) (Redirect l) (Rewrite l) (Proxy l) (Logs l) (DefaultBackend l)
     (DefaultBackendUpstreamName l).
Definition setMultiClusterIngress (v : option MCI.t) (l : t) : t :=
  mk (Path l) (PathType l) (IsDefBackend l) v (Backend l) (Service l)
     (Port l) (Redirect l) (Rewrite l) (Proxy l) (Logs l) (DefaultBackend l)
     (DefaultBackendUpstreamName l).
Definition setBackend (v : string) (l : t) : t :=
  mk (Path l) (PathType l) (IsDefBackend l) (MultiClusterIngress l) v (Service l)
     (Port l) (Redirect l) (Rewrite l) (Proxy l) (Logs l) (DefaultBackend l)
     (DefaultBackendUpstreamName l).
Definition setService (v : option Service.t) (l : t) : t :=
  mk (Path l) (PathType l) (IsDefBackend l) (MultiClusterIngress l) (Backend l) v
     (Port l) (Redirect l) (Rewrite l) (Proxy l) (Logs l) (DefaultBackend l)
     (DefaultBackendUpstreamName l).
Definition setPort (v : IntOrString) (l : t) : t :=
  mk (Path l) (PathType l) (IsDefBackend l) (MultiClusterIngress l) (Backend l) (Service l)
     v (Redirect l) (Rewrite l) (Proxy l) (Logs l) (DefaultBackend l)
     (DefaultBackendUpstreamName l).
Definition setRedirect (v : Redirect.t) (l : t) : t :=
  mk (Path l) (PathType l) (IsDefBackend l) (MultiClusterIngress l) (Backend l) (Service l)
     (Port l) v (Rewrite l) (Proxy l) (Logs l) (DefaultBackend l)
     (DefaultBackendUpstreamName l).
Definition setRewrite (v : Rewrite.t) (l : t) : t :=
  mk (Path l) (PathType l) (IsDefBackend l) (MultiClusterIngress l) (Backend l) (Service l)
     (Port l) (Redirect l) v (Proxy l) (Logs l) (DefaultBackend l)
     (DefaultBackendUpstreamName l).
Definition setDefaultBackendUpstreamName (v : string) (l : t) : t :=
  mk (Path l) (PathType l) (IsDefBackend l) (MultiClusterIngress l) (Backend l) (Service l)
     (Port l) (Redirect l) (Rewrite l) (Proxy l) (Logs l) (DefaultBackend l)
     v.
End Location.

Module Server.
Record t : Type := mk {
  Hostname : string;
  SSLPassthrough : bool;
  SSLCert : option SSLCert.t;
  Locations : list Location.t;
  Aliases : list string;
  RedirectFromToWWW : bool;
  CertificateAuth : AuthSSL.t;
  ProxySSL : AuthSSL.t;
  ServerSnippet : string;
  SSLCiphers : string;
  SSLPreferServerCiphers : string;
  AuthTLSError : string }.

Definition setSSLCert (v : option SSLCert.t) (s : t) : t :=
  mk (Hostname s) (SSLPassthrough s) v (Locations s) (Aliases s) (RedirectFromToWWW s)
     (CertificateAuth s) (ProxySSL s) (ServerSnippet s) (SSLCiphers s)
     (SSLPreferServerCiphers s) (AuthTLSError s).
Definition setLocations (v : list Location.t) (s : t) : t :=
  mk (Hostname s) (SSLPassthrough s) (SSLCert s) v (Aliases s) (RedirectFromToWWW s)
     (CertificateAuth s) (ProxySSL s) (ServerSnippet s) (SSLCiphers s)
     (SSLPreferServerCiphers s) (AuthTLSError s).
Definition setAliases (v : list string) (s : t) : t :=
  mk (Hostname s) (SSLPassthrough s) (SSLCert s) (Locations s) v (RedirectFromToWWW s)
     (CertificateAuth s) (ProxySSL s) (ServerSnippet s) (SSLCiphers s)
     (SSLPreferServerCiphers s) (AuthTLSError s).
Definition setRedirectFromToWWW (v : bool) (s : t) : t :=
  mk (Hostname s) (SSLPassthrough s) (SSLCert s) (Locations s) (Aliases s) v
     (CertificateAuth s) (ProxySSL s) (ServerSnippet s) (SSLCiphers s)
     (SSLPreferServerCiphers s) (AuthTLSError s).
Definition setCertificateAuth (v : AuthSSL.t) (s : t) : t :=
  mk (Hostname s) (SSLPassthrough s) (SSLCert s) (Locations s) (Aliases s) (RedirectFromToWWW s)
     v (ProxySSL s) (ServerSnippet s) (SSLCiphers s)
     (SSLPreferServerCiphers s) (AuthTLSError s).
Definition setProxySSL (v : AuthSSL.t) (s : t) : t :=
  mk (Hostname s) (SSLPassthrough s) (SSLCert s) (Locations s) (Aliases s) (RedirectFromToWWW s)
     (CertificateAuth s) v (ServerSnippet s) (SSLCiphers s)
     (SSLPreferServerCiphers s) (AuthTLSError s).
Definition setServerSnippet (v : string) (s : t) : t :=
  mk (Hostname s) (SSLPassthrough s) (SSLCert s) (Locations s) (Aliases s) (RedirectFromToWWW s)
     (CertificateAuth s) (ProxySSL s) v (SSLCiphers s)
     (SSLPreferServerCiphers s) (AuthTLSError s).
Definition setSSLCiphers (v : string) (s : t) : t :=
  mk (Hostname s) (SSLPassthrough s) (SSLCert s) (Locations s) (Aliases s) (RedirectFromToWWW s)
     (CertificateAuth s) (ProxySSL s) (ServerSnippet s) v
     (SSLPreferServerCiphers s) (AuthTLSError s).
Definition setSSLPreferServerCiphers (v : string) (s : t) : t :=
  mk (Hostname s) (SSLPassthrough s) (SSLCert s) (Locations s) (Aliases s) (RedirectFromToWWW s)
     (CertificateAuth s) (ProxySSL s) (ServerSnippet s) (SSLCiphers s)
     v (AuthTLSError s).
Definition setAuthTLSError (v : string) (s : t) : t :=
  mk (Hostname s) (SSLPassthrough s) (SSLCert s) (Locations s) (Aliases s) (RedirectFromToWWW s)
     (CertificateAuth s) (ProxySSL s) (ServerSnippet s) (SSLCiphers s)
     (SSLPreferServerCiphers s) v.
End Server.

(** ** Collaborators *)

(** The receiver [n *NGINXController]: its store, its configuration and the
    methods defined in other files of the package.  An [error] component is
    the Go error returned next to the value. *)
Record NGINXController : Type := mkController {
  getDefaultUpstream : Backend.t;
  getDefaultSSLCertificate : option SSLCert.t;
  AllowSnippetAnnotations : bool;
  cfgLoadBalancing : string;
  ProxySSLLocationOnly : bool;
  EnableAccessLogForDefaultBackend : bool;
  defaultBackendProxy : Proxy.t;
  GetService : string -> option Service.t * error;
  (** store.GetLocalSSLCert returns a certificate or an error *)
  GetLocalSSLCert : string -> SSLCert.t + string;
  getServiceClusterEndpoint : string -> IngressBackend.t -> Endpoint.t * error;
  serviceEndpoints : string -> string -> list Endpoint.t * error;
  (** getEndpoints(svc, port, TCP, n.store.GetServiceEndpoints) *)
  getEndpoints : Service.t -> ServicePort.t -> list Endpoint.t;
  (** n.getStreamServices(n.cfg.TCPConfigMapName, TCP) and its UDP twin *)
  getStreamServicesTCP : list string;
  getStreamServicesUDP : list string;
  BackendConfigChecksum : string;
  (** time.Now() *)
  now : Z }.

(** errors of parser.GetBoolAnnotationFromMCI that the overlap check tells apart *)
Inductive AnnotationErr : Type :=
| ErrNil
| ErrMissingAnnotations
| ErrOther.

(** Package-level helpers and library calls whose bodies are outside this
    file; the synthesis code is parametric in them. *)
Record Helpers : Type := mkHelpers {
  upstreamName : string -> option ServiceBackend.t -> string;
  upstreamServiceNameAndPort : ServiceBackend.t -> string * IntOrString;
  intstrString : IntOrString -> string;
  GenerateDerivedServiceName : string -> string;
  dropSnippetDirectives : Annotations.t -> Annotations.t;
  locationApplyAnnotations : Location.t -> Annotations.t -> Location.t;
  canMergeBackend : Backend.t -> Backend.t -> bool;
  shouldCreateUpstreamForLocationDefaultBackend : Backend.t -> Location.t -> bool;
  updateServerLocations : list Location.t -> list Location.t;
  toLowerCaseASCII : string -> string;
  (** cert.Certificate.VerifyHostname(host) and verifyHostname(host, cert):
      [true] when the returned error is nil *)
  x509VerifyHostname : X509.t -> string -> bool;
  verifyHostname : string -> X509.t -> bool;
  GetBoolAnnotationFromMCI : string -> KarmadaMCI.t -> bool * AnnotationErr }.

(** Modelled from the spec: the reserved backend key, the reserved wildcard
    hostname and the root path are constants declared outside src/
    (section 3: "the default backend's key is a reserved constant", "the
    reserved wildcard hostname represents the catch-all server"). *)
Definition defUpstreamName : string := "upstream-default-backend".
Definition defServerName : string := "_".
Definition rootLocation : string := "/".

(** Modelled from the spec: newUpstream is declared outside src/; a new
    Backend carries its identity key as name, an empty endpoint list, an
    empty owning service and no policy (section 3, Backend). *)
Definition newUpstream (name : string) : Backend.t :=
  Backend.mk name (Some Service.empty) (IntVal 0) false [] SessionAffinity.zero
    (UpstreamHashBy.mk "" false 0) "" false TrafficShapingPolicy.zero [].

(** [anns := mci.ParsedAnnotations] followed by the guarded
    [dropSnippetDirectives(anns, mciKey)], which edits the bundle in place. *)
Definition annotationsOf (n : NGINXController) (h : Helpers) (mci : MCI.t) : Annotations.t :=
  if AllowSnippetAnnotations n then MCI.ParsedAnnotations mci
  else dropSnippetDirectives h (MCI.ParsedAnnotations mci).

(** fmt.Sprintf("%v/%v", a, b) *)
Definition slashKey (a b : string) : string := a +:+ "/" +:+ b.

Definition isErr (e : error) : bool := match e with Some _ => true | None => false end.

(** ** Upstream builder *)

Definition canaryPolicyDefault (c : Canary.t) : TrafficShapingPolicy.t :=
  TrafficShapingPolicy.mk (Canary.Weight c) (Canary.WeightTotal c) (Canary.Header c)
    (Canary.HeaderValue c) (Canary.HeaderPattern c) (Canary.Cookie c).

(** The composite literal of the rule/path branch names five fields;
    WeightTotal keeps its zero value. *)
Definition canaryPolicyPath (c : Canary.t) : TrafficShapingPolicy.t :=
  TrafficShapingPolicy.mk (Canary.Weight c) 0 (Canary.Header c)
    (Canary.HeaderValue c) (Canary.HeaderPattern c) (Canary.Cookie c).

Definition applyHashAndLB (n : NGINXController) (anns : Annotations.t) (u : Backend.t) : Backend.t :=
  let u := Backend.setUpstreamHashBy (Annotations.UpstreamHashBy anns) u in
  let u := Backend.setLoadBalancing (Annotations.LoadBalancing anns) u in
  if decide (Backend.LoadBalancing u = "") then Backend.setLoadBalancing (cfgLoadBalancing n) u
  else u.

(** Lines 389-444: the default-backend reference of one resource. *)
Definition createUpstreamDefaultBackend (n : NGINXController) (h : Helpers)
    (mci : MCI.t) (anns : Annotations.t) (upstreams : gmap string Backend.t)
    : M (gmap string Backend.t) :=
  match Spec.DefaultBackend (MCI.Spec mci) with
  | Some db =>
    match IngressBackend.Service db with
    | Some svc =>
      let defBackend := upstreamName h (MCI.Namespace mci) (Some svc) in
      klog (InfoV 3) "Creating upstream %q" ;;
      let u := newUpstream defBackend in
      let u := applyHashAndLB n anns u in
      let svcKey := slashKey (MCI.Namespace mci)
                      (GenerateDerivedServiceName h (ServiceBackend.Name svc)) in
      let* u :=
        (if Annotations.ServiceUpstream anns then
           let (endpoint, err) := getServiceClusterEndpoint n svcKey db in
           if isErr err then
             klog Error "Failed to determine a suitable ClusterIP Endpoint for Service %q: %v" ;;
             ret u
           else ret (Backend.setEndpoints [endpoint] u)
         else ret u) in
      let u :=
        if Canary.Enabled (Annotations.Canary anns) then
          Backend.setTrafficShapingPolicy (canaryPolicyDefault (Annotations.Canary anns))
            (Backend.setNoServer true u)
        else u in
      let* u :=
        (if decide (length (Backend.Endpoints u) = 0%nat) then
           let (_, port) := upstreamServiceNameAndPort h svc in
           let (endps, err) := serviceEndpoints n svcKey (intstrString h port) in
           let u := Backend.setEndpoints (Backend.Endpoints u ++ endps) u in
           if isErr err then klog Warning "Error creating upstream %q: %v" ;; ret u
           else ret u
         else ret u) in
      let (s, err) := GetService n svcKey in
      (if isErr err then klog Warning "Error obtaining Service %q: %v" else ret tt) ;;
      ret (<[defBackend := Backend.setService s u]> upstreams)
    | None => ret upstreams
    end
  | None => ret upstreams
  end.

(** Lines 451-518: one path of one rule. *)
Definition createUpstreamPath (n : NGINXController) (h : Helpers)
    (mci : MCI.t) (anns : Annotations.t) (upstreams : gmap string Backend.t)
    (path : HTTPIngressPath.t) : M (gmap string Backend.t) :=
  match IngressBackend.Service (HTTPIngressPath.Backend path) with
  | None =>
    klog (InfoV 3) "MultiClusterIngress %q and path %q does not contain a service backend, using default backend" ;;
    ret upstreams
  | Some svc =>
    let name := upstreamName h (MCI.Namespace mci) (Some svc) in
    let (svcName, svcPort) := upstreamServiceNameAndPort h svc in
    match upstreams !! name with
    | Some _ => ret upstreams
    | None =>
      klog (InfoV 3) "Creating upstream %q" ;;
      let u := newUpstream name in
      let u := Backend.setPort svcPort u in
      let u := applyHashAndLB n anns u in
      let svcKey := slashKey (MCI.Namespace mci) (GenerateDerivedServiceName h svcName) in
      let* u :=
        (if Annotations.ServiceUpstream anns then
           let (endpoint, err) :=
             getServiceClusterEndpoint n svcKey (HTTPIngressPath.Backend path) in
           if isErr err then
             klog Error "Failed to determine a suitable ClusterIP Endpoint for Service %q: %v" ;;
             ret u
           else ret (Backend.setEndpoints [endpoint] u)
         else ret u) in
      let u :=
        if Canary.Enabled (Annotations.Canary anns) then
          Backend.setTrafficShapingPolicy (canaryPolicyPath (Annotations.Canary anns))
            (Backend.setNoServer true u)
        else u in
      let (endp, err) :=
        if decide (length (Backend.Endpoints u) = 0%nat) then
          let (_, port) := upstreamServiceNameAndPort h svc in
          serviceEndpoints n svcKey (intstrString h port)
        else (Backend.Endpoints u, None) in
      if isErr err then
        klog Warning "Error obtaining Endpoints for Service %q: %v" ;;
        ret (<[name := u]> upstreams)
      else
        let u := Backend.setEndpoints endp u in
        let (s, err) := GetService n svcKey in
        if isErr err then
          klog Warning "Error obtaining Service %q: %v" ;;
          ret (<[name := u]> upstreams)
        else ret (<[name := Backend.setService s u]> upstreams)
    end
  end.

(** A [for ... range] loop whose body may log or panic. *)
Fixpoint forRange {A S : Type} (xs : list A) (body : S -> A -> M S) (s : S) : M S :=
  match xs with
  | [] => ret s
  | x :: rest => let* s' := body s x in forRange rest body s'
  end.

Definition createUpstreamRule (n : NGINXController) (h : Helpers)
    (mci : MCI.t) (anns : Annotations.t) (upstreams : gmap string Backend.t)
    (rule : IngressRule.t) : M (gmap string Backend.t) :=
  match IngressRule.HTTP rule with
  | None => ret upstreams
  | Some paths => forRange paths (createUpstreamPath n h mci anns) upstreams
  end.

Definition createUpstreamsOfMCI (n : NGINXController) (h : Helpers)
    (upstreams : gmap string Backend.t) (mci : MCI.t) : M (gmap string Backend.t) :=
  let anns := annotationsOf n h mci in
  let* upstreams := createUpstreamDefaultBackend n h mci anns upstreams in
  forRange (Spec.Rules (MCI.Spec mci)) (createUpstreamRule n h mci anns) upstreams.

(** createUpstreamsFromMCIs (lines 377-523) *)
Definition createUpstreamsFromMCIs (n : NGINXController) (h : Helpers)
    (mcis : list MCI.t) (defaultUpstream : Backend.t) : M (gmap string Backend.t) :=
  let upstreams : gmap string Backend.t := <[defUpstreamName := defaultUpstream]> ∅ in
  forRange mcis (createUpstreamsOfMCI n h) upstreams.

(** ** Server builder *)

(** sort.SliceStable(xs, less).  A stable sort is determined by its input
    and [less]; insertion from the right is taken as its definition. *)
Fixpoint insertStable {A : Type} (less : A -> A -> bool) (x : A) (l : list A) : list A :=
  match l with
  | [] => [x]
  | y :: l' => if less y x then y :: insertStable less x l' else x :: y :: l'
  end.

Definition sortSliceStable {A : Type} (less : A -> A -> bool) (l : list A) : list A :=
  foldr (insertStable less) [] l.

(** rule.Host, with the empty host standing for the catch-all server *)
Definition hostOf (rule : IngressRule.t) : string :=
  if decide (IngressRule.Host rule = "") then defServerName else IngressRule.Host rule.

(** Lines 557-573: the catch-all server and its root location. *)
Definition initialServers (n : NGINXController) (defaultUpstream : Backend.t)
    : gmap string Server.t :=
  let root :=
    Location.mk rootLocation (Some PathTypePrefix) true None (Backend.Name defaultUpstream)
      (Backend.Service defaultUpstream) (IntVal 0) Redirect.zero Rewrite.zero
      (defaultBackendProxy n) (Logs.mk (EnableAccessLogForDefaultBackend n) false)
      None "" in
  <[defServerName :=
      Server.mk defServerName false (getDefaultSSLCertificate n) [root] [] false
        AuthSSL.zero AuthSSL.zero "" "" "" ""]> ∅.

(** Lines 592-620: the default-backend reference of a non-canary resource.
    Returns the default upstream name [un] for the resource's rules. *)
Definition bindDefaultBackend (h : Helpers) (mci : MCI.t) (anns : Annotations.t)
    (upstreams : gmap string Backend.t) (un : string) (servers : gmap string Server.t)
    : M (string * gmap string Server.t) :=
  match Spec.DefaultBackend (MCI.Spec mci) with
  | Some db =>
    match IngressBackend.Service db with
    | Some svc =>
      let defUpstream := upstreamName h (MCI.Namespace mci) (Some svc) in
      match upstreams !! defUpstream with
      | Some backendUpstream =>
        let un := Backend.Name backendUpstream in
        let* catchAll := deref (servers !! defServerName) in
        let* defLoc := deref (head (Server.Locations catchAll)) in
        let defLoc := Location.setBackend (Backend.Name backendUpstream) defLoc in
        let defLoc := Location.setService (Backend.Service backendUpstream) defLoc in
        let defLoc := Location.setMultiClusterIngress (Some mci) defLoc in
        let* defLoc :=
          (if Location.IsDefBackend defLoc
              && bool_decide (length (Spec.Rules (MCI.Spec mci)) = 0%nat) then
             klog (InfoV 2) "MultiClusterIngress %q defines a backend but no rule. Using it to configure the catch-all server %q" ;;
             let defLoc := Location.setIsDefBackend false defLoc in
             let originalRedirect := Location.Redirect defLoc in
             let originalRewrite := Location.Rewrite defLoc in
             let defLoc := locationApplyAnnotations h defLoc anns in
             let defLoc := Location.setRedirect originalRedirect defLoc in
             let defLoc := Location.setRewrite originalRewrite defLoc in
             ret defLoc
           else
             klog (InfoV 3) "MultiClusterIngress %q defines both a backend and rules. Using its backend as default upstream for all its rules." ;;
             ret defLoc) in
        let catchAll :=
          Server.setLocations (defLoc :: tail (Server.Locations catchAll)) catchAll in
        ret (un, <[defServerName := catchAll]> servers)
      | None => ret (un, servers)
      end
    | None => ret (un, servers)
    end
  | None => ret (un, servers)
  end.

(** Lines 622-652: a server with a placeholder root location for every new
    host. *)
Definition initServerForRule (h : Helpers) (mci : MCI.t) (anns : Annotations.t)
    (un : string) (servers : gmap string Server.t) (rule : IngressRule.t)
    : M (gmap string Server.t) :=
  let host := hostOf rule in
  match servers !! host with
  | Some _ => ret servers
  | None =>
    let loc :=
      Location.mk rootLocation (Some PathTypePrefix) true (Some mci) un
        (Some Service.empty) (IntVal 0) Redirect.zero Rewrite.zero Proxy.zero
        (Logs.mk false false) None "" in
    let loc := locationApplyAnnotations h loc anns in
    ret (<[host :=
             Server.mk host (Annotations.SSLPassthrough anns) None [loc] [] false
               AuthSSL.zero AuthSSL.zero ""
               (SSLCipher.SSLCiphers (Annotations.SSLCipher anns))
               (SSLCipher.SSLPreferServerCiphers (Annotations.SSLCipher anns)) ""]> servers)
  end.

(** Lines 576-653, one resource. *)
Definition initServersOfMCI (n : NGINXController) (h : Helpers)
    (upstreams : gmap string Backend.t) (defaultUpstream : Backend.t)
    (servers : gmap string Server.t) (mci : MCI.t) : M (gmap string Server.t) :=
  let anns := annotationsOf n h mci in
  let mci := MCI.withAnnotations anns mci in
  let un := Backend.Name defaultUpstream in
  if Canary.Enabled (Annotations.Canary anns) then
    klog (InfoV 2) "MultiClusterIngress %v is marked as Canary, ignoring" ;;
    ret servers
  else
    let* (un, servers) := bindDefaultBackend h mci anns upstreams un servers in
    forRange (Spec.Rules (MCI.Spec mci)) (initServerForRule h mci anns un) servers.

(** Lines 800-806: the secret of the first TLS entry listing the host. *)
Fixpoint secretNameForHost (h : Helpers) (lowercaseHost : string)
    (tls : list IngressTLS.t) : option string :=
  match tls with
  | [] => None
  | t :: rest =>
    if existsb (fun tlsHost => bool_decide (toLowerCaseASCII h tlsHost = lowercaseHost))
         (IngressTLS.Hosts t)
    then Some (IngressTLS.SecretName t)
    else secretNameForHost h lowercaseHost rest
  end.

(** Lines 809-836: the first TLS secret whose certificate validates the
    host. *)
Fixpoint secretNameBySAN (h : Helpers) (getLocalSSLCert : string -> SSLCert.t + string)
    (host namespace : string) (tls : list IngressTLS.t) : M string :=
  match tls with
  | [] => ret ""
  | t :: rest =>
    if decide (IngressTLS.SecretName t = "") then
      secretNameBySAN h getLocalSSLCert host namespace rest
    else
      let secrKey := slashKey namespace (IngressTLS.SecretName t) in
      match getLocalSSLCert secrKey with
      | inr _ =>
        klog Warning "Error getting SSL certificate %q: %v" ;;
        secretNameBySAN h getLocalSSLCert host namespace rest
      | inl cert =>
        match SSLCert.Certificate cert with
        | None => secretNameBySAN h getLocalSSLCert host namespace rest
        | Some x =>
          if x509VerifyHostname h x host then
            klog (InfoV 3) "Found SSL certificate matching host %q: %q" ;;
            ret (IngressTLS.SecretName t)
          else secretNameBySAN h getLocalSSLCert host namespace rest
        end
      end
  end.

(** extractTLSSecretNameFromMCI (lines 791-837) *)
Definition extractTLSSecretNameFromMCI (h : Helpers) (host : string) (mci : MCI.t)
    (getLocalSSLCert : string -> SSLCert.t + string) : M string :=
  let lowercaseHost := toLowerCaseASCII h host in
  match secretNameForHost h lowercaseHost (Spec.TLS (MCI.Spec mci)) with
  | Some name => ret name
  | None =>
    secretNameBySAN h getLocalSSLCert host (MCI.Namespace mci) (Spec.TLS (MCI.Spec mci))
  end.

(** Lines 703-757: the certificate of the server of one rule host. *)
Definition configureCertificate (n : NGINXController) (h : Helpers) (host : string)
    (mci : MCI.t) (srv : Server.t) : M Server.t :=
  let useDefault := Server.setSSLCert (getDefaultSSLCertificate n) srv in
  match Server.SSLCert srv with
  | Some _ => ret srv
  | None =>
    if decide (length (Spec.TLS (MCI.Spec mci)) = 0%nat) then
      klog (InfoV 3) "MultiClusterIngress %q does not contains a TLS section." ;;
      ret srv
    else
      let* tlsSecretName := extractTLSSecretNameFromMCI h host mci (GetLocalSSLCert n) in
      if decide (tlsSecretName = "") then
        klog (InfoV 3) "Host %q is listed in the TLS section but secretName is empty. Using default certificate" ;;
        ret useDefault
      else
        let secrKey := slashKey (MCI.Namespace mci) tlsSecretName in
        match GetLocalSSLCert n secrKey with
        | inr _ =>
          klog Warning "Error getting SSL certificate %q: %v. Using default certificate" ;;
          ret useDefault
        | inl cert =>
          match SSLCert.Certificate cert with
          | None =>
            klog Warning "SSL certificate %q does not contain a valid SSL certificate for server %q" ;;
            klog Warning "Using default certificate" ;;
            ret useDefault
          | Some x =>
            let expiry :=
              if (SSLCert.ExpireTime cert <? now n)%Z then
                klog Warning "SSL certificate for server %q expired (%v)"
              else if (SSLCert.ExpireTime cert <? now n + 240 * 3600)%Z then
                klog Warning "SSL certificate for server %q is about to expire (%v)"
              else ret tt in
            if x509VerifyHostname h x host then
              expiry ;; ret (Server.setSSLCert (Some cert) srv)
            else
              klog Warning "Unexpected error validating SSL certificate %q for server %q: %v" ;;
              klog Warning "Validating certificate against DNS names. This will be deprecated in a future version" ;;
              if verifyHostname h host x then
                expiry ;; ret (Server.setSSLCert (Some cert) srv)
              else
                klog Warning "SSL certificate %q does not contain a Common Name or Subject Alternative Name for server %q: %v" ;;
                klog Warning "Using default certificate" ;;
                ret useDefault
          end
        end
  end.

(** Lines 669-758: aliases, snippet, ciphers and certificate of one rule. *)
Definition configureServerForRule (n : NGINXController) (h : Helpers)
    (mci : MCI.t) (anns : Annotations.t)
    (st : gmap string Server.t * gmap string (list string)) (rule : IngressRule.t)
    : M (gmap string Server.t * gmap string (list string)) :=
  let (servers, allAliases) := st in
  let host := hostOf rule in
  let* srv := deref (servers !! host) in
  let* (srv, allAliases) :=
    (if decide (length (Server.Aliases srv) = 0%nat) then
       let srv := Server.setAliases (Annotations.Aliases anns) srv in
       if decide (length (default [] (allAliases !! host)) = 0%nat)
       then ret (srv, <[host := Annotations.Aliases anns]> allAliases)
       else ret (srv, allAliases)
     else
       klog Warning "Aliases already configured for server %q, skipping (MultiClusterIngress %q)" ;;
       ret (srv, allAliases)) in
  let* srv :=
    (if decide (Annotations.ServerSnippet anns = "") then ret srv
     else if decide (Server.ServerSnippet srv = "") then
       ret (Server.setServerSnippet (Annotations.ServerSnippet anns) srv)
     else
       klog Warning "Server snippet already configured for server %q, skipping (MultiClusterIngress %q)" ;;
       ret srv) in
  let srv :=
    if bool_decide (Server.SSLCiphers srv = "")
       && negb (bool_decide (SSLCipher.SSLCiphers (Annotations.SSLCipher anns) = ""))
    then Server.setSSLCiphers (SSLCipher.SSLCiphers (Annotations.SSLCipher anns)) srv
    else srv in
  let srv :=
    if bool_decide (Server.SSLPreferServerCiphers srv = "")
       && negb (bool_decide (SSLCipher.SSLPreferServerCiphers (Annotations.SSLCipher anns) = ""))
    then Server.setSSLPreferServerCiphers
           (SSLCipher.SSLPreferServerCiphers (Annotations.SSLCipher anns)) srv
    else srv in
  let* srv := configureCertificate n h host mci srv in
  ret (<[host := srv]> servers, allAliases).

(** Lines 656-759, one resource. *)
Definition configureServersOfMCI (n : NGINXController) (h : Helpers)
    (st : gmap string Server.t * gmap string (list string)) (mci : MCI.t)
    : M (gmap string Server.t * gmap string (list string)) :=
  let anns := annotationsOf n h mci in
  let mci := MCI.withAnnotations anns mci in
  if Canary.Enabled (Annotations.Canary anns) then
    klog (InfoV 2) "MultiClusterIngress %v is marked as Canary, ignoring" ;;
    ret st
  else forRange (Spec.Rules (MCI.Spec mci)) (configureServerForRule n h mci anns) st.

(** Lines 766-781: the aliases kept for a host, in order of first
    occurrence. *)
Fixpoint uniqAliases (servers : gmap string Server.t) (host : string)
    (seen hostAliases : list string) : list string :=
  match hostAliases with
  | [] => seen
  | alias :: rest =>
    if decide (alias = host) then uniqAliases servers host seen rest
    else if decide (is_Some (servers !! alias)) then uniqAliases servers host seen rest
    else if decide (alias ∈ seen) then uniqAliases servers host seen rest
    else uniqAliases servers host (seen ++ [alias]) rest
  end.

(** sets.String.List(): the members in ascending order. *)
Definition setList (members : list string) : list string :=
  sortSliceStable String.ltb members.

(** Lines 761-784. *)
Definition dedupAliases (servers : gmap string Server.t)
    (entry : string * list string) : gmap string Server.t :=
  let (host, hostAliases) := entry in
  match servers !! host with
  | None => servers
  | Some srv =>
    <[host := Server.setAliases (setList (uniqAliases servers host [] hostAliases)) srv]> servers
  end.

(** createServersFromMCIs (lines 528-787) *)
Definition createServersFromMCIs (n : NGINXController) (h : Helpers)
    (mcis : list MCI.t) (upstreams : gmap string Backend.t)
    (defaultUpstream : Backend.t) : M (gmap string Server.t) :=
  let servers := initialServers n defaultUpstream in
  let allAliases : gmap string (list string) := ∅ in
  let* servers := forRange mcis (initServersOfMCI n h upstreams defaultUpstream) servers in
  let* (servers, allAliases) :=
    forRange mcis (configureServersOfMCI n h) (servers, allAliases) in
  ret (foldl dedupAliases servers (map_to_list allAliases)).

(** ** Canary merger *)

(** nonCanaryMCIExists (lines 840-842); Go [int] subtraction *)
Definition nonCanaryMCIExists (mcis canaryMCIs : list MCI.t) : bool :=
  bool_decide (Z.of_nat (length mcis) - Z.of_nat (length canaryMCIs) > 0)%Z.

(** mergeAlternativeBackendByMCI (lines 949-971).  Returns the verdict and
    the two backends as the call leaves them. *)
Definition mergeAlternativeBackendByMCI (mci : MCI.t) (priUps altUps : Backend.t)
    : M (bool * Backend.t * Backend.t) :=
  if Backend.NoServer priUps then
    klog Warning "unable to merge alternative backend %v into primary backend %v because %v is a primary backend" ;;
    ret (false, priUps, altUps)
  else if existsb (fun ab => bool_decide (ab = Backend.Name altUps))
            (Backend.AlternativeBackends priUps) then
    klog (InfoV 2) "skip merge alternative backend %v into %v, it's already present" ;;
    ret (true, priUps, altUps)
  else
    let altUps :=
      if decide (AffinityConfig.CanaryBehavior
                   (Annotations.SessionAffinity (MCI.ParsedAnnotations mci)) = "legacy")
      then altUps
      else Backend.setSessionAffinity (Backend.SessionAffinity priUps) altUps in
    let priUps :=
      Backend.setAlternativeBackends
        (Backend.AlternativeBackends priUps ++ [Backend.Name altUps]) priUps in
    ret (true, priUps, altUps).

(** The scan of a server's locations (lines 864-879 and 923-938).  [altKey]
    is the key under which [altUps] was found; [extra] is the part of the
    merge condition that follows canMergeBackend.  Returns altEqualsPri,
    merged and the Backend map. *)
Fixpoint scanLocations (h : Helpers) (mci : MCI.t) (altKey : string)
    (extra : Location.t -> M bool) (locs : list Location.t) (merged : bool)
    (upstreams : gmap string Backend.t) : M (bool * bool * gmap string Backend.t) :=
  match locs with
  | [] => ret (false, merged, upstreams)
  | loc :: rest =>
    let* altUps := deref (upstreams !! altKey) in
    let* priUps := deref (upstreams !! Location.Backend loc) in
    if decide (Backend.Name altUps = Backend.Name priUps) then
      klog Warning "alternative upstream %s in Ingress %s/%s is primary upstream in Other Ingress for location %s%s!" ;;
      ret (true, merged, upstreams)
    else
      let* ok := (if canMergeBackend h priUps altUps then extra loc else ret false) in
      if ok then
        klog (InfoV 2) "matching backend %v found for alternative backend %v" ;;
        let* (verdict, priUps', altUps') := mergeAlternativeBackendByMCI mci priUps altUps in
        let upstreams :=
          <[altKey := altUps']> (<[Location.Backend loc := priUps']> upstreams) in
        scanLocations h mci altKey extra rest verdict upstreams
      else scanLocations h mci altKey extra rest merged upstreams
  end.

(** Lines 881-884 and 940-943. *)
Definition dropUnmerged (altKey : string) (scan : bool * bool * gmap string Backend.t)
    : M (gmap string Backend.t) :=
  let '(altEqualsPri, merged, upstreams) := scan in
  if negb altEqualsPri && negb merged then
    let* altUps := deref (upstreams !! altKey) in
    klog Warning "unable to find real backend for alternative backend %v. Deleting." ;;
    ret (delete (Backend.Name altUps) upstreams)
  else ret upstreams.

(** Lines 852-886: the catch-all alternative backend. *)
Definition mergeDefaultBackend (h : Helpers) (mci : MCI.t)
    (servers : gmap string Server.t) (upstreams : gmap string Backend.t)
    : M (gmap string Backend.t) :=
  match Spec.DefaultBackend (MCI.Spec mci) with
  | None => ret upstreams
  | Some db =>
    let upsName := upstreamName h (MCI.Namespace mci) (IngressBackend.Service db) in
    match upstreams !! upsName with
    | None =>
      klog Warning "alternative backend %s has already been removed" ;;
      ret upstreams
    | Some _ =>
      let* catchAll := deref (servers !! defServerName) in
      let* scan :=
        scanLocations h mci upsName (fun _ => ret true) (Server.Locations catchAll)
          false upstreams in
      dropUnmerged upsName scan
    end
  end.

(** [loc.Path == path.Path && *loc.PathType == *path.PathType] *)
Definition samePathAndType (path : HTTPIngressPath.t) (loc : Location.t) : M bool :=
  if decide (Location.Path loc = HTTPIngressPath.Path path) then
    let* lt := deref (Location.PathType loc) in
    let* pt := deref (HTTPIngressPath.PathType path) in
    ret (bool_decide (lt = pt))
  else ret false.

(** Lines 894-944: one path of a canary rule. *)
Definition mergePath (h : Helpers) (mci : MCI.t) (servers : gmap string Server.t)
    (host : string) (upstreams : gmap string Backend.t) (path : HTTPIngressPath.t)
    : M (gmap string Backend.t) :=
  match IngressBackend.Service (HTTPIngressPath.Backend path) with
  | None =>
    klog (InfoV 3) "Ingress %q and path %q does not contain a service backend, using default backend" ;;
    ret upstreams
  | Some svc =>
    let upsName := upstreamName h (MCI.Namespace mci) (Some svc) in
    match upstreams !! upsName with
    | None =>
      klog Warning "alternative backend %s has already been removed" ;;
      ret upstreams
    | Some _ =>
      match servers !! host with
      | None =>
        klog Error "cannot merge alternative backend %s into hostname %s that does not exist" ;;
        ret upstreams
      | Some server =>
        let* scan :=
          scanLocations h mci upsName (samePathAndType path) (Server.Locations server)
            false upstreams in
        dropUnmerged upsName scan
      end
    end
  end.

(** Lines 888-945: [rule.HTTP.Paths] is read without a nil check. *)
Definition mergeRule (h : Helpers) (mci : MCI.t) (servers : gmap string Server.t)
    (upstreams : gmap string Backend.t) (rule : IngressRule.t)
    : M (gmap string Backend.t) :=
  let host := hostOf rule in
  let* paths := deref (IngressRule.HTTP rule) in
  forRange paths (mergePath h mci servers host) upstreams.

(** mergeAlternativeBackendsByMCI (lines 848-946) *)
Definition mergeAlternativeBackendsByMCI (h : Helpers) (mci : MCI.t)
    (upstreams : gmap string Backend.t) (servers : gmap string Server.t)
    : M (gmap string Backend.t) :=
  let* upstreams := mergeDefaultBackend h mci servers upstreams in
  forRange (Spec.Rules (MCI.Spec mci)) (mergeRule h mci servers) upstreams.

(** ** Locations and final assembly *)

(** Lines 181-216: the first location with the path of the rule decides.
    Returns the locations, addLoc, and whether the server is to be flagged
    RedirectFromToWWW. *)
Fixpoint updateExistingLocation (h : Helpers) (mci : MCI.t) (anns : Annotations.t)
    (ups : Backend.t) (nginxPath : string) (pathType : option PathType)
    (locs : list Location.t) : M (list Location.t * bool * bool) :=
  match locs with
  | [] => ret ([], true, false)
  | loc :: rest =>
    if decide (Location.Path loc = nginxPath) then
      if decide (Location.PathType loc = pathType) then
        if Location.IsDefBackend loc then
          klog (InfoV 3) "Replacing location %q for server %q with upstream %q to use upstream %q (MultiClusterIngress %q)" ;;
          let loc := Location.setBackend (Backend.Name ups) loc in
          let loc := Location.setIsDefBackend false loc in
          let loc := Location.setPort (Backend.Port ups) loc in
          let loc := Location.setService (Backend.Service ups) loc in
          let loc := Location.setMultiClusterIngress (Some mci) loc in
          let loc := locationApplyAnnotations h loc anns in
          ret (loc :: rest, false, Redirect.FromToWWW (Location.Redirect loc))
        else
          klog (InfoV 3) "Location %q already configured for server %q with upstream %q (MultiClusterIngress %q)" ;;
          ret (loc :: rest, false, false)
      else ret (loc :: rest, true, false)
    else
      let* (rest', addLoc, www) :=
        updateExistingLocation h mci anns ups nginxPath pathType rest in
      ret (loc :: rest', addLoc, www)
  end.

(** [locs[key] = append(locs[key], path)] with the entry created on demand *)
Definition appendCookiePath (key path : string) (locs : gmap string (list string))
    : gmap string (list string) :=
  <[key := default [] (locs !! key) ++ [path]]> locs.

(** Lines 239-276: session affinity of the upstream of a path. *)
Definition applySessionAffinity (anns : Annotations.t) (host : string)
    (aliases : list string) (path : string) (ups : Backend.t) : M Backend.t :=
  let sa := Backend.SessionAffinity ups in
  let aff := Annotations.SessionAffinity anns in
  let affinityType :=
    if decide (SessionAffinity.AffinityType sa = "") then AffinityConfig.Type_ aff
    else SessionAffinity.AffinityType sa in
  let affinityMode :=
    if decide (SessionAffinity.AffinityMode sa = "") then AffinityConfig.Mode aff
    else SessionAffinity.AffinityMode sa in
  if decide (AffinityConfig.Type_ aff = "cookie") then
    let ck := AffinityConfig.Cookie aff in
    let cookiePath := AffinityCookie.Path ck in
    (if Rewrite.UseRegex (Annotations.Rewrite anns) && bool_decide (cookiePath = "")
     then klog Warning "session-cookie-path should be set when use-regex is true"
     else ret tt) ;;
    let locs := CookieSessionAffinity.Locations (SessionAffinity.CookieSessionAffinity sa) in
    let locs := appendCookiePath host path locs in
    let locs := foldl (fun m alias => appendCookiePath alias path m) locs aliases in
    let csa :=
      CookieSessionAffinity.mk (AffinityCookie.Name ck) (AffinityCookie.Expires ck)
        (AffinityCookie.MaxAge ck) (AffinityCookie.Secure ck) cookiePath
        (AffinityCookie.SameSite ck) (AffinityCookie.ConditionalSameSiteNone ck)
        (AffinityCookie.ChangeOnFailure ck) locs in
    ret (Backend.setSessionAffinity (SessionAffinity.mk affinityType affinityMode csa) ups)
  else
    ret (Backend.setSessionAffinity
           (SessionAffinity.mk affinityType affinityMode
              (SessionAffinity.CookieSessionAffinity sa)) ups).

(** Lines 159-277: one path of a rule, for the server [server]. *)
Definition locationForPath (h : Helpers) (mci : MCI.t) (anns : Annotations.t)
    (host : string) (st : Server.t * gmap string Backend.t) (path : HTTPIngressPath.t)
    : M (Server.t * gmap string Backend.t) :=
  let (server, upstreams) := st in
  match IngressBackend.Service (HTTPIngressPath.Backend path) with
  | None =>
    klog (InfoV 3) "MultiClusterIngress %q and path %q does not contain a service backend, using default backend" ;;
    ret st
  | Some svc =>
    let upsName := upstreamName h (MCI.Namespace mci) (Some svc) in
    let* ups := deref (upstreams !! upsName) in
    if Backend.NoServer ups then ret st
    else
      let nginxPath :=
        if decide (HTTPIngressPath.Path path = "") then rootLocation
        else HTTPIngressPath.Path path in
      let* (locs, addLoc, www) :=
        updateExistingLocation h mci anns ups nginxPath (HTTPIngressPath.PathType path)
          (Server.Locations server) in
      let server := Server.setLocations locs server in
      let server := if www then Server.setRedirectFromToWWW true server else server in
      let* server :=
        (if addLoc then
           klog (InfoV 3) "Adding location %q for server %q with upstream %q (MultiClusterIngress %q)" ;;
           let loc :=
             Location.mk nginxPath (HTTPIngressPath.PathType path) false (Some mci)
               (Backend.Name ups) (Backend.Service ups) (Backend.Port ups)
               Redirect.zero Rewrite.zero Proxy.zero (Logs.mk false false) None "" in
           let loc := locationApplyAnnotations h loc anns in
           let server :=
             if Redirect.FromToWWW (Location.Redirect loc)
             then Server.setRedirectFromToWWW true server else server in
           ret (Server.setLocations (Server.Locations server ++ [loc]) server)
         else ret server) in
      let* ups :=
        applySessionAffinity anns host (Server.Aliases server)
          (HTTPIngressPath.Path path) ups in
      ret (server, <[upsName := ups]> upstreams)
  end.

(** Lines 126-152: mutual authentication and client certificate of the
    server. *)
Definition applyServerAuth (n : NGINXController) (anns : Annotations.t)
    (server : Server.t) : M Server.t :=
  let server :=
    if bool_decide (Server.AuthTLSError server = "")
       && negb (bool_decide (AuthSSL.AuthTLSError (Annotations.CertificateAuth anns) = ""))
    then Server.setAuthTLSError (AuthSSL.AuthTLSError (Annotations.CertificateAuth anns)) server
    else server in
  let* server :=
    (if decide (AuthSSL.CAFileName (Server.CertificateAuth server) = "") then
       let server := Server.setCertificateAuth (Annotations.CertificateAuth anns) server in
       (if negb (bool_decide (AuthSSL.Secret (Server.CertificateAuth server) = ""))
           && bool_decide (AuthSSL.CAFileName (Server.CertificateAuth server) = "")
        then klog (InfoV 3) "Secret %q has no 'ca.crt' key, mutual authentication disabled for MultiClusterIngress %q"
        else ret tt) ;;
       ret server
     else
       klog (InfoV 3) "Server %q is already configured for mutual authentication (MultiClusterIngress %q)" ;;
       ret server) in
  if ProxySSLLocationOnly n then ret server
  else if decide (AuthSSL.CAFileName (Server.ProxySSL server) = "") then
    let server := Server.setProxySSL (Annotations.ProxySSL anns) server in
    (if negb (bool_decide (AuthSSL.Secret (Server.ProxySSL server) = ""))
        && bool_decide (AuthSSL.CAFileName (Server.ProxySSL server) = "")
     then klog (InfoV 3) "Secret %q has no 'ca.crt' key, client cert authentication disabled for MultiClusterIngress %q"
     else ret tt) ;;
    ret server
  else
    klog (InfoV 3) "Server %q is already configured for client cert authentication (MultiClusterIngress %q)" ;;
    ret server.

(** Lines 109-278: one rule. *)
Definition locationsForRule (n : NGINXController) (h : Helpers) (mci : MCI.t)
    (anns : Annotations.t) (st : gmap string Server.t * gmap string Backend.t)
    (rule : IngressRule.t) : M (gmap string Server.t * gmap string Backend.t) :=
  let (servers, upstreams) := st in
  let host := hostOf rule in
  let key := if decide (is_Some (servers !! host)) then host else defServerName in
  if bool_decide (IngressRule.HTTP rule = None) && negb (bool_decide (host = defServerName))
  then
    klog (InfoV 3) "MultiClusterIngress %q does not contain any HTTP rule, using default backend" ;;
    ret st
  else
    let* server := deref (servers !! key) in
    let* server := applyServerAuth n anns server in
    match IngressRule.HTTP rule with
    | None =>
      klog (InfoV 3) "MultiClusterIngress %q does not contain any HTTP rule, using default backend" ;;
      ret (<[key := server]> servers, upstreams)
    | Some paths =>
      let* (server, upstreams) :=
        forRange paths (locationForPath h mci anns host) (server, upstreams) in
      ret (<[key := server]> servers, upstreams)
    end.

(** Lines 101-284: one resource; canary resources are set aside. *)
Definition locationsOfMCI (n : NGINXController) (h : Helpers)
    (st : gmap string Server.t * gmap string Backend.t * list MCI.t) (mci : MCI.t)
    : M (gmap string Server.t * gmap string Backend.t * list MCI.t) :=
  let '(servers, upstreams, canaryMCIs) := st in
  let anns := annotationsOf n h mci in
  let mci := MCI.withAnnotations anns mci in
  let* (servers, upstreams) :=
    forRange (Spec.Rules (MCI.Spec mci)) (locationsForRule n h mci anns)
      (servers, upstreams) in
  if Canary.Enabled (Annotations.Canary anns)
  then ret (servers, upstreams, canaryMCIs ++ [mci])
  else ret (servers, upstreams, canaryMCIs).

(** fmt.Sprintf("custom-default-backend-%v-%v", namespace, name) *)
Definition customDefaultBackendName (svc : Service.t) : string :=
  "custom-default-backend-" +:+ Service.Namespace svc +:+ "-" +:+ Service.Name svc.

(** Lines 303-344: one location seen from one upstream.  The accumulator
    holds the locations already visited, the synthesized backends and
    whether the server joined isHTTPSfrom. *)
Definition customDefaultBackend (n : NGINXController) (h : Helpers)
    (upstream : Backend.t) (server : Server.t)
    (acc : list Location.t * list Backend.t * bool) (location : Location.t)
    : M (list Location.t * list Backend.t * bool) :=
  let '(done, created, https) := acc in
  if negb (shouldCreateUpstreamForLocationDefaultBackend h upstream location) then
    ret (done ++ [location], created, https)
  else
    let* defaultBackend := deref (Location.DefaultBackend location) in
    match Service.Ports defaultBackend with
    | [] =>
      klog Error "Custom default backend service %v/%v has no ports. Ignoring" ;;
      ret (done ++ [location], created, https)
    | sp :: _ =>
      let endps := getEndpoints n defaultBackend sp in
      let* (location, created) :=
        (if decide (length endps = 0%nat) then ret (location, created)
         else
           let name := customDefaultBackendName defaultBackend in
           klog (InfoV 3) "Creating %v upstream based on default backend annotation" ;;
           let nb := Backend.setEndpoints endps (Backend.setName name upstream) in
           let location := Location.setDefaultBackendUpstreamName name location in
           if decide (length (Backend.Endpoints upstream) = 0%nat) then
             klog (InfoV 3) "Upstream %q has no active Endpoint, so using custom default backend for location %q in server %q (Service %v/%v)" ;;
             ret (Location.setBackend name location, created ++ [nb])
           else ret (location, created ++ [nb])) in
      if Server.SSLPassthrough server && bool_decide (Location.Path location = rootLocation)
      then
        if decide (Location.Backend location = defUpstreamName) then
          klog Warning "Server %q has no default backend, ignoring SSL Passthrough." ;;
          ret (done ++ [location], created, https)
        else ret (done ++ [location], created, true)
      else ret (done ++ [location], created, https)
    end.

(** Lines 302-345: the servers seen from one upstream. *)
Definition customDefaultBackendsOfServer (n : NGINXController) (h : Helpers)
    (upstream : Backend.t)
    (st : gmap string Server.t * list Backend.t * bool) (key : string)
    : M (gmap string Server.t * list Backend.t * bool) :=
  let '(servers, created, https) := st in
  let* server := deref (servers !! key) in
  let* (locs, created, https) :=
    forRange (Server.Locations server) (customDefaultBackend n h upstream server)
      ([], created, https) in
  ret (<[key := Server.setLocations locs server]> servers, created, https).

(** Go visits the entries of a map in an order it chooses anew at every
    [range] statement.  A [MapOrder] stands for these choices during the
    assembly: the order of the Backend map (line 294), the order of the
    server map each time a backend is visited (line 302), and the order of
    the server map in the final loop (line 353). *)
Record MapOrder : Type := mkOrder {
  overBackends : gmap string Backend.t -> list (string * Backend.t);
  overServers : Backend.t -> gmap string Server.t -> list (string * Server.t);
  overSorted : gmap string Server.t -> list (string * Server.t) }.

(** Whatever the order, each entry of the map is visited once. *)
Definition validOrder (order : MapOrder) : Prop :=
  (forall m, overBackends order m ≡ₚ map_to_list m)
  /\ (forall upstream m, overServers order upstream m ≡ₚ map_to_list m)
  /\ (forall m, overSorted order m ≡ₚ map_to_list m).

(** The order the rest of the development runs the assembly in. *)
Definition goOrder : MapOrder :=
  mkOrder map_to_list (fun _ => map_to_list) map_to_list.

(** Lines 294-350: one entry of the Backend map. *)
Definition assembleUpstreamIn (order : MapOrder) (n : NGINXController) (h : Helpers)
    (st : list Backend.t * gmap string Server.t) (upstream : Backend.t)
    : M (list Backend.t * gmap string Server.t) :=
  let (aUpstreams, servers) := st in
  if decide (Backend.Name upstream = defUpstreamName) then
    ret (aUpstreams ++ [upstream], servers)
  else
    let* (servers, created, https) :=
      forRange (map fst (overServers order upstream servers))
        (customDefaultBackendsOfServer n h upstream) (servers, [], false) in
    let upstream := if https then Backend.setSSLPassthrough true upstream else upstream in
    ret (aUpstreams ++ upstream :: created, servers).

Definition assembleUpstream (n : NGINXController) (h : Helpers)
    (st : list Backend.t * gmap string Server.t) (upstream : Backend.t)
    : M (list Backend.t * gmap string Server.t) :=
  assembleUpstreamIn goOrder n h st upstream.

Definition pathGreater (a b : Location.t) : bool :=
  String.ltb (Location.Path b) (Location.Path a).

Definition pathLonger (a b : Location.t) : bool :=
  bool_decide (String.length (Location.Path b) < String.length (Location.Path a))%nat.

(** Lines 354-360: the two stable sorts of a server's locations. *)
Definition sortLocations (value : Server.t) : Server.t :=
  Server.setLocations
    (sortSliceStable pathLonger (sortSliceStable pathGreater (Server.Locations value)))
    value.

Definition nameLess (a b : Backend.t) : bool := String.ltb (Backend.Name a) (Backend.Name b).

Definition hostnameLess (a b : Server.t) : bool :=
  String.ltb (Server.Hostname a) (Server.Hostname b).

(** Lines 292-372, the maps being visited in the order [order]. *)
Definition assembleIn (order : MapOrder) (n : NGINXController) (h : Helpers)
    (upstreams : gmap string Backend.t) (servers : gmap string Server.t)
    : M (list Backend.t * list Server.t) :=
  let* (aUpstreams, servers) :=
    forRange (map snd (overBackends order upstreams)) (assembleUpstreamIn order n h)
      ([], servers) in
  let aServers := map (fun kv => sortLocations (snd kv)) (overSorted order servers) in
  ret (sortSliceStable nameLess aUpstreams, sortSliceStable hostnameLess aServers).

Definition assemble (n : NGINXController) (h : Helpers)
    (upstreams : gmap string Backend.t) (servers : gmap string Server.t)
    : M (list Backend.t * list Server.t) :=
  assembleIn goOrder n h upstreams servers.

(** getBackendServersFromMCIs (lines 94-373) *)
Definition getBackendServersFromMCIs (n : NGINXController) (h : Helpers)
    (mcis : list MCI.t) : M (list Backend.t * list Server.t) :=
  let defaultUpstream := getDefaultUpstream n in
  let* upstreams := createUpstreamsFromMCIs n h mcis defaultUpstream in
  let* servers := createServersFromMCIs n h mcis upstreams defaultUpstream in
  let* (servers, upstreams, canaryMCIs) :=
    forRange mcis (locationsOfMCI n h) (servers, upstreams, []) in
  let* upstreams :=
    (if nonCanaryMCIExists mcis canaryMCIs then
       forRange canaryMCIs
         (fun upstreams canaryMCI => mergeAlternativeBackendsByMCI h canaryMCI upstreams servers)
         upstreams
     else ret upstreams) in
  assemble n h upstreams servers.

(** ** Configuration *)

Module SSLPassthroughBackend.
Record t : Type := mk {
  Service : option Service.t;
  Port : IntOrString;
  Backend : string;
  Hostname : string }.
End SSLPassthroughBackend.

Module Configuration.
Record t : Type := mk {
  Backends : list Backend.t;
  Servers : list Server.t;
  TCPEndpoints : list string;
  UDPEndpoints : list string;
  PassthroughBackends : list SSLPassthroughBackend.t;
  BackendConfigChecksum : string;
  DefaultSSLCertificate : option SSLCert.t;
  StreamSnippets : list string }.
End Configuration.

(** Lines 64-76: the passthrough backend of a server is its first root
    location. *)
Fixpoint passthroughOf (server : Server.t) (locs : list Location.t)
    : M (list SSLPassthroughBackend.t) :=
  match locs with
  | [] => ret []
  | loc :: rest =>
    if decide (Location.Path loc = rootLocation) then
      ret [SSLPassthroughBackend.mk (Location.Service loc) (Location.Port loc)
             (Location.Backend loc) (Server.Hostname server)]
    else
      klog Warning "Ignoring SSL Passthrough for location %q in server %q" ;;
      passthroughOf server rest
  end.

(** Lines 35-77, one server. *)
Definition finishServer (h : Helpers)
    (st : gset string * list Server.t * list SSLPassthroughBackend.t) (server : Server.t)
    : M (gset string * list Server.t * list SSLPassthroughBackend.t) :=
  let '(hosts, servers, passUpstreams) := st in
  let server := Server.setLocations (updateServerLocations h (Server.Locations server)) server in
  let hosts := hosts ∪ {[Server.Hostname server]} ∪ list_to_set (Server.Aliases server) in
  if Server.SSLPassthrough server then
    let* pass := passthroughOf server (Server.Locations server) in
    ret (hosts, servers ++ [server], passUpstreams ++ pass)
  else ret (hosts, servers ++ [server], passUpstreams).

(** getStreamSnippetsFromMCIs (lines 973-982) *)
Definition getStreamSnippetsFromMCIs (mcis : list MCI.t) : list string :=
  filter (fun snippet => snippet ≠ "")
    (map (fun mci => Annotations.StreamSnippet (MCI.ParsedAnnotations mci)) mcis).

(** getConfigurationFromMCI (lines 29-89).  The stream snippets are read
    after the snippet directives were dropped in place. *)
Definition getConfigurationFromMCI (n : NGINXController) (h : Helpers)
    (mcis : list MCI.t) : M (gset string * list Server.t * Configuration.t) :=
  let* (upstreams, servers) := getBackendServersFromMCIs n h mcis in
  let* (hosts, servers, passUpstreams) :=
    forRange servers (finishServer h) (∅, [], []) in
  ret (hosts, servers,
       Configuration.mk upstreams servers (getStreamServicesTCP n) (getStreamServicesUDP n)
         passUpstreams (BackendConfigChecksum n) (getDefaultSSLCertificate n)
         (getStreamSnippetsFromMCIs
            (map (fun mci => MCI.withAnnotations (annotationsOf n h mci) mci) mcis))).

(** ** Overlap check of the validator *)

(** The error of [checkOverlapWithMCI]: host and path "already defined in
    multiclusteringress namespace/name". *)
Record OverlapError : Type := AlreadyDefined {
  overlapHost : string;
  overlapPath : string;
  overlapNamespace : string;
  overlapName : string }.

(** mciForHostPath (lines 1188-1210) *)
Fixpoint locationsOwners (path : string) (locs : list Location.t) : M (list KarmadaMCI.t) :=
  match locs with
  | [] => ret []
  | location :: rest =>
    if decide (Location.Path location = path) then
      if Location.IsDefBackend location then locationsOwners path rest
      else
        let* owner := deref (Location.MultiClusterIngress location) in
        let* more := locationsOwners path rest in
        ret (MCI.MultiClusterIngress owner :: more)
    else locationsOwners path rest
  end.

Fixpoint mciForHostPath (hostname path : string) (servers : list Server.t)
    : M (list KarmadaMCI.t) :=
  match servers with
  | [] => ret []
  | server :: rest =>
    if decide (hostname = Server.Hostname server) then
      let* here := locationsOwners path (Server.Locations server) in
      let* more := mciForHostPath hostname path rest in
      ret (here ++ more)
    else mciForHostPath hostname path rest
  end.

Definition sameResource (a b : KarmadaMCI.t) : bool :=
  bool_decide (KarmadaMCI.Namespace a = KarmadaMCI.Namespace b)
  && bool_decide (KarmadaMCI.Name a = KarmadaMCI.Name b).

(** Lines 1168-1178: the first existing resource that conflicts. *)
Fixpoint firstConflict (h : Helpers) (host path : string)
    (candidate : bool * AnnotationErr) (existingMCIs : list KarmadaMCI.t)
    : option OverlapError :=
  match existingMCIs with
  | [] => None
  | existing :: rest =>
    let (isCanaryEnabled, annotationErr) := candidate in
    let (isExistingCanaryEnabled, existingAnnotationErr) :=
      GetBoolAnnotationFromMCI h "canary" existing in
    let reject :=
      Some (AlreadyDefined host path (KarmadaMCI.Namespace existing)
              (KarmadaMCI.Name existing)) in
    if isCanaryEnabled && isExistingCanaryEnabled then reject
    else
      match annotationErr, existingAnnotationErr with
      | ErrMissingAnnotations, ErrMissingAnnotations => reject
      | _, _ => firstConflict h host path candidate rest
      end
  end.

(** A loop body either falls through to the next iteration or returns. *)
Inductive Flow (A : Type) : Type :=
| Next
| Return (a : A).
Arguments Next {A}.
Arguments Return {A} a.

(** Lines 1136-1182: the paths of one rule. *)
Fixpoint checkOverlapPaths (h : Helpers) (mci : KarmadaMCI.t) (host : string)
    (servers : list Server.t) (paths : list HTTPIngressPath.t)
    : M (Flow (option OverlapError)) :=
  match paths with
  | [] => ret Next
  | path :: rest =>
    match IngressBackend.Service (HTTPIngressPath.Backend path) with
    | None =>
      klog (InfoV 3) "MultiClusterIngress %q and path %q does not contain a service backend, using default backend" ;;
      checkOverlapPaths h mci host servers rest
    | Some _ =>
      let pathPath :=
        if decide (HTTPIngressPath.Path path = "") then rootLocation
        else HTTPIngressPath.Path path in
      let* existingMCIs := mciForHostPath host pathPath servers in
      if decide (length existingMCIs = 0%nat) then
        checkOverlapPaths h mci host servers rest
      else if existsb (fun existing => sameResource existing mci) existingMCIs then
        ret (Return None)
      else
        ret (Return (firstConflict h host pathPath
                       (GetBoolAnnotationFromMCI h "canary" mci) existingMCIs))
    end
  end.

Fixpoint checkOverlapRules (h : Helpers) (mci : KarmadaMCI.t)
    (servers : list Server.t) (rules : list IngressRule.t) : M (option OverlapError) :=
  match rules with
  | [] => ret None
  | rule :: rest =>
    match IngressRule.HTTP rule with
    | None => checkOverlapRules h mci servers rest
    | Some paths =>
      let* flow := checkOverlapPaths h mci (hostOf rule) servers paths in
      match flow with
      | Return e => ret e
      | Next => checkOverlapRules h mci servers rest
      end
    end
  end.

(** checkOverlapWithMCI (lines 1126-1186); [None] is the nil error. *)
Definition checkOverlapWithMCI (h : Helpers) (mci : KarmadaMCI.t)
    (servers : list Server.t) : M (option OverlapError) :=
  checkOverlapRules h mci servers (Spec.Rules (KarmadaMCI.Spec mci)).

(** CheckMCI, lines 1077-1095: the candidate set (the stored resources
    without an earlier version of the candidate, then the candidate with
    its annotations extracted), the synthesis and the overlap check. *)
Definition checkMCIOverlap (n : NGINXController) (h : Helpers)
    (extractFromMCI : KarmadaMCI.t -> Annotations.t)
    (allMCIs : list MCI.t) (mci : KarmadaMCI.t) : M (option OverlapError) :=
  let mcis :=
    filter (fun toCheck => negb (sameResource (MCI.MultiClusterIngress toCheck) mci)) allMCIs in
  let mcis := mcis ++ [MCI.mk mci (extractFromMCI mci)] in
  let* (_, servers, _) := getConfigurationFromMCI n h mcis in
  checkOverlapWithMCI h mci servers.

(** ** Reference collaborators

    Concrete helpers and a concrete controller for evaluating the synthesis
    on sample resources.  The helpers follow the behaviour of the functions
    they stand for: upstream names are namespace-service-port, a derived
    service is named derived-service, a missing annotation map or key yields
    ErrMissingAnnotations, a backend can be merged into a primary that is
    neither itself, nor the default backend, nor a NoServer backend. *)

Definition refUpstreamName (namespace : string) (service : option ServiceBackend.t) : string :=
  match service with
  | Some svc =>
    if bool_decide (0 < ServiceBackend.PortNumber svc)%Z then
      namespace +:+ "-" +:+ ServiceBackend.Name svc +:+ "-" +:+ pretty (ServiceBackend.PortNumber svc)
    else if bool_decide (ServiceBackend.PortName svc ≠ "") then
      namespace +:+ "-" +:+ ServiceBackend.Name svc +:+ "-" +:+ ServiceBackend.PortName svc
    else namespace +:+ "-INVALID"
  | None => namespace +:+ "-INVALID"
  end.

Definition refServiceNameAndPort (svc : ServiceBackend.t) : string * IntOrString :=
  if bool_decide (0 < ServiceBackend.PortNumber svc)%Z then
    (ServiceBackend.Name svc, IntVal (ServiceBackend.PortNumber svc))
  else if bool_decide (ServiceBackend.PortName svc ≠ "") then
    (ServiceBackend.Name svc, StrVal (ServiceBackend.PortName svc))
  else ("", IntVal 0).

Definition refIntstrString (p : IntOrString) : string :=
  match p with
  | IntVal n => pretty n
  | StrVal s => s
  end.

Definition refDropSnippetDirectives (a : Annotations.t) : Annotations.t :=
  Annotations.mk (Annotations.Canary a) (Annotations.UpstreamHashBy a)
    (Annotations.LoadBalancing a) (Annotations.ServiceUpstream a)
    (Annotations.SessionAffinity a) (Annotations.Redirect a) (Annotations.Rewrite a)
    (Annotations.DefaultBackend a) (Annotations.Aliases a) "" ""
    (Annotations.SSLCipher a) (Annotations.SSLPassthrough a)
    (Annotations.CertificateAuth a) (Annotations.ProxySSL a).

Definition refLocationApplyAnnotations (loc : Location.t) (anns : Annotations.t) : Location.t :=
  Location.mk (Location.Path loc) (Location.PathType loc) (Location.IsDefBackend loc)
    (Location.MultiClusterIngress loc) (Location.Backend loc) (Location.Service loc)
    (Location.Port loc) (Annotations.Redirect anns) (Annotations.Rewrite anns)
    (Location.Proxy loc) (Location.Logs loc) (Annotations.DefaultBackend anns)
    (Location.DefaultBackendUpstreamName loc).

Definition refCanMergeBackend (primary alternative : Backend.t) : bool :=
  negb (bool_decide (Backend.Name primary = Backend.Name alternative))
  && negb (bool_decide (Backend.Name primary = defUpstreamName))
  && negb (Backend.NoServer primary).

Definition refShouldCreateUpstream (upstream : Backend.t) (location : Location.t) : bool :=
  bool_decide (Backend.Name upstream = Location.Backend location)
  && bool_decide (length (Backend.Endpoints upstream) = 0%nat)
  && bool_decide (is_Some (Location.DefaultBackend location)).

Definition canaryAnnotation : string := "nginx.ingress.kubernetes.io/canary".

Fixpoint lookupAnnotation (key : string) (anns : list (string * string)) : option string :=
  match anns with
  | [] => None
  | (k, v) :: rest => if decide (k = key) then Some v else lookupAnnotation key rest
  end.

Definition refGetBoolAnnotation (name : string) (mci : KarmadaMCI.t) : bool * AnnotationErr :=
  match lookupAnnotation ("nginx.ingress.kubernetes.io/" +:+ name)
          (KarmadaMCI.ObjectAnnotations mci) with
  | None => (false, ErrMissingAnnotations)
  | Some v =>
    if decide (v = "true") then (true, ErrNil)
    else if decide (v = "false") then (false, ErrNil)
    else (false, ErrOther)
  end.

Definition refHelpers : Helpers :=
  mkHelpers refUpstreamName refServiceNameAndPort refIntstrString
    (fun name => "derived-" +:+ name)
    refDropSnippetDirectives refLocationApplyAnnotations refCanMergeBackend
    refShouldCreateUpstream
    (fun locs => locs)
    (fun s => s)
    (fun cert host => bool_decide (host ∈ X509.DNSNames cert))
    (fun host cert => bool_decide (host = X509.CommonName cert))
    refGetBoolAnnotation.

Definition refDefaultCertificate : SSLCert.t :=
  SSLCert.mk "default-fake-certificate" (Some (X509.mk ["ingress.local"] "fake")) 1000000.

(** A controller whose store resolves every service to one endpoint and
    holds one certificate, ns1/cert1, issued for b.com. *)
Definition refController : NGINXController :=
  mkController
    (Backend.setName defUpstreamName (newUpstream ""))
    (Some refDefaultCertificate)
    true "round_robin" false false Proxy.zero
    (fun key => (Some (Service.mk "" key []), None))
    (fun key =>
       if decide (key = "ns1/cert1")
       then inl (SSLCert.mk "ns1/cert1" (Some (X509.mk ["b.com"] "b.com")) 1000000)
       else inr "not found")
    (fun key backend => (Endpoint.mk "" "", Some "no cluster ip"))
    (fun key port => ([Endpoint.mk "10.0.0.1" port], None))
    (fun svc port => [])
    [] [] "checksum" 0.

Definition noCanary : Canary.t := Canary.mk false 0 0 "" "" "" "".

Definition plainAnnotations : Annotations.t :=
  Annotations.mk noCanary (UpstreamHashBy.mk "" false 0) "" false
    (AffinityConfig.mk "" "" "" (AffinityCookie.mk "" "" "" "" false "" false false))
    Redirect.zero Rewrite.zero None [] "" "" (SSLCipher.mk "" "") false
    AuthSSL.zero AuthSSL.zero.

Definition withCanary (c : Canary.t) (a : Annotations.t) : Annotations.t :=
  Annotations.mk c (Annotations.UpstreamHashBy a)
    (Annotations.LoadBalancing a) (Annotations.ServiceUpstream a)
    (Annotations.SessionAffinity a) (Annotations.Redirect a) (Annotations.Rewrite a)
    (Annotations.DefaultBackend a) (Annotations.Aliases a) (Annotations.ServerSnippet a)
    (Annotations.StreamSnippet a)
    (Annotations.SSLCipher a) (Annotations.SSLPassthrough a)
    (Annotations.CertificateAuth a) (Annotations.ProxySSL a).

Definition withLoadBalancing (lb : string) (a : Annotations.t) : Annotations.t :=
  Annotations.mk (Annotations.Canary a) (Annotations.UpstreamHashBy a)
    lb (Annotations.ServiceUpstream a)
    (Annotations.SessionAffinity a) (Annotations.Redirect a) (Annotations.Rewrite a)
    (Annotations.DefaultBackend a) (Annotations.Aliases a) (Annotations.ServerSnippet a)
    (Annotations.StreamSnippet a)
    (Annotations.SSLCipher a) (Annotations.SSLPassthrough a)
    (Annotations.CertificateAuth a) (Annotations.ProxySSL a).

Definition canaryAnnotations : Annotations.t :=
  withCanary (Canary.mk true 20 100 "X-Canary" "always" "" "canary-cookie") plainAnnotations.

Definition svcRef (name : string) (port : Z) : IngressBackend.t :=
  IngressBackend.mk (Some (ServiceBackend.mk name "" port)).

Definition pathTo (path : string) (kind : PathType) (name : string) (port : Z)
    : HTTPIngressPath.t :=
  HTTPIngressPath.mk path (Some kind) (svcRef name port).

Definition resource (namespace name : string) (raw : list (string * string))
    (anns : Annotations.t) (spec : Spec.t) : MCI.t :=
  MCI.mk (KarmadaMCI.mk namespace name raw spec) anns.

(** ** Sample resources *)

Definition ruleFor (host : string) (paths : list HTTPIngressPath.t) : IngressRule.t :=
  IngressRule.mk host (Some paths).

Definition canaryRaw : list (string * string) := [(canaryAnnotation, "true")].

(** ns1/web routes a.com/ to s1:80 and asks for ewma balancing. *)
Definition webEwma : MCI.t :=
  resource "ns1" "web" [] (withLoadBalancing "ewma" plainAnnotations)
    (Spec.mk None [ruleFor "a.com" [pathTo "/" PathTypePrefix "s1" 80]] []).

(** ns1/fallback, a canary, names the same service s1:80 as its default
    backend and asks for ip_hash balancing. *)
Definition fallbackCanary : MCI.t :=
  resource "ns1" "fallback" canaryRaw (withLoadBalancing "ip_hash" canaryAnnotations)
    (Spec.mk (Some (svcRef "s1" 80)) [] []).

(** A canary resource with one path and a default backend. *)
Definition canaryBoth : MCI.t :=
  resource "ns1" "canary" canaryRaw canaryAnnotations
    (Spec.mk (Some (svcRef "s2" 80))
       [ruleFor "a.com" [pathTo "/" PathTypePrefix "s3" 80]] []).

(** A primary backend that already lists the alternative ns1-s3-80. *)
Definition primaryWithAlternative : Backend.t :=
  Backend.setAlternativeBackends ["ns1-s3-80"] (newUpstream "ns1-s1-80").

(** ns1/foo routes a.com/old to s1:80; no canary annotation. *)
Definition fooOld : MCI.t :=
  resource "ns1" "foo" [] plainAnnotations
    (Spec.mk None [ruleFor "a.com" [pathTo "/old" PathTypeExact "s1" 80]] []).

(** The candidate ns1/bar, without canary annotation: a new path /new
    followed by /old, which ns1/foo already serves. *)
Definition barNewOld : KarmadaMCI.t :=
  KarmadaMCI.mk "ns1" "bar" []
    (Spec.mk None
       [ruleFor "a.com" [pathTo "/new" PathTypeExact "s2" 80;
                         pathTo "/old" PathTypeExact "s2" 80]] []).

(** The same candidate with its two paths in the other order. *)
Definition barOldNew : KarmadaMCI.t :=
  KarmadaMCI.mk "ns1" "bar" []
    (Spec.mk None
       [ruleFor "a.com" [pathTo "/old" PathTypeExact "s2" 80;
                         pathTo "/new" PathTypeExact "s2" 80]] []).

Definition extractPlain (mci : KarmadaMCI.t) : Annotations.t := plainAnnotations.

(** One resource defining a.com/ twice with path type Exact. *)
Definition twiceExact : MCI.t :=
  resource "ns1" "dup" [] plainAnnotations
    (Spec.mk None
       [ruleFor "a.com" [pathTo "/" PathTypeExact "s1" 80;
                         pathTo "/" PathTypeExact "s2" 80]] []).

Definition locationKey (l : Location.t) : string * option PathType :=
  (Location.Path l, Location.PathType l).

(** ns1/web routes a.com/ to s1:80. *)
Definition plainWeb : MCI.t :=
  resource "ns1" "web" [] plainAnnotations
    (Spec.mk None [ruleFor "a.com" [pathTo "/" PathTypePrefix "s1" 80]] []).

(** A canary resource with a host-only rule: rule.HTTP is nil. *)
Definition canaryHostOnly : MCI.t :=
  resource "ns1" "canary" canaryRaw canaryAnnotations
    (Spec.mk None [IngressRule.mk "a.com" None] []).

(** A canary resource for a host that no other resource defines. *)
Definition canaryElsewhere : MCI.t :=
  resource "ns1" "canary" canaryRaw canaryAnnotations
    (Spec.mk None [ruleFor "c.com" [pathTo "/" PathTypePrefix "s9" 80]] []).

(** ns1/two routes a.com/ to s1:80 and a.com/a to s2:80. *)
Definition twoPaths : MCI.t :=
  resource "ns1" "two" [] plainAnnotations
    (Spec.mk None
       [ruleFor "a.com" [pathTo "/" PathTypePrefix "s1" 80;
                         pathTo "/a" PathTypePrefix "s2" 80]] []).

(** A canary for a.com/ whose service s2:80 already is the primary backend
    of a.com/a. *)
Definition canaryOfPrimary : MCI.t :=
  resource "ns1" "canary" canaryRaw canaryAnnotations
    (Spec.mk None [ruleFor "a.com" [pathTo "/" PathTypePrefix "s2" 80]] []).

(** A non-canary resource with a default backend and one rule. *)
Definition backendAndRules : MCI.t :=
  resource "ns1" "both" [] plainAnnotations
    (Spec.mk (Some (svcRef "s1" 80))
       [ruleFor "a.com" [pathTo "/app" PathTypePrefix "s2" 80]] []).


(** A TLS section listing a.com with ns1/cert1, a certificate for b.com. *)
Definition tlsWrongHost : MCI.t :=
  resource "ns1" "tls" [] plainAnnotations
    (Spec.mk None [ruleFor "a.com" [pathTo "/" PathTypePrefix "s1" 80]]
       [IngressTLS.mk ["a.com"] "cert1"]).

Definition backendNames (r : M (list Backend.t * list Server.t)) : option (list string) :=
  match result r with
  | Some (upstreams, _) => Some (map Backend.Name upstreams)
  | None => None
  end.

Definition serverOf (host : string) (r : M (list Backend.t * list Server.t))
    : option Server.t :=
  match result r with
  | Some (_, servers) => head (filter (fun s => Server.Hostname s = host) servers)
  | None => None
  end.

Definition synthesizedServers (n : NGINXController) (h : Helpers) (mcis : list MCI.t)
    : option (list Server.t) :=
  match result (getConfigurationFromMCI n h mcis) with
  | Some (_, servers, _) => Some servers
  | None => None
  end.

Definition onlyDefault (n : NGINXController) : gmap string Backend.t :=
  <[defUpstreamName := getDefaultUpstream n]> ∅.



(** A server without certificate, as [initServerForRule] creates it. *)
Definition bareServer (host : string) : Server.t :=
  Server.mk host false None [] [] false AuthSSL.zero AuthSSL.zero "" "" "" "".

(** Under [less], [a] may stand before [b]. *)
Definition notAfter {A : Type} (less : A -> A -> bool) (a b : A) : Prop :=
  less b a = false.





(** The root location after lines 600-603: backend, service and owning
    resource rebound to the default backend of [mci]. *)
Definition reboundRoot (backendUpstream : Backend.t) (mci : MCI.t) (defLoc : Location.t)
    : Location.t :=
  Location.setMultiClusterIngress (Some mci)
    (Location.setService (Backend.Service backendUpstream)
       (Location.setBackend (Backend.Name backendUpstream) defLoc)).

(** The root location of the catch-all server in a server map. *)
Definition catchAllRoot (servers : gmap string Server.t) : option Location.t :=
  match servers !! defServerName with
  | Some catchAll => head (Server.Locations catchAll)
  | None => None
  end.

(** The name of the backend stored under a key, if any. *)
Definition nameAt (upstreams : gmap string Backend.t) (key : string) : option string :=
  Backend.Name <$> (upstreams !! key).

Definition selfReferenceLine : LogEntry :=
  mkLog Warning
    "alternative upstream %s in Ingress %s/%s is primary upstream in Other Ingress for location %s%s!".

Definition missingHostLine : LogEntry :=
  mkLog Error "cannot merge alternative backend %s into hostname %s that does not exist".

(** A backend of the final list that was synthesized for a custom default
    backend. *)
Definition isCustomDefaultBackend (b : Backend.t) : Prop :=
  exists svc, Backend.Name b = customDefaultBackendName svc.

(** What one merge step (default backend or one path) of a canary resource
    does with the alternative backend [alt], found under [key], given the
    locations [locs] of the target server.  The scan reports a
    self-reference exactly when some location's backend carries the name
    of [alt]; then a warning is logged and nothing is deleted.  Without a
    self-reference, [alt] is kept when the last merge succeeded and
    deleted, by its name, when no merge succeeded. *)
Definition mergeStepOutcome (h : Helpers) (mci : MCI.t) (key : string)
    (extra : Location.t -> M bool) (locs : list Location.t) (alt : Backend.t)
    (upstreams upstreams' : gmap string Backend.t) (log : list LogEntry) : Prop :=
  exists altEqualsPri merged scanned scanLog,
    scanLocations h mci key extra locs false upstreams
    = (Some (altEqualsPri, merged, scanned), scanLog)
    /\ (altEqualsPri = true <->
        exists loc, In loc locs
          /\ nameAt upstreams (Location.Backend loc) = Some (Backend.Name alt))
    /\ (altEqualsPri = true ->
        In selfReferenceLine log /\ upstreams' = scanned
        /\ nameAt upstreams' key = Some (Backend.Name alt))
    /\ (altEqualsPri = false -> merged = true ->
        upstreams' = scanned /\ nameAt upstreams' key = Some (Backend.Name alt))
    /\ (altEqualsPri = false -> merged = false ->
        upstreams' = delete (Backend.Name alt) scanned
        /\ upstreams' !! Backend.Name alt = None).

(** A canary path with no counterpart on its host. *)
Definition canaryOrphan : MCI.t :=
  resource "ns1" "canary" canaryRaw canaryAnnotations
    (Spec.mk None [ruleFor "a.com" [pathTo "/zzz" PathTypePrefix "s9" 80]] []).

(** A server a.com whose only location routes / to ns1-s1-80, and the
    Backend map holding that backend and the canary backend ns1-s9-80. *)
Definition sampleServers : gmap string Server.t :=
  <["a.com" :=
      Server.setLocations
        [Location.mk "/" (Some PathTypePrefix) false (Some plainWeb) "ns1-s1-80"
           (Some Service.empty) (IntVal 80) Redirect.zero Rewrite.zero Proxy.zero
           (Logs.mk false false) None ""]
        (bareServer "a.com")]> ∅.

Definition sampleUpstreams : gmap string Backend.t :=
  <["ns1-s9-80" := Backend.setNoServer true (newUpstream "ns1-s9-80")]>
    (<["ns1-s1-80" := newUpstream "ns1-s1-80"]> ∅).

(** The alternative-backend list of the backend [name] in a final result. *)
Definition alternativesOf (name : string) (r : M (list Backend.t * list Server.t))
    : option (list string) :=
  match result r with
  | Some (upstreams, _) =>
    Backend.AlternativeBackends
      <$> head (filter (fun b => Backend.Name b = name) upstreams)
  | None => None
  end.

Definition orphanPath : HTTPIngressPath.t := pathTo "/zzz" PathTypePrefix "s9" 80.

(** ** Vocabulary of the further properties *)

(** The Backend map keys a resource refers to: its default-backend service
    and the service of every path of every rule with an HTTP section. *)
Definition pathKeys (h : Helpers) (mci : MCI.t) : list string :=
  flat_map
    (fun rule =>
       match IngressRule.HTTP rule with
       | None => []
       | Some paths =>
         flat_map
           (fun path =>
              match IngressBackend.Service (HTTPIngressPath.Backend path) with
              | Some svc => [upstreamName h (MCI.Namespace mci) (Some svc)]
              | None => []
              end) paths
       end) (Spec.Rules (MCI.Spec mci)).

Definition defaultBackendKeys (h : Helpers) (mci : MCI.t) : list string :=
  match Spec.DefaultBackend (MCI.Spec mci) with
  | Some db =>
    match IngressBackend.Service db with
    | Some svc => [upstreamName h (MCI.Namespace mci) (Some svc)]
    | None => []
    end
  | None => []
  end.

Definition referencedKeys (h : Helpers) (mci : MCI.t) : list string :=
  defaultBackendKeys h mci ++ pathKeys h mci.

(** Every key of the first map is a key of the second. *)
Definition keysKept {V : Type} (m m' : gmap string V) : Prop :=
  forall k, is_Some (m !! k) -> is_Some (m' !! k).

(** Every backend of the map is named by its key. *)
Definition namedByKey (upstreams : gmap string Backend.t) : Prop :=
  forall k b, upstreams !! k = Some b -> Backend.Name b = k.

(** Every server of the map is stored under its hostname and has at least
    one location. *)
Definition serversNamed (servers : gmap string Server.t) : Prop :=
  forall k s, servers !! k = Some s ->
    Server.Hostname s = k /\ Server.Locations s <> [].

(** ... and the catch-all server exists. *)
Definition wellFormedServers (servers : gmap string Server.t) : Prop :=
  serversNamed servers /\ is_Some (servers !! defServerName).

(** The hosts of the rules of the non-canary resources all have a server. *)
Definition hostsCovered (n : NGINXController) (h : Helpers) (mcis : list MCI.t)
    (servers : gmap string Server.t) : Prop :=
  forall mci rule,
    In mci mcis ->
    Canary.Enabled (Annotations.Canary (annotationsOf n h mci)) = false ->
    In rule (Spec.Rules (MCI.Spec mci)) ->
    is_Some (servers !! hostOf rule).

(** A certificate that a server of the first map has is still the
    certificate of that server in the second map. *)
Definition certificatesKept (servers servers' : gmap string Server.t) : Prop :=
  forall k s c, servers !! k = Some s -> Server.SSLCert s = Some c ->
    exists s', servers' !! k = Some s' /\ Server.SSLCert s' = Some c.


(** No server of the map has an alias. *)
Definition noAliases (servers : gmap string Server.t) : Prop :=
  forall k s, servers !! k = Some s -> Server.Aliases s = [].

(** Every server that has aliases has an entry in the alias table. *)
Definition aliasesTracked (servers : gmap string Server.t)
    (allAliases : gmap string (list string)) : Prop :=
  forall k s, servers !! k = Some s -> Server.Aliases s <> [] -> is_Some (allAliases !! k).

(** The aliases of [s] are in ascending order without duplicates, none is
    the hostname of [s] and none is the hostname of a server of the map. *)
Definition aliasesClean (servers : gmap string Server.t) (s : Server.t) : Prop :=
  NoDup (Server.Aliases s)
  /\ StronglySorted (notAfter String.ltb) (Server.Aliases s)
  /\ forall a, a ∈ Server.Aliases s -> a <> Server.Hostname s /\ servers !! a = None.


(** A location that a resource has claimed (IsDefBackend false) is still
    at its index, unchanged. *)
Definition claimedKept (locs locs' : list Location.t) : Prop :=
  forall i l, locs !! i = Some l -> Location.IsDefBackend l = false -> locs' !! i = Some l.

(** ... for every server of the first map. *)
Definition serversClaimedKept (servers servers' : gmap string Server.t) : Prop :=
  forall k s, servers !! k = Some s ->
    exists s', servers' !! k = Some s'
      /\ claimedKept (Server.Locations s) (Server.Locations s').

(** Every service a rule path of the resources names has a backend. *)
Definition pathsCovered (h : Helpers) (mcis : list MCI.t)
    (upstreams : gmap string Backend.t) : Prop :=
  forall mci key, In mci mcis -> In key (pathKeys h mci) -> is_Some (upstreams !! key).

(** The canary resources, in their order, with the annotations in use. *)
Definition canariesOf (n : NGINXController) (h : Helpers) (mcis : list MCI.t)
    : list MCI.t :=
  map (fun mci => MCI.withAnnotations (annotationsOf n h mci) mci)
    (filter (fun mci => Canary.Enabled (Annotations.Canary (annotationsOf n h mci)) = true)
       mcis).

(** A server a.com with two declared aliases, one of them twice, and a
    server b.com. *)
Definition aliasServers : gmap string Server.t :=
  <["b.com" := bareServer "b.com"]> (<["a.com" := bareServer "a.com"]> ∅).


(** The helper's contract: a custom default backend is only asked for at a
    location that names a default-backend service. *)
Definition defaultBackendGuarded (h : Helpers) : Prop :=
  forall upstream location,
    shouldCreateUpstreamForLocationDefaultBackend h upstream location = true ->
    is_Some (Location.DefaultBackend location).

(** No resource of the list is a canary. *)
Definition withoutCanaries (n : NGINXController) (h : Helpers) (mcis : list MCI.t) : Prop :=
  Forall (fun mci => Canary.Enabled (Annotations.Canary (annotationsOf n h mci)) = false)
    mcis.


(** The server a.com whose root location the resource web has claimed. *)
Definition claimedServer : Server.t :=
  default (bareServer "a.com") (sampleServers !! "a.com").


(** [owner] is the resource of a claimed location for [host] and [path]. *)
Definition ownsLocation (servers : list Server.t) (host path : string)
    (owner : KarmadaMCI.t) : Prop :=
  exists server location m,
    In server servers /\ Server.Hostname server = host
    /\ In location (Server.Locations server)
    /\ Location.Path location = path
    /\ Location.IsDefBackend location = false
    /\ Location.MultiClusterIngress location = Some m
    /\ owner = MCI.MultiClusterIngress m.


(** The pair of canary annotations that the overlap check rejects: both
    enabled, or both without annotation. *)
Definition annotationsConflict (candidate existing : bool * AnnotationErr) : Prop :=
  (fst candidate = true /\ fst existing = true)
  \/ (snd candidate = ErrMissingAnnotations /\ snd existing = ErrMissingAnnotations).

Definition conflictsWith (h : Helpers) (candidate existing : KarmadaMCI.t) : Prop :=
  annotationsConflict (GetBoolAnnotationFromMCI h "canary" candidate)
    (GetBoolAnnotationFromMCI h "canary" existing).

(** A candidate ns1/other and a canary candidate ns1/canary for a.com/. *)
Definition otherRoot : KarmadaMCI.t :=
  KarmadaMCI.mk "ns1" "other" []
    (Spec.mk None [ruleFor "a.com" [pathTo "/" PathTypePrefix "s2" 80]] []).



(** [b'] is [b] but for its session affinity and for names added at the
    end of its alternative-backend list. *)
Definition onlyMerged (b b' : Backend.t) : Prop :=
  Backend.setAlternativeBackends (Backend.AlternativeBackends b)
    (Backend.setSessionAffinity (Backend.SessionAffinity b) b') = b
  /\ exists added,
       Backend.AlternativeBackends b' = Backend.AlternativeBackends b ++ added.

(** Every backend of the second map stems from the backend under the same
    key of the first. *)
Definition mergedFrom (upstreams upstreams' : gmap string Backend.t) : Prop :=
  forall k b', upstreams' !! k = Some b' ->
    exists b, upstreams !! k = Some b /\ onlyMerged b b'.

(** A canary for a.com/ with the service s9:80. *)
Definition canaryOfRoot : MCI.t :=
  resource "ns1" "canary" canaryRaw canaryAnnotations
    (Spec.mk None [ruleFor "a.com" [pathTo "/" PathTypePrefix "s9" 80]] []).


(** Line 51: the server with its locations passed through
    updateServerLocations. *)
Definition finished (h : Helpers) (server : Server.t) : Server.t :=
  Server.setLocations (updateServerLocations h (Server.Locations server)) server.

(** A passthrough backend is that of a root location of a passthrough
    server of the list. *)
Definition passthroughFrom (servers : list Server.t) (p : SSLPassthroughBackend.t) : Prop :=
  exists server location,
    In server servers
    /\ Server.SSLPassthrough server = true
    /\ Server.Hostname server = SSLPassthroughBackend.Hostname p
    /\ In location (Server.Locations server)
    /\ Location.Path location = rootLocation
    /\ Location.Backend location = SSLPassthroughBackend.Backend p
    /\ Location.Service location = SSLPassthroughBackend.Service p
    /\ Location.Port location = SSLPassthroughBackend.Port p.

(** A resource asking for SSL passthrough on a.com. *)
Definition passthroughWeb : MCI.t :=
  resource "ns1" "pass" []
    (Annotations.mk (Annotations.Canary plainAnnotations)
       (Annotations.UpstreamHashBy plainAnnotations)
       (Annotations.LoadBalancing plainAnnotations)
       (Annotations.ServiceUpstream plainAnnotations)
       (Annotations.SessionAffinity plainAnnotations)
       (Annotations.Redirect plainAnnotations) (Annotations.Rewrite plainAnnotations)
       (Annotations.DefaultBackend plainAnnotations) ["www.a.com"]
       (Annotations.ServerSnippet plainAnnotations)
       (Annotations.StreamSnippet plainAnnotations)
       (Annotations.SSLCipher plainAnnotations) true
       (Annotations.CertificateAuth plainAnnotations)
       (Annotations.ProxySSL plainAnnotations))
    (Spec.mk None [ruleFor "a.com" [pathTo "/" PathTypePrefix "s1" 80]] []).









(** A non-canary resource with a default backend and no rule: a catch-all
    override. *)
Definition catchallOnly : MCI.t :=
  resource "ns1" "catchall" [] plainAnnotations (Spec.mk (Some (svcRef "s3" 80)) [] []).

(** The root location of the catch-all server after the server builder
    has run on the resources [mcis]. *)
Definition builtCatchAllRoot (n : NGINXController) (h : Helpers) (mcis : list MCI.t)
    : option Location.t :=
  match result (createUpstreamsFromMCIs n h mcis (getDefaultUpstream n)) with
  | Some upstreams =>
    match result (createServersFromMCIs n h mcis upstreams (getDefaultUpstream n)) with
    | Some servers => catchAllRoot servers
    | None => None
    end
  | None => None
  end.

(** * Properties *)

(** ** The monad *)

Lemma bind_Some {A B : Type} (m : M A) (f : A -> M B) (b : B) (l : list LogEntry) :
  bind m f = (Some b, l) ->
  exists a l1 l2, m = (Some a, l1) /\ f a = (Some b, l2) /\ l = l1 ++ l2.
Proof.
  unfold bind. destruct m as [[a|] l1]; [|discriminate].
  destruct (f a) as [ob l2] eqn:Hf. intros H. injection H as -> <-.
  exists a, l1, l2. auto.
Qed.

Lemma bind_ret_l {A B : Type} (a : A) (f : A -> M B) : bind (ret a) f = f a.
Proof. unfold bind, ret. destruct (f a) as [b l]. reflexivity. Qed.



(** ** Canary merge of one primary and one alternative backend *)

Lemma existsb_name_app (name : string) (l : list string) :
  existsb (fun ab => bool_decide (ab = name)) (l ++ [name]) = true.
Proof.
  rewrite existsb_app. simpl. rewrite bool_decide_eq_true_2 by reflexivity.
  destruct (existsb _ l); reflexivity.
Qed.

Lemma existsb_name_in (name : string) (l : list string) :
  In name l -> existsb (fun ab => bool_decide (ab = name)) l = true.
Proof.
  intros Hin. apply existsb_exists. exists name. split; [exact Hin|].
  apply bool_decide_eq_true_2. reflexivity.
Qed.

(** C8.  Merging an alternative backend into a primary is idempotent: the
    call returns a verdict and leaves the two backends in a state on which
    a second call is a no-op with the same verdict, so the alternative
    list after two merges is the list after one.  When the alternative
    backend's name is already listed on a primary (a backend that is not
    NoServer), the merge changes nothing and reports success. *)
Theorem canary_merge_idempotent (mci : MCI.t) (priUps altUps : Backend.t) :
  (exists verdict pri1 alt1 log1 log2,
      mergeAlternativeBackendByMCI mci priUps altUps = (Some (verdict, pri1, alt1), log1)
      /\ mergeAlternativeBackendByMCI mci pri1 alt1 = (Some (verdict, pri1, alt1), log2)
      /\ (verdict = true -> In (Backend.Name altUps) (Backend.AlternativeBackends pri1)))
  /\ (In (Backend.Name altUps) (Backend.AlternativeBackends priUps) ->
      Backend.NoServer priUps = false ->
      result (mergeAlternativeBackendByMCI mci priUps altUps) = Some (true, priUps, altUps)).
Proof.
  split.
  - unfold mergeAlternativeBackendByMCI.
    destruct (Backend.NoServer priUps) eqn:Hno.
    + eexists false, priUps, altUps, _, _. rewrite Hno. simpl.
      split; [reflexivity|]. split; [reflexivity|]. discriminate.
    + destruct (existsb _ (Backend.AlternativeBackends priUps)) eqn:Hex.
      * eexists true, priUps, altUps, _, _. rewrite Hno, Hex. simpl.
        split; [reflexivity|]. split; [reflexivity|]. intros _.
        apply existsb_exists in Hex. destruct Hex as (x & Hin & Hx).
        apply bool_decide_eq_true_1 in Hx. subst x. exact Hin.
      * eexists true, _, _, _, _. split; [reflexivity|].
        assert (Hname :
          Backend.Name
            (if decide (AffinityConfig.CanaryBehavior
                          (Annotations.SessionAffinity (MCI.ParsedAnnotations mci)) = "legacy")
             then altUps
             else Backend.setSessionAffinity (Backend.SessionAffinity priUps) altUps)
          = Backend.Name altUps) by (case_decide; reflexivity).
        split.
        -- cbn [Backend.NoServer Backend.setAlternativeBackends Backend.AlternativeBackends].
           rewrite Hno. rewrite existsb_name_app. reflexivity.
        -- intros _. cbn [Backend.setAlternativeBackends Backend.AlternativeBackends].
           rewrite Hname. apply in_or_app. right. left. reflexivity.
  - intros Hin Hno. unfold mergeAlternativeBackendByMCI.
    rewrite Hno, (existsb_name_in _ _ Hin). reflexivity.
Qed.

(** ** Upstream builder *)

Lemma applyHashAndLB_fields (n : NGINXController) (anns : Annotations.t) (u : Backend.t) :
  Backend.Name (applyHashAndLB n anns u) = Backend.Name u
  /\ Backend.NoServer (applyHashAndLB n anns u) = Backend.NoServer u
  /\ Backend.TrafficShapingPolicy (applyHashAndLB n anns u) = Backend.TrafficShapingPolicy u
  /\ Backend.Endpoints (applyHashAndLB n anns u) = Backend.Endpoints u.
Proof. unfold applyHashAndLB. case_decide; auto. Qed.

Ltac case_collaborators n :=
  repeat match goal with
  | |- context [getServiceClusterEndpoint n ?a ?b] =>
      destruct (getServiceClusterEndpoint n a b) as [? [?|]]
  | |- context [serviceEndpoints n ?a ?b] =>
      destruct (serviceEndpoints n a b) as [? [?|]]
  | |- context [GetService n ?a] =>
      destruct (GetService n a) as [? [?|]]
  end.

(** What the rule/path branch leaves under a new key when the resource is
    a canary. *)
Lemma createUpstreamPath_canary (n : NGINXController) (h : Helpers) (mci : MCI.t)
    (anns : Annotations.t) (upstreams : gmap string Backend.t)
    (path : HTTPIngressPath.t) (svc : ServiceBackend.t) :
  Canary.Enabled (Annotations.Canary anns) = true ->
  IngressBackend.Service (HTTPIngressPath.Backend path) = Some svc ->
  upstreams !! upstreamName h (MCI.Namespace mci) (Some svc) = None ->
  exists b log,
    createUpstreamPath n h mci anns upstreams path
    = (Some (<[upstreamName h (MCI.Namespace mci) (Some svc) := b]> upstreams), log)
    /\ Backend.NoServer b = true
    /\ Backend.TrafficShapingPolicy b = canaryPolicyPath (Annotations.Canary anns).
Proof.
  intros Hcanary Hsvc Hnew. unfold createUpstreamPath, applyHashAndLB.
  rewrite Hsvc. destruct (upstreamServiceNameAndPort h svc) as [svcName svcPort].
  rewrite Hnew, Hcanary.
  destruct (decide _); destruct (Annotations.ServiceUpstream anns);
    case_collaborators n; simpl; case_collaborators n; simpl;
    (eexists _, _; split; [reflexivity|]; simpl; split; reflexivity).
Qed.

(** What the default-backend branch leaves under its key when the resource
    is a canary. *)
Lemma createUpstreamDefaultBackend_canary (n : NGINXController) (h : Helpers) (mci : MCI.t)
    (anns : Annotations.t) (upstreams : gmap string Backend.t)
    (db : IngressBackend.t) (svc : ServiceBackend.t) :
  Canary.Enabled (Annotations.Canary anns) = true ->
  Spec.DefaultBackend (MCI.Spec mci) = Some db ->
  IngressBackend.Service db = Some svc ->
  exists b log,
    createUpstreamDefaultBackend n h mci anns upstreams
    = (Some (<[upstreamName h (MCI.Namespace mci) (Some svc) := b]> upstreams), log)
    /\ Backend.NoServer b = true
    /\ Backend.TrafficShapingPolicy b = canaryPolicyDefault (Annotations.Canary anns).
Proof.
  intros Hcanary Hdb Hsvc. unfold createUpstreamDefaultBackend, applyHashAndLB.
  rewrite Hdb, Hsvc, Hcanary.
  destruct (upstreamServiceNameAndPort h svc) as [svcName svcPort].
  destruct (decide _); destruct (Annotations.ServiceUpstream anns);
    case_collaborators n; simpl; case_collaborators n; simpl;
    (eexists _, _; split; [reflexivity|]; simpl; split; reflexivity).
Qed.

Lemma canary_merge_idempotent_witness :
  result (mergeAlternativeBackendByMCI canaryBoth primaryWithAlternative
            (newUpstream "ns1-s3-80"))
  = Some (true, primaryWithAlternative, newUpstream "ns1-s3-80").
Proof.
  apply (proj2 (canary_merge_idempotent canaryBoth primaryWithAlternative
                  (newUpstream "ns1-s3-80"))).
  - simpl. left. reflexivity.
  - reflexivity.
Defined.

(** C10.  For a canary resource, the backend created from a rule/path
    service reference is stamped with Weight, Header, HeaderValue,
    HeaderPattern and Cookie of the canary annotations and with a zero
    WeightTotal, whereas the backend created from the default-backend
    reference of the same resource also receives WeightTotal. *)
Theorem canary_path_policy_lacks_weight_total (n : NGINXController) (h : Helpers)
    (mci : MCI.t) (anns : Annotations.t) (upstreams : gmap string Backend.t)
    (Hcanary : Canary.Enabled (Annotations.Canary anns) = true) :
  (forall path svc,
      IngressBackend.Service (HTTPIngressPath.Backend path) = Some svc ->
      upstreams !! upstreamName h (MCI.Namespace mci) (Some svc) = None ->
      exists upstreams' b log,
        createUpstreamPath n h mci anns upstreams path = (Some upstreams', log)
        /\ upstreams' !! upstreamName h (MCI.Namespace mci) (Some svc) = Some b
        /\ Backend.NoServer b = true
        /\ TrafficShapingPolicy.WeightTotal (Backend.TrafficShapingPolicy b) = 0%Z
        /\ TrafficShapingPolicy.Weight (Backend.TrafficShapingPolicy b)
           = Canary.Weight (Annotations.Canary anns)
        /\ TrafficShapingPolicy.Header (Backend.TrafficShapingPolicy b)
           = Canary.Header (Annotations.Canary anns)
        /\ TrafficShapingPolicy.HeaderValue (Backend.TrafficShapingPolicy b)
           = Canary.HeaderValue (Annotations.Canary anns)
        /\ TrafficShapingPolicy.HeaderPattern (Backend.TrafficShapingPolicy b)
           = Canary.HeaderPattern (Annotations.Canary anns)
        /\ TrafficShapingPolicy.Cookie (Backend.TrafficShapingPolicy b)
           = Canary.Cookie (Annotations.Canary anns))
  /\ (forall db svc,
      Spec.DefaultBackend (MCI.Spec mci) = Some db ->
      IngressBackend.Service db = Some svc ->
      exists upstreams' b log,
        createUpstreamDefaultBackend n h mci anns upstreams = (Some upstreams', log)
        /\ upstreams' !! upstreamName h (MCI.Namespace mci) (Some svc) = Some b
        /\ Backend.NoServer b = true
        /\ TrafficShapingPolicy.WeightTotal (Backend.TrafficShapingPolicy b)
           = Canary.WeightTotal (Annotations.Canary anns)
        /\ TrafficShapingPolicy.Weight (Backend.TrafficShapingPolicy b)
           = Canary.Weight (Annotations.Canary anns)
        /\ TrafficShapingPolicy.Header (Backend.TrafficShapingPolicy b)
           = Canary.Header (Annotations.Canary anns)
        /\ TrafficShapingPolicy.HeaderValue (Backend.TrafficShapingPolicy b)
           = Canary.HeaderValue (Annotations.Canary anns)
        /\ TrafficShapingPolicy.HeaderPattern (Backend.TrafficShapingPolicy b)
           = Canary.HeaderPattern (Annotations.Canary anns)
        /\ TrafficShapingPolicy.Cookie (Backend.TrafficShapingPolicy b)
           = Canary.Cookie (Annotations.Canary anns)).
Proof.
  split.
  - intros path svc Hsvc Hnew.
    destruct (createUpstreamPath_canary n h mci anns upstreams path svc Hcanary Hsvc Hnew)
      as (b & log & Heq & Hno & Hpol).
    eexists _, b, log. split; [exact Heq|].
    rewrite lookup_insert_eq, Hpol. repeat split; auto.
  - intros db svc Hdb Hsvc.
    destruct (createUpstreamDefaultBackend_canary n h mci anns upstreams db svc
                Hcanary Hdb Hsvc) as (b & log & Heq & Hno & Hpol).
    eexists _, b, log. split; [exact Heq|].
    rewrite lookup_insert_eq, Hpol. repeat split; auto.
Qed.

Lemma canary_path_policy_lacks_weight_total_witness :
  (exists upstreams' b log,
      createUpstreamPath refController refHelpers canaryBoth canaryAnnotations ∅
        (pathTo "/" PathTypePrefix "s3" 80) = (Some upstreams', log)
      /\ upstreams' !! "ns1-s3-80" = Some b
      /\ TrafficShapingPolicy.WeightTotal (Backend.TrafficShapingPolicy b) = 0%Z
      /\ TrafficShapingPolicy.Weight (Backend.TrafficShapingPolicy b) = 20%Z)
  /\ (exists upstreams' b log,
      createUpstreamDefaultBackend refController refHelpers canaryBoth canaryAnnotations ∅
        = (Some upstreams', log)
      /\ upstreams' !! "ns1-s2-80" = Some b
      /\ TrafficShapingPolicy.WeightTotal (Backend.TrafficShapingPolicy b) = 100%Z
      /\ TrafficShapingPolicy.Weight (Backend.TrafficShapingPolicy b) = 20%Z).
Proof.
  pose proof (canary_path_policy_lacks_weight_total refController refHelpers canaryBoth
                canaryAnnotations ∅ eq_refl) as [Hpath Hdef].
  split.
  - destruct (Hpath (pathTo "/" PathTypePrefix "s3" 80) (ServiceBackend.mk "s3" "" 80)
                eq_refl eq_refl)
      as (u & b & log & H1 & H2 & _ & H4 & H5 & _).
    exists u, b, log. auto.
  - destruct (Hdef (svcRef "s2" 80) (ServiceBackend.mk "s2" "" 80) eq_refl eq_refl)
      as (u & b & log & H1 & H2 & _ & H4 & H5 & _).
    exists u, b, log. auto.
Defined.

(** The rule/path branch never touches a backend that is already in the
    map. *)
Lemma createUpstreamPath_first_writer_wins (n : NGINXController) (h : Helpers)
    (mci : MCI.t) (anns : Annotations.t) (upstreams : gmap string Backend.t)
    (path : HTTPIngressPath.t) (svc : ServiceBackend.t) :
  IngressBackend.Service (HTTPIngressPath.Backend path) = Some svc ->
  is_Some (upstreams !! upstreamName h (MCI.Namespace mci) (Some svc)) ->
  createUpstreamPath n h mci anns upstreams path = (Some upstreams, []).
Proof.
  intros Hsvc [b Hb]. unfold createUpstreamPath. rewrite Hsvc.
  destruct (upstreamServiceNameAndPort h svc). rewrite Hb. reflexivity.
Qed.

(** C3, at the failing input.  ns1/web creates the backend ns1-s1-80 from
    its path (ewma, reachable from a location); the later resource
    ns1/fallback names the same service as its default backend, and the
    backend is created anew from its annotations (ip_hash, NoServer with
    the canary policy): the first writer does not win on the
    default-backend branch. *)
Theorem default_backend_reference_recreates_backend :
  (exists m log b,
      createUpstreamsFromMCIs refController refHelpers [webEwma]
        (getDefaultUpstream refController) = (Some m, log)
      /\ m !! "ns1-s1-80" = Some b
      /\ Backend.LoadBalancing b = "ewma"
      /\ Backend.NoServer b = false
      /\ Backend.TrafficShapingPolicy b = TrafficShapingPolicy.zero)
  /\ (exists m log b,
      createUpstreamsFromMCIs refController refHelpers [webEwma; fallbackCanary]
        (getDefaultUpstream refController) = (Some m, log)
      /\ m !! "ns1-s1-80" = Some b
      /\ Backend.LoadBalancing b = "ip_hash"
      /\ Backend.NoServer b = true
      /\ Backend.TrafficShapingPolicy b
         = TrafficShapingPolicy.mk 20 100 "X-Canary" "always" "" "canary-cookie").
Proof.
  split.
  - eexists _, _, _. split; [vm_compute; reflexivity|].
    split; [vm_compute; reflexivity|]. repeat split.
  - eexists _, _, _. split; [vm_compute; reflexivity|].
    split; [vm_compute; reflexivity|]. repeat split.
Qed.

(** ** Evaluations at failing inputs *)

(** C1, at the failing input.  ns1/foo serves a.com/old and ns1/bar is
    checked with the paths /new and /old, neither resource carrying a
    canary annotation.  The check meets /new first, finds the candidate's
    own location and returns nil for the whole resource: /old is never
    looked up and the candidate is accepted, although the synthesized
    a.com/old belongs to ns1/foo and the pair is one the check rejects.
    With the two paths in the other order the same candidate is
    rejected. *)
Theorem overlap_check_returns_at_first_owned_path :
  result (checkMCIOverlap refController refHelpers extractPlain [fooOld] barNewOld)
  = Some None
  /\ result (checkMCIOverlap refController refHelpers extractPlain [fooOld] barOldNew)
     = Some (Some (AlreadyDefined "a.com" "/old" "ns1" "foo"))
  /\ (exists servers,
        synthesizedServers refController refHelpers
          [fooOld; MCI.mk barNewOld (extractPlain barNewOld)] = Some servers
        /\ mciForHostPath "a.com" "/old" servers
           = (Some [MCI.MultiClusterIngress fooOld], [])
        /\ firstConflict refHelpers "a.com" "/old"
             (GetBoolAnnotationFromMCI refHelpers "canary" barNewOld)
             [MCI.MultiClusterIngress fooOld]
           = Some (AlreadyDefined "a.com" "/old" "ns1" "foo")).
Proof.
  split; [vm_compute; reflexivity|]. split; [vm_compute; reflexivity|].
  eexists. split; [vm_compute; reflexivity|].
  split; vm_compute; reflexivity.
Qed.

(** C2, at the failing input.  One resource defines a.com/ twice with path
    type Exact.  Each time the scan stops at the placeholder root location,
    whose path type is Prefix, and a new location is appended: the server
    ends up with two locations for the key (/, Exact). *)
Theorem duplicate_location_after_other_path_type :
  exists server,
    serverOf "a.com" (getBackendServersFromMCIs refController refHelpers [twiceExact])
    = Some server
    /\ map locationKey (Server.Locations server)
       = [("/", Some PathTypePrefix); ("/", Some PathTypeExact); ("/", Some PathTypeExact)]
    /\ map Location.Backend (Server.Locations server)
       = ["upstream-default-backend"; "ns1-s1-80"; "ns1-s2-80"]
    /\ ~ NoDup (map locationKey (Server.Locations server)).
Proof.
  eexists. split; [vm_compute; reflexivity|].
  split; [vm_compute; reflexivity|]. split; [vm_compute; reflexivity|].
  intros Hnd. apply NoDup_cons_1_2 in Hnd. apply NoDup_cons_1_1 in Hnd.
  apply Hnd. vm_compute. left.
Qed.

(** C6, at the failing input.  A canary resource with a host-only rule next
    to a non-canary resource: the merger reads rule.HTTP.Paths of the nil
    rule.HTTP and the synthesis panics; no Configuration is produced.  The
    upstream builder, the location loop and the overlap check skip such a
    rule. *)
Theorem canary_rule_without_http_panics :
  result (getBackendServersFromMCIs refController refHelpers [plainWeb; canaryHostOnly])
  = None
  /\ result (getConfigurationFromMCI refController refHelpers [plainWeb; canaryHostOnly])
     = None
  /\ (exists upstreams,
        result (createUpstreamsFromMCIs refController refHelpers
                  [plainWeb; canaryHostOnly] (getDefaultUpstream refController))
        = Some upstreams
        /\ is_Some (result (createServersFromMCIs refController refHelpers
                              [plainWeb; canaryHostOnly] upstreams
                              (getDefaultUpstream refController)))).
Proof.
  split; [vm_compute; reflexivity|]. split; [vm_compute; reflexivity|].
  eexists. split; [vm_compute; reflexivity|].
  vm_compute. eexists. reflexivity.
Qed.

(** ** Certificates *)

Lemma secretNameBySAN_total (h : Helpers) (getLocalSSLCert : string -> SSLCert.t + string)
    (host namespace : string) (tls : list IngressTLS.t) :
  exists name log, secretNameBySAN h getLocalSSLCert host namespace tls = (Some name, log).
Proof.
  induction tls as [|t rest IH]; simpl.
  - eexists _, _. reflexivity.
  - destruct IH as (name & log & IH).
    case_decide; [eauto|].
    destruct (getLocalSSLCert _) as [cert|e].
    + destruct (SSLCert.Certificate cert) as [x|]; [|eauto].
      destruct (x509VerifyHostname h x host); [|eauto].
      eexists _, _. reflexivity.
    + rewrite IH. eexists _, _. reflexivity.
Qed.

Lemma extractTLSSecretNameFromMCI_total (h : Helpers) (host : string) (mci : MCI.t)
    (getLocalSSLCert : string -> SSLCert.t + string) :
  exists name log, extractTLSSecretNameFromMCI h host mci getLocalSSLCert = (Some name, log).
Proof.
  unfold extractTLSSecretNameFromMCI.
  destruct (secretNameForHost _ _ _); [eexists _, _; reflexivity|].
  apply secretNameBySAN_total.
Qed.





(** ** Stable sorting *)


Section StableSort.
Context {A : Type}.
Variable less : A -> A -> bool.

Hypothesis less_asym : forall a b, less a b = true -> less b a = false.
Hypothesis less_negtrans :
  forall a b c, less b a = false -> less c b = false -> less c a = false.

Lemma insertStable_perm (x : A) (l : list A) :
  Permutation (insertStable less x l) (x :: l).
Proof.
  induction l as [|y l IH]; simpl; [reflexivity|].
  destruct (less y x); [|reflexivity].
  rewrite IH. apply perm_swap.
Qed.

Lemma sortSliceStable_perm (l : list A) : Permutation (sortSliceStable less l) l.
Proof.
  induction l as [|x l IH]; simpl; [reflexivity|].
  rewrite insertStable_perm. apply perm_skip. exact IH.
Qed.

Lemma insertStable_sorted (x : A) (l : list A) :
  StronglySorted (notAfter less) l -> StronglySorted (notAfter less) (insertStable less x l).
Proof.
  induction 1 as [|y l Hs IH Hall]; simpl.
  - constructor; constructor.
  - destruct (less y x) eqn:Hyx.
    + constructor; [exact IH|].
      rewrite insertStable_perm. constructor; [|exact Hall].
      unfold notAfter. apply less_asym. exact Hyx.
    + constructor; [constructor; assumption|].
      constructor; [exact Hyx|].
      eapply Forall_impl; [exact Hall|].
      intros z Hz. unfold notAfter in *. eapply less_negtrans; eassumption.
Qed.

Lemma sortSliceStable_sorted (l : list A) :
  StronglySorted (notAfter less) (sortSliceStable less l).
Proof.
  induction l as [|x l IH]; simpl; [constructor|].
  apply insertStable_sorted. exact IH.
Qed.

(** A second key [R], already in order, breaks the ties of [less]. *)
Variable R : A -> A -> Prop.



End StableSort.

(** ** The order of strings *)

Lemma string_compare_lt_trans (a b c : string) :
  String.compare a b = Lt -> String.compare b c = Lt -> String.compare a c = Lt.
Proof.
  revert b c. induction a as [|x a IH]; intros [|y b] [|z c]; simpl; try congruence.
  unfold Ascii.compare.
  destruct (N.compare_spec (Ascii.N_of_ascii x) (Ascii.N_of_ascii y)) as [Hxy|Hxy|Hxy];
    destruct (N.compare_spec (Ascii.N_of_ascii y) (Ascii.N_of_ascii z)) as [Hyz|Hyz|Hyz];
    try congruence; intros H1 H2.
  - rewrite Hxy, Hyz, N.compare_refl. eapply IH; eassumption.
  - rewrite Hxy. apply N.compare_lt_iff in Hyz. rewrite Hyz. reflexivity.
  - rewrite <- Hyz. apply N.compare_lt_iff in Hxy. rewrite Hxy. reflexivity.
  - assert (Hxz : (Ascii.N_of_ascii x < Ascii.N_of_ascii z)%N)
      by (eapply N.lt_trans; eassumption).
    apply N.compare_lt_iff in Hxz. rewrite Hxz. reflexivity.
Qed.

Lemma string_ltb_asym (a b : string) : String.ltb a b = true -> String.ltb b a = false.
Proof.
  unfold String.ltb. rewrite (String.compare_antisym a b).
  destruct (String.compare b a); simpl; congruence.
Qed.

Lemma string_ltb_negtrans (a b c : string) :
  String.ltb b a = false -> String.ltb c b = false -> String.ltb c a = false.
Proof.
  unfold String.ltb. intros Hba Hcb.
  destruct (String.compare c a) eqn:Hca; try reflexivity. exfalso.
  destruct (String.compare c b) eqn:Hcb'; try discriminate.
  - apply String.compare_eq_iff in Hcb'. subst c. rewrite Hca in Hba. discriminate.
  - rewrite String.compare_antisym in Hcb'.
    destruct (String.compare b c) eqn:Hbc; try discriminate.
    rewrite (string_compare_lt_trans b c a Hbc Hca) in Hba. discriminate.
Qed.


(** ** Final ordering *)




(** ** Catch-all override *)

(** A resource without a default-backend service, or whose default backend
    is not in the Backend map, leaves every server as it is. *)
Lemma bindDefaultBackend_without_reference (h : Helpers) (mci : MCI.t)
    (anns : Annotations.t) (upstreams : gmap string Backend.t) (un : string)
    (servers : gmap string Server.t) :
  (forall db svc,
      Spec.DefaultBackend (MCI.Spec mci) = Some db ->
      IngressBackend.Service db = Some svc ->
      upstreams !! upstreamName h (MCI.Namespace mci) (Some svc) = None) ->
  bindDefaultBackend h mci anns upstreams un servers = (Some (un, servers), []).
Proof.
  intros Hnone. unfold bindDefaultBackend.
  destruct (Spec.DefaultBackend (MCI.Spec mci)) as [db|]; [|reflexivity].
  destruct (IngressBackend.Service db) as [svc|] eqn:Hsvc; [|reflexivity].
  rewrite (Hnone db svc eq_refl Hsvc). reflexivity.
Qed.

(** What the default-backend reference of a resource does in the first
    pass of the server builder (lines 592-620).  A canary resource changes
    no server.  A non-canary resource whose default backend is in the
    Backend map rebinds the backend name, service and owning resource of
    the catch-all server's root location, whether or not it declares rules
    and whether or not the root location is still a placeholder, and
    leaves all other servers and locations alone.  Only when it declares
    no rules and the root location is a default-backend placeholder is the
    placeholder flag cleared and the annotation bundle applied, and then
    the redirect and rewrite fields are the ones the root location had
    before. *)
Lemma catch_all_root_rebinding (n : NGINXController) (h : Helpers) (mci : MCI.t)
    (anns : Annotations.t) (upstreams : gmap string Backend.t) (un : string)
    (servers : gmap string Server.t) (defaultUpstream : Backend.t) :
  (Canary.Enabled (Annotations.Canary (annotationsOf n h mci)) = true ->
   result (initServersOfMCI n h upstreams defaultUpstream servers mci) = Some servers)
  /\ (forall db svc backendUpstream catchAll defLoc,
      Spec.DefaultBackend (MCI.Spec mci) = Some db ->
      IngressBackend.Service db = Some svc ->
      upstreams !! upstreamName h (MCI.Namespace mci) (Some svc) = Some backendUpstream ->
      servers !! defServerName = Some catchAll ->
      head (Server.Locations catchAll) = Some defLoc ->
      exists root log,
        bindDefaultBackend h mci anns upstreams un servers
        = (Some (Backend.Name backendUpstream,
                 <[defServerName :=
                     Server.setLocations (root :: tail (Server.Locations catchAll)) catchAll]>
                   servers), log)
        /\ Location.Redirect root = Location.Redirect defLoc
        /\ Location.Rewrite root = Location.Rewrite defLoc
        /\ (Spec.Rules (MCI.Spec mci) <> [] \/ Location.IsDefBackend defLoc = false ->
            root = reboundRoot backendUpstream mci defLoc)
        /\ (Spec.Rules (MCI.Spec mci) = [] -> Location.IsDefBackend defLoc = true ->
            root = Location.setRewrite (Location.Rewrite defLoc)
                     (Location.setRedirect (Location.Redirect defLoc)
                        (locationApplyAnnotations h
                           (Location.setIsDefBackend false
                              (reboundRoot backendUpstream mci defLoc)) anns)))).
Proof.
  split.
  - intros Hcanary. unfold initServersOfMCI. rewrite Hcanary. reflexivity.
  - intros db svc backendUpstream catchAll defLoc Hdb Hsvc Hups Hsrv Hhead.
    unfold bindDefaultBackend. rewrite Hdb, Hsvc, Hups, Hsrv.
    unfold deref at 1. rewrite bind_ret_l, Hhead.
    unfold deref. rewrite bind_ret_l.
    cbn [Location.IsDefBackend Location.setMultiClusterIngress Location.setService
         Location.setBackend].
    destruct (Location.IsDefBackend defLoc) eqn:Hdef;
      destruct (Spec.Rules (MCI.Spec mci)) as [|rule rules] eqn:Hrules; simpl.
    + eexists _, _. split; [reflexivity|]. simpl.
      split; [reflexivity|]. split; [reflexivity|]. split.
      * intros [Hne|Hf]; [contradiction|discriminate].
      * intros _ _. reflexivity.
    + eexists _, _. split; [reflexivity|]. simpl.
      split; [reflexivity|]. split; [reflexivity|]. split.
      * intros _. reflexivity.
      * discriminate.
    + eexists _, _. split; [reflexivity|]. simpl.
      split; [reflexivity|]. split; [reflexivity|]. split.
      * intros _. reflexivity.
      * discriminate.
    + eexists _, _. split; [reflexivity|]. simpl.
      split; [reflexivity|]. split; [reflexivity|]. split.
      * intros _. reflexivity.
      * discriminate.
Qed.

Lemma catch_all_root_rebinding_at_both :
  exists servers root,
    result (bindDefaultBackend refHelpers backendAndRules plainAnnotations
              (<["ns1-s1-80" := newUpstream "ns1-s1-80"]> (onlyDefault refController))
              defUpstreamName
              (initialServers refController (getDefaultUpstream refController)))
    = Some ("ns1-s1-80", servers)
    /\ catchAllRoot servers = Some root
    /\ Location.Backend root = "ns1-s1-80"
    /\ Location.IsDefBackend root = true.
Proof.
  assert (Hups :
    (<["ns1-s1-80" := newUpstream "ns1-s1-80"]> (onlyDefault refController))
      !! upstreamName refHelpers (MCI.Namespace backendAndRules)
           (Some (ServiceBackend.mk "s1" "" 80))
    = Some (newUpstream "ns1-s1-80")) by (vm_compute; reflexivity).
  destruct (initialServers refController (getDefaultUpstream refController)
              !! defServerName) as [catchAll|] eqn:Hsrv;
    [|vm_compute in Hsrv; discriminate].
  destruct (head (Server.Locations catchAll)) as [defLoc|] eqn:Hhead;
    [|vm_compute in Hsrv; injection Hsrv as <-; discriminate].
  destruct (proj2 (catch_all_root_rebinding refController refHelpers backendAndRules
                     plainAnnotations
                     (<["ns1-s1-80" := newUpstream "ns1-s1-80"]> (onlyDefault refController))
                     defUpstreamName
                     (initialServers refController (getDefaultUpstream refController))
                     (getDefaultUpstream refController))
              (svcRef "s1" 80) (ServiceBackend.mk "s1" "" 80) (newUpstream "ns1-s1-80")
              catchAll defLoc eq_refl eq_refl Hups Hsrv Hhead)
    as (root & log & Heq & _ & _ & Hrules & _).
  eexists _, root. rewrite Heq. split; [reflexivity|].
  split; [unfold catchAllRoot; rewrite lookup_insert_eq; reflexivity|].
  rewrite Hrules by (left; discriminate). split; [reflexivity|].
  vm_compute in Hsrv. injection Hsrv as <-. injection Hhead as <-. reflexivity.
Defined.

(** C5, at the failing inputs.  ns1/both is a non-canary resource with a
    default backend and a rule.  The claim has it leave the catch-all
    server's root location unchanged; the server builder leaves the root
    location bound to the backend of ns1/both and owned by it, where
    before it pointed at the default upstream and had no owner.  The same
    happens to a root location that is no placeholder any more: ns1/catchall,
    a resource with a default backend and no rule, claims the root location
    for ns1-s3-80, and ns1/both, listed after it, takes the root location
    over for ns1-s1-80. *)
Theorem default_backend_with_rules_rebinds_root :
  (exists upstreams servers root,
    result (createUpstreamsFromMCIs refController refHelpers [backendAndRules]
              (getDefaultUpstream refController)) = Some upstreams
    /\ result (createServersFromMCIs refController refHelpers [backendAndRules] upstreams
                 (getDefaultUpstream refController)) = Some servers
    /\ catchAllRoot servers = Some root
    /\ Location.Backend root = "ns1-s1-80"
    /\ Location.IsDefBackend root = true
    /\ (MCI.Name <$> Location.MultiClusterIngress root) = Some "both"
    /\ (Location.Backend
          <$> catchAllRoot (initialServers refController (getDefaultUpstream refController)))
       = Some "upstream-default-backend"
    /\ catchAllRoot servers
       <> catchAllRoot (initialServers refController (getDefaultUpstream refController)))
  /\ (exists claimed,
        builtCatchAllRoot refController refHelpers [catchallOnly] = Some claimed
        /\ Location.Backend claimed = "ns1-s3-80"
        /\ Location.IsDefBackend claimed = false
        /\ (MCI.Name <$> Location.MultiClusterIngress claimed) = Some "catchall")
  /\ (exists taken,
        builtCatchAllRoot refController refHelpers [catchallOnly; backendAndRules]
        = Some taken
        /\ Location.Backend taken = "ns1-s1-80"
        /\ Location.IsDefBackend taken = false
        /\ (MCI.Name <$> Location.MultiClusterIngress taken) = Some "both").
Proof.
  split; [|split].
  - eexists _, _, _. split; [vm_compute; reflexivity|].
    split; [vm_compute; reflexivity|]. split; [vm_compute; reflexivity|].
    split; [reflexivity|]. split; [reflexivity|]. split; [reflexivity|].
    split; [reflexivity|]. vm_compute. discriminate.
  - eexists. split; [vm_compute; reflexivity|]. repeat split.
  - eexists. split; [vm_compute; reflexivity|]. repeat split.
Qed.

(** ** Canary merger *)

Lemma deref_Some {A : Type} (p : option A) (a : A) (l : list LogEntry) :
  deref p = (Some a, l) -> p = Some a /\ l = [].
Proof. destruct p; unfold deref, ret, panic; intros H; inversion H; auto. Qed.

Lemma bind_klog {B : Type} (s : Severity) (fmt : string) (k : unit -> M B)
    (b : B) (l : list LogEntry) :
  bind (klog s fmt) k = (Some b, l) ->
  exists l2, k tt = (Some b, l2) /\ l = mkLog s fmt :: l2.
Proof.
  intros H. apply bind_Some in H. destruct H as ([] & l1 & l2 & Hk & Hb & ->).
  unfold klog in Hk. injection Hk as <-. exists l2. auto.
Qed.

Lemma forRange_invariant {A S : Type} (P : S -> Prop) (body : S -> A -> M S)
    (xs : list A) (s s' : S) (l : list LogEntry) :
  forRange xs body s = (Some s', l) ->
  P s ->
  (forall s0 x s1 l1, In x xs -> body s0 x = (Some s1, l1) -> P s0 -> P s1) ->
  P s'.
Proof.
  revert s l. induction xs as [|x xs IH]; simpl; intros s l H Hs Hstep.
  - unfold ret in H. injection H as <- _. exact Hs.
  - apply bind_Some in H. destruct H as (s1 & l1 & l2 & Hb & Hrest & _).
    eapply IH; [exact Hrest| |].
    + eapply Hstep; [left; reflexivity|exact Hb|exact Hs].
    + intros s0 y s2 l3 Hin. apply Hstep. right. exact Hin.
Qed.

(** The merge of two backends never panics and renames neither. *)
Lemma mergeAlternativeBackendByMCI_names (mci : MCI.t) (priUps altUps : Backend.t) :
  exists verdict pri' alt' log,
    mergeAlternativeBackendByMCI mci priUps altUps = (Some (verdict, pri', alt'), log)
    /\ Backend.Name pri' = Backend.Name priUps
    /\ Backend.Name alt' = Backend.Name altUps.
Proof.
  unfold mergeAlternativeBackendByMCI.
  destruct (Backend.NoServer priUps); [eexists _, _, _, _; split; [reflexivity|auto]|].
  destruct (existsb _ _); [eexists _, _, _, _; split; [reflexivity|auto]|].
  eexists _, _, _, _. split; [reflexivity|]. split; [reflexivity|].
  case_decide; reflexivity.
Qed.

Lemma nameAt_insert_same (upstreams : gmap string Backend.t) (key : string)
    (b b' : Backend.t) :
  upstreams !! key = Some b -> Backend.Name b' = Backend.Name b ->
  forall k, nameAt (<[key := b']> upstreams) k = nameAt upstreams k.
Proof.
  intros Hb Hname k. unfold nameAt. destruct (decide (key = k)) as [->|Hne].
  - rewrite lookup_insert_eq, Hb. simpl. rewrite Hname. reflexivity.
  - rewrite lookup_insert_ne by exact Hne. reflexivity.
Qed.

(** What a scan of a server's locations reports.  The scan renames no
    backend and adds or removes no key; it reports a self-reference
    exactly when it reaches a location whose backend carries the name of
    the alternative backend, and then it has logged a warning. *)
Lemma scanLocations_outcome (h : Helpers) (mci : MCI.t) (altKey : string)
    (extra : Location.t -> M bool) (locs : list Location.t) :
  forall merged upstreams altEqualsPri merged' upstreams' log,
    scanLocations h mci altKey extra locs merged upstreams
    = (Some (altEqualsPri, merged', upstreams'), log) ->
    (forall k, nameAt upstreams' k = nameAt upstreams k)
    /\ (altEqualsPri = true ->
        In selfReferenceLine log
        /\ exists loc, In loc locs
             /\ is_Some (nameAt upstreams altKey)
             /\ nameAt upstreams (Location.Backend loc) = nameAt upstreams altKey)
    /\ (altEqualsPri = false ->
        forall loc, In loc locs ->
          nameAt upstreams (Location.Backend loc) <> nameAt upstreams altKey).
Proof.
  induction locs as [|loc rest IH]; intros merged upstreams aeq merged' upstreams' log H.
  - simpl in H. unfold ret in H. injection H as <- <- <- <-.
    split; [reflexivity|]. split; [discriminate|]. intros _ loc [].
  - cbn [scanLocations] in H.
    apply bind_Some in H. destruct H as (altUps & ? & ? & Halt & H & ->).
    apply deref_Some in Halt. destruct Halt as [Halt ->].
    apply bind_Some in H. destruct H as (priUps & ? & ? & Hpri & H & ->).
    apply deref_Some in Hpri. destruct Hpri as [Hpri ->].
    cbn [app].
    assert (HnAlt : nameAt upstreams altKey = Some (Backend.Name altUps))
      by (unfold nameAt; rewrite Halt; reflexivity).
    assert (HnPri : nameAt upstreams (Location.Backend loc) = Some (Backend.Name priUps))
      by (unfold nameAt; rewrite Hpri; reflexivity).
    destruct (decide (Backend.Name altUps = Backend.Name priUps)) as [Heq|Hne].
    + apply bind_klog in H. destruct H as (l2 & H & ->).
      unfold ret in H. injection H as <- <- <- <-.
      split; [reflexivity|]. split.
      * intros _. split; [left; reflexivity|].
        exists loc. split; [left; reflexivity|].
        split; [rewrite HnAlt; eexists; reflexivity|].
        rewrite HnAlt, HnPri, Heq. reflexivity.
      * discriminate.
    + apply bind_Some in H. destruct H as (ok & l1 & l2 & _ & H & ->).
      assert (Hrec : exists upstreams2 merged2 l3,
                 scanLocations h mci altKey extra rest merged2 upstreams2
                 = (Some (aeq, merged', upstreams'), l3)
                 /\ (forall k, nameAt upstreams2 k = nameAt upstreams k)
                 /\ (In selfReferenceLine l3 -> In selfReferenceLine (l1 ++ l2))).
      { destruct ok.
        - apply bind_klog in H. destruct H as (l3 & H & ->).
          apply bind_Some in H. destruct H as ([[verdict pri'] alt'] & l4 & l5 & Hm & H & ->).
          destruct (mergeAlternativeBackendByMCI_names mci priUps altUps)
            as (v & p & a & lg & Hm' & Hp & Ha).
          rewrite Hm' in Hm. injection Hm as -> -> -> ->.
          eexists _, _, _. split; [exact H|]. split.
          + intros k.
            assert (Hne' : Location.Backend loc <> altKey).
            { intros Hk. rewrite Hk, Halt in Hpri. injection Hpri as ->. congruence. }
            rewrite (nameAt_insert_same _ altKey altUps alt')
              by (rewrite ?lookup_insert_ne by exact Hne'; assumption).
            apply (nameAt_insert_same _ _ priUps pri'); assumption.
          + intros Hin. apply in_or_app. right. right.
            apply in_or_app. right. exact Hin.
        - eexists _, _, _. split; [exact H|]. split; [reflexivity|].
          intros Hin. apply in_or_app. right. exact Hin. }
      destruct Hrec as (upstreams2 & merged2 & l3 & Hscan & Hnames & Hlog).
      destruct (IH _ _ _ _ _ _ Hscan) as (Hn & Hself & Hnone).
      split; [intros k; rewrite Hn; apply Hnames|]. split.
      * intros Htrue. destruct (Hself Htrue) as (Hin & loc' & Hloc & Hsome & Hsame).
        split; [apply Hlog; exact Hin|].
        exists loc'. split; [right; exact Hloc|].
        rewrite <- !Hnames. auto.
      * intros Hfalse loc' [<-|Hloc].
        -- rewrite HnAlt, HnPri. congruence.
        -- rewrite <- !Hnames. apply Hnone; assumption.
Qed.

Lemma dropUnmerged_cases (altKey : string) (alt : Backend.t)
    (altEqualsPri merged : bool) (scanned : gmap string Backend.t) :
  scanned !! altKey = Some alt ->
  dropUnmerged altKey (altEqualsPri, merged, scanned)
  = if negb altEqualsPri && negb merged
    then (Some (delete (Backend.Name alt) scanned),
          [mkLog Warning "unable to find real backend for alternative backend %v. Deleting."])
    else (Some scanned, []).
Proof.
  intros Halt. unfold dropUnmerged.
  destruct (negb altEqualsPri && negb merged); [|reflexivity].
  rewrite Halt. reflexivity.
Qed.

Lemma nameAt_Some (upstreams : gmap string Backend.t) (key : string) (name : string) :
  nameAt upstreams key = Some name ->
  exists b, upstreams !! key = Some b /\ Backend.Name b = name.
Proof.
  unfold nameAt. destruct (upstreams !! key) as [b|]; simpl; [|discriminate].
  intros H. injection H as <-. eauto.
Qed.

(** A scan followed by the conditional deletion, as both the
    default-backend block and the path loop perform them. *)
Lemma scan_then_drop (h : Helpers) (mci : MCI.t) (key : string)
    (extra : Location.t -> M bool) (locs : list Location.t) (alt : Backend.t)
    (upstreams upstreams' : gmap string Backend.t) (log : list LogEntry) :
  upstreams !! key = Some alt ->
  bind (scanLocations h mci key extra locs false upstreams) (dropUnmerged key)
  = (Some upstreams', log) ->
  mergeStepOutcome h mci key extra locs alt upstreams upstreams' log.
Proof.
  intros Halt H. apply bind_Some in H.
  destruct H as ([[aeq merged] scanned] & l1 & l2 & Hscan & Hdrop & ->).
  destruct (scanLocations_outcome _ _ _ _ _ _ _ _ _ _ _ Hscan) as (Hnames & Hself & Hnone).
  assert (HnAlt : nameAt upstreams key = Some (Backend.Name alt))
    by (unfold nameAt; rewrite Halt; reflexivity).
  assert (Hkept : nameAt scanned key = Some (Backend.Name alt))
    by (rewrite Hnames; exact HnAlt).
  destruct (nameAt_Some _ _ _ Hkept) as (alt' & Halt' & Hname').
  rewrite (dropUnmerged_cases key alt' aeq merged scanned Halt') in Hdrop.
  exists aeq, merged, scanned, l1. split; [exact Hscan|]. split; [|split; [|split]].
  - split.
    + intros Htrue. destruct (Hself Htrue) as (_ & loc & Hin & _ & Hsame).
      exists loc. split; [exact Hin|]. rewrite Hsame. exact HnAlt.
    + intros (loc & Hin & Hsame). destruct aeq; [reflexivity|].
      exfalso. apply (Hnone eq_refl loc Hin). rewrite Hsame, HnAlt. reflexivity.
  - intros ->. simpl in Hdrop. injection Hdrop as <- <-.
    split; [|split; [reflexivity|exact Hkept]].
    apply in_or_app. left. apply (Hself eq_refl).
  - intros -> ->. simpl in Hdrop. injection Hdrop as <- <-.
    split; [reflexivity|exact Hkept].
  - intros -> ->. simpl in Hdrop. injection Hdrop as <- <-.
    rewrite Hname'. split; [reflexivity|]. apply lookup_delete_eq.
Qed.

(** No merge step adds a key to the Backend map. *)
Lemma scan_then_drop_absent (h : Helpers) (mci : MCI.t) (key : string)
    (extra : Location.t -> M bool) (locs : list Location.t)
    (upstreams upstreams' : gmap string Backend.t) (log : list LogEntry) (k : string) :
  bind (scanLocations h mci key extra locs false upstreams) (dropUnmerged key)
  = (Some upstreams', log) ->
  upstreams !! k = None -> upstreams' !! k = None.
Proof.
  intros H Hk. apply bind_Some in H.
  destruct H as ([[aeq merged] scanned] & l1 & l2 & Hscan & Hdrop & ->).
  destruct (scanLocations_outcome _ _ _ _ _ _ _ _ _ _ _ Hscan) as (Hnames & _ & _).
  assert (Hscanned : scanned !! k = None).
  { specialize (Hnames k). unfold nameAt in Hnames. rewrite Hk in Hnames.
    destruct (scanned !! k); [discriminate|reflexivity]. }
  unfold dropUnmerged in Hdrop.
  destruct (negb aeq && negb merged).
  - apply bind_Some in Hdrop. destruct Hdrop as (alt & ? & ? & _ & Hdrop & _).
    apply bind_klog in Hdrop. destruct Hdrop as (? & Hdrop & _).
    unfold ret in Hdrop. injection Hdrop as <- _.
    apply lookup_delete_None. right. exact Hscanned.
  - unfold ret in Hdrop. injection Hdrop as <- _. exact Hscanned.
Qed.

Lemma mergePath_absent (h : Helpers) (mci : MCI.t) (servers : gmap string Server.t)
    (host : string) (upstreams upstreams' : gmap string Backend.t)
    (path : HTTPIngressPath.t) (log : list LogEntry) (k : string) :
  mergePath h mci servers host upstreams path = (Some upstreams', log) ->
  upstreams !! k = None -> upstreams' !! k = None.
Proof.
  unfold mergePath. intros H Hk.
  destruct (IngressBackend.Service (HTTPIngressPath.Backend path)) as [svc|].
  - destruct (upstreams !! upstreamName h (MCI.Namespace mci) (Some svc)).
    + destruct (servers !! host) as [server|].
      * eapply scan_then_drop_absent; eassumption.
      * apply bind_klog in H. destruct H as (? & H & _).
        unfold ret in H. injection H as <- _. exact Hk.
    + apply bind_klog in H. destruct H as (? & H & _).
      unfold ret in H. injection H as <- _. exact Hk.
  - apply bind_klog in H. destruct H as (? & H & _).
    unfold ret in H. injection H as <- _. exact Hk.
Qed.

Lemma mergeDefaultBackend_absent (h : Helpers) (mci : MCI.t)
    (servers : gmap string Server.t) (upstreams upstreams' : gmap string Backend.t)
    (log : list LogEntry) (k : string) :
  mergeDefaultBackend h mci servers upstreams = (Some upstreams', log) ->
  upstreams !! k = None -> upstreams' !! k = None.
Proof.
  unfold mergeDefaultBackend. intros H Hk.
  destruct (Spec.DefaultBackend (MCI.Spec mci)) as [db|].
  - destruct (upstreams !! upstreamName h (MCI.Namespace mci) (IngressBackend.Service db)).
    + apply bind_Some in H. destruct H as (catchAll & ? & ? & _ & H & _).
      eapply scan_then_drop_absent; eassumption.
    + apply bind_klog in H. destruct H as (? & H & _).
      unfold ret in H. injection H as <- _. exact Hk.
  - unfold ret in H. injection H as <- _. exact Hk.
Qed.

(** Merging a canary resource adds no key to the Backend map: a backend
    that was deleted stays deleted. *)
Lemma mergeAlternativeBackendsByMCI_absent (h : Helpers) (mci : MCI.t)
    (servers : gmap string Server.t) (upstreams upstreams' : gmap string Backend.t)
    (log : list LogEntry) (k : string) :
  mergeAlternativeBackendsByMCI h mci upstreams servers = (Some upstreams', log) ->
  upstreams !! k = None -> upstreams' !! k = None.
Proof.
  unfold mergeAlternativeBackendsByMCI. intros H Hk.
  apply bind_Some in H. destruct H as (u1 & ? & ? & Hdef & H & _).
  eapply (forRange_invariant (fun u => u !! k = None)); [exact H| |].
  - eapply mergeDefaultBackend_absent; eassumption.
  - intros s0 rule s1 l1 _ Hrule Hs0. unfold mergeRule in Hrule.
    apply bind_Some in Hrule. destruct Hrule as (paths & ? & ? & _ & Hrule & _).
    eapply (forRange_invariant (fun u => u !! k = None)); [exact Hrule|exact Hs0|].
    intros s2 path s3 l3 _ Hpath Hs2. eapply mergePath_absent; eassumption.
Qed.

(** Every backend synthesized while visiting a location carries a custom
    default backend name. *)
Lemma customDefaultBackend_created (n : NGINXController) (h : Helpers)
    (upstream : Backend.t) (server : Server.t)
    (acc acc' : list Location.t * list Backend.t * bool) (location : Location.t)
    (l : list LogEntry) :
  customDefaultBackend n h upstream server acc location = (Some acc', l) ->
  Forall isCustomDefaultBackend (snd (fst acc)) ->
  Forall isCustomDefaultBackend (snd (fst acc')).
Proof.
  destruct acc as [[done created] https]. unfold customDefaultBackend.
  intros H Hc.
  destruct (shouldCreateUpstreamForLocationDefaultBackend h upstream location);
    cbn [negb] in H.
  2: { unfold ret in H. injection H as <- _. exact Hc. }
  apply bind_Some in H. destruct H as (db & ? & ? & _ & H & _).
  destruct (Service.Ports db) as [|sp ports].
  { cbn in H. unfold ret in H. injection H as <- _. exact Hc. }
  apply bind_Some in H. destruct H as ([location' created'] & ? & ? & Hnb & H & _).
  assert (Hcreated : Forall isCustomDefaultBackend created').
  { destruct (decide (length (getEndpoints n db sp) = 0%nat)).
    - unfold ret in Hnb. injection Hnb as _ <- _. exact Hc.
    - assert (Hnew : Forall isCustomDefaultBackend
                       (created ++ [Backend.setEndpoints (getEndpoints n db sp)
                                      (Backend.setName (customDefaultBackendName db)
                                         upstream)])).
      { apply Forall_app. split; [exact Hc|].
        constructor; [|constructor]. exists db. reflexivity. }
      destruct (decide (length (Backend.Endpoints upstream) = 0%nat));
        cbn in Hnb; unfold ret in Hnb; injection Hnb as _ <- _; exact Hnew. }
  destruct (Server.SSLPassthrough server && bool_decide (Location.Path location' = rootLocation)).
  - destruct (decide (Location.Backend location' = defUpstreamName));
      cbn in H; unfold ret in H; injection H as <- _; exact Hcreated.
  - unfold ret in H. injection H as <- _. exact Hcreated.
Qed.

(** The final backend list holds the entries of the Backend map, by name,
    and backends synthesized for custom default backends; nothing else. *)
Lemma assemble_backends (n : NGINXController) (h : Helpers)
    (upstreams : gmap string Backend.t) (servers : gmap string Server.t)
    (aUpstreams : list Backend.t) (aServers : list Server.t) (log : list LogEntry) :
  assemble n h upstreams servers = (Some (aUpstreams, aServers), log) ->
  Forall (fun b =>
            (exists key u, upstreams !! key = Some u /\ Backend.Name b = Backend.Name u)
            \/ isCustomDefaultBackend b) aUpstreams.
Proof.
  unfold assemble. intros H. apply bind_Some in H.
  destruct H as ([built servers'] & l1 & l2 & Hloop & Hret & _).
  unfold ret in Hret. injection Hret as <- _ _.
  rewrite sortSliceStable_perm.
  set (P := fun b : Backend.t =>
              (exists key u, upstreams !! key = Some u /\ Backend.Name b = Backend.Name u)
              \/ isCustomDefaultBackend b).
  change (Forall P (fst (built, servers'))).
  eapply (forRange_invariant (fun st => Forall P (fst st))); [exact Hloop|constructor|].
  intros [acc srv] upstream [acc' srv'] l3 Hin Hbody Hacc. simpl in *.
  assert (Hfrom : P upstream).
  { left. apply in_map_iff in Hin. destruct Hin as ([key u] & <- & Hin).
    exists key, u. split; [|reflexivity].
    apply elem_of_map_to_list. apply list_elem_of_In. exact Hin. }
  unfold assembleUpstream in Hbody.
  destruct (decide (Backend.Name upstream = defUpstreamName)).
  - unfold ret in Hbody. injection Hbody as <- _ _.
    apply Forall_app. split; [exact Hacc|]. constructor; [exact Hfrom|constructor].
  - apply bind_Some in Hbody.
    destruct Hbody as ([[srv2 created] https] & ? & ? & Hsrv & Hbody & _).
    unfold ret in Hbody. injection Hbody as <- _ _.
    apply Forall_app. split; [exact Hacc|]. constructor.
    + destruct https; [|exact Hfrom].
      destruct Hfrom as [(key & u & Hu & Hname)|(svc & Hname)].
      * left. exists key, u. split; [exact Hu|exact Hname].
      * right. exists svc. exact Hname.
    + eapply Forall_impl; [|intros b Hb; right; exact Hb].
      change (Forall isCustomDefaultBackend (snd (fst (srv2, created, https)))).
      eapply (forRange_invariant
                (fun st => Forall isCustomDefaultBackend (snd (fst st))));
        [exact Hsrv|constructor|].
      intros [[s0 c0] h0] key [[s1 c1] h1] l4 _ Hkey Hc0. simpl in *.
      unfold customDefaultBackendsOfServer in Hkey.
      apply bind_Some in Hkey. destruct Hkey as (server & ? & ? & _ & Hkey & _).
      apply bind_Some in Hkey.
      destruct Hkey as ([[locs c2] h2] & ? & ? & Hlocs & Hkey & _).
      unfold ret in Hkey. injection Hkey as _ <- _.
      change (Forall isCustomDefaultBackend (snd (fst (locs, c2, h2)))).
      eapply (forRange_invariant
                (fun st => Forall isCustomDefaultBackend (snd (fst st))));
        [exact Hlocs|exact Hc0|].
      intros acc0 location acc1 l5 _ Hloc Hacc0.
      eapply customDefaultBackend_created; eassumption.
Qed.

(** What the merger does with an alternative backend that is still in
    the Backend map, for the default backend and for every rule/path of a
    canary resource.  When the rule's host has no server, an error is
    logged and the alternative backend stays in the map; otherwise the
    target server's locations are scanned.  If the scan reaches a location
    whose backend carries the alternative backend's name, it stops with a
    warning and the alternative backend is not deleted (merges made at
    earlier locations of the scan stay).  If it reaches none and no merge
    succeeded, the alternative backend is deleted from the map under its
    name.  No later merge step puts a key back, and the final backend list
    holds only backends of the map and backends synthesized for custom
    default backends. *)
Lemma canary_merge_outcome (h : Helpers) (mci : MCI.t) (servers : gmap string Server.t) :
  (forall host upstreams path svc alt upstreams' log,
      IngressBackend.Service (HTTPIngressPath.Backend path) = Some svc ->
      upstreams !! upstreamName h (MCI.Namespace mci) (Some svc) = Some alt ->
      mergePath h mci servers host upstreams path = (Some upstreams', log) ->
      match servers !! host with
      | None => upstreams' = upstreams /\ log = [missingHostLine]
      | Some server =>
        mergeStepOutcome h mci (upstreamName h (MCI.Namespace mci) (Some svc))
          (samePathAndType path) (Server.Locations server) alt upstreams upstreams' log
      end)
  /\ (forall upstreams db alt upstreams' log,
      Spec.DefaultBackend (MCI.Spec mci) = Some db ->
      upstreams !! upstreamName h (MCI.Namespace mci) (IngressBackend.Service db)
      = Some alt ->
      mergeDefaultBackend h mci servers upstreams = (Some upstreams', log) ->
      exists catchAll,
        servers !! defServerName = Some catchAll
        /\ mergeStepOutcome h mci
             (upstreamName h (MCI.Namespace mci) (IngressBackend.Service db))
             (fun _ => ret true) (Server.Locations catchAll) alt upstreams upstreams' log)
  /\ (forall upstreams upstreams' log key,
      mergeAlternativeBackendsByMCI h mci upstreams servers = (Some upstreams', log) ->
      upstreams !! key = None -> upstreams' !! key = None)
  /\ (forall n upstreams aUpstreams aServers log,
      assemble n h upstreams servers = (Some (aUpstreams, aServers), log) ->
      Forall (fun b =>
                (exists key u, upstreams !! key = Some u /\ Backend.Name b = Backend.Name u)
                \/ isCustomDefaultBackend b) aUpstreams).
Proof.
  split; [|split; [|split]].
  - intros host upstreams path svc alt upstreams' log Hsvc Halt H.
    unfold mergePath in H. rewrite Hsvc, Halt in H.
    destruct (servers !! host) as [server|].
    + eapply scan_then_drop; eassumption.
    + cbn in H. unfold ret in H. injection H as <- <-. split; reflexivity.
  - intros upstreams db alt upstreams' log Hdb Halt H.
    unfold mergeDefaultBackend in H. rewrite Hdb, Halt in H.
    apply bind_Some in H. destruct H as (catchAll & ? & ? & Hsrv & H & ->).
    apply deref_Some in Hsrv. destruct Hsrv as [Hsrv ->].
    exists catchAll. split; [exact Hsrv|].
    eapply scan_then_drop; eassumption.
  - intros upstreams upstreams' log key. apply mergeAlternativeBackendsByMCI_absent.
  - intros n upstreams aUpstreams aServers log. apply assemble_backends.
Qed.

Lemma canary_merge_outcome_at_orphan :
  exists upstreams',
    result (mergePath refHelpers canaryOrphan sampleServers "a.com" sampleUpstreams
              orphanPath) = Some upstreams'
    /\ upstreams' !! "ns1-s9-80" = None.
Proof.
  destruct (mergePath refHelpers canaryOrphan sampleServers "a.com" sampleUpstreams
              orphanPath) as [[upstreams'|] log] eqn:Hrun;
    [|vm_compute in Hrun; discriminate].
  exists upstreams'. split; [reflexivity|].
  assert (Halt : sampleUpstreams
                   !! upstreamName refHelpers (MCI.Namespace canaryOrphan)
                        (Some (ServiceBackend.mk "s9" "" 80))
                 = Some (Backend.setNoServer true (newUpstream "ns1-s9-80")))
    by (vm_compute; reflexivity).
  pose proof (proj1 (canary_merge_outcome refHelpers canaryOrphan sampleServers)
                "a.com" sampleUpstreams orphanPath (ServiceBackend.mk "s9" "" 80)
                _ upstreams' log eq_refl Halt Hrun) as Hout.
  destruct (sampleServers !! "a.com") as [server|] eqn:Hsrv;
    [|vm_compute in Hsrv; discriminate].
  destruct Hout as (aeq & merged & scanned & scanLog & Hscan & _ & _ & _ & Hdel).
  vm_compute in Hsrv. injection Hsrv as <-.
  assert (Hflags : aeq = false /\ merged = false).
  { vm_compute in Hscan. injection Hscan as <- <- _ _. split; reflexivity. }
  destruct Hflags as [-> ->].
  exact (proj2 (Hdel eq_refl eq_refl)).
Defined.

(** C4, at the failing inputs.  The canary ns1/canary names the host
    c.com, which has no server: no primary location is found for its path,
    nothing is merged (ns1-s1-80 has no alternative backend), an error is
    logged, and yet its backend ns1-s9-80 is in the final backend list,
    where the claim and the comment above the merger have it deleted.
    And for the canary of a.com/ whose service already is the primary
    backend of a.com/a, the scan first merges the alternative backend into
    the primary backend of a.com/ and only then meets the self-reference:
    the backend is kept, as the claim says, but not unmerged. *)
Theorem canary_backend_kept_or_merged :
  backendNames (getBackendServersFromMCIs refController refHelpers
                  [plainWeb; canaryElsewhere])
  = Some ["ns1-s1-80"; "ns1-s9-80"; "upstream-default-backend"]
  /\ alternativesOf "ns1-s1-80"
       (getBackendServersFromMCIs refController refHelpers [plainWeb; canaryElsewhere])
     = Some []
  /\ In missingHostLine
       (logged (getBackendServersFromMCIs refController refHelpers
                  [plainWeb; canaryElsewhere]))
  /\ backendNames (getBackendServersFromMCIs refController refHelpers
                     [twoPaths; canaryOfPrimary])
     = Some ["ns1-s1-80"; "ns1-s2-80"; "upstream-default-backend"]
  /\ alternativesOf "ns1-s1-80"
       (getBackendServersFromMCIs refController refHelpers [twoPaths; canaryOfPrimary])
     = Some ["ns1-s2-80"]
  /\ In selfReferenceLine
       (logged (getBackendServersFromMCIs refController refHelpers
                  [twoPaths; canaryOfPrimary])).
Proof.
  split; [vm_compute; reflexivity|]. split; [vm_compute; reflexivity|].
  split; [vm_compute; tauto|]. split; [vm_compute; reflexivity|].
  split; [vm_compute; reflexivity|]. vm_compute. tauto.
Qed.

(** * Further properties of the synthesis *)

(** ** Loops *)

Lemma forRange_total {A S : Type} (I : S -> Prop) (body : S -> A -> M S)
    (xs : list A) (s : S) :
  I s ->
  (forall s0 x, In x xs -> I s0 -> exists s1 l1, body s0 x = (Some s1, l1) /\ I s1) ->
  exists s' l, forRange xs body s = (Some s', l) /\ I s'.
Proof.
  revert s. induction xs as [|x xs IH]; intros s Hs Hstep.
  - exists s, []. split; [reflexivity|exact Hs].
  - destruct (Hstep s x (or_introl eq_refl) Hs) as (s1 & l1 & Hb & Hs1).
    destruct (IH s1 Hs1) as (s' & l & Hrest & Hs').
    { intros s0 y Hin. apply Hstep. right. exact Hin. }
    exists s', (l1 ++ l). split; [|exact Hs'].
    cbn [forRange]. rewrite Hb. cbn [bind]. rewrite Hrest. reflexivity.
Qed.

(** A loop whose steps only move the state forward along [R] and establish
    [Q x] for the element [x] they visit, [Q] being stable along [R]. *)
Lemma forRange_covers {A S : Type} (R : S -> S -> Prop) (Q : A -> S -> Prop)
    (body : S -> A -> M S) (xs : list A) :
  (forall s, R s s) ->
  (forall s1 s2 s3, R s1 s2 -> R s2 s3 -> R s1 s3) ->
  (forall x s1 s2, R s1 s2 -> Q x s1 -> Q x s2) ->
  (forall s0 x s1 l1, In x xs -> body s0 x = (Some s1, l1) -> R s0 s1 /\ Q x s1) ->
  forall s s' l,
    forRange xs body s = (Some s', l) ->
    R s s' /\ forall x, In x xs -> Q x s'.
Proof.
  intros Hrefl Htrans Hstable. induction xs as [|x xs IH]; intros Hstep s s' l H.
  - cbn in H. unfold ret in H. injection H as <- _. split; [apply Hrefl|intros x []].
  - cbn [forRange] in H. apply bind_Some in H.
    destruct H as (s1 & l1 & l2 & Hb & Hrest & _).
    destruct (Hstep s x s1 l1 (or_introl eq_refl) Hb) as [HR HQ].
    destruct (IH (fun s0 y s2 l2 Hin => Hstep s0 y s2 l2 (or_intror Hin)) s1 s' l2 Hrest)
      as [HR' HQ'].
    split; [eapply Htrans; eassumption|].
    intros y [<-|Hin]; [eapply Hstable; eassumption|apply HQ'; exact Hin].
Qed.

(** ** Upstream builder: keys and names *)

(** The rule/path branch either leaves the map as it is or adds one backend
    under a key that was free, named by its key. *)
Lemma createUpstreamPath_shape (n : NGINXController) (h : Helpers) (mci : MCI.t)
    (anns : Annotations.t) (upstreams : gmap string Backend.t)
    (path : HTTPIngressPath.t) :
  exists upstreams' log,
    createUpstreamPath n h mci anns upstreams path = (Some upstreams', log)
    /\ (upstreams' = upstreams
        \/ exists svc u,
            IngressBackend.Service (HTTPIngressPath.Backend path) = Some svc
            /\ upstreams !! upstreamName h (MCI.Namespace mci) (Some svc) = None
            /\ upstreams' = <[upstreamName h (MCI.Namespace mci) (Some svc) := u]> upstreams
            /\ Backend.Name u = upstreamName h (MCI.Namespace mci) (Some svc)
            /\ Backend.NoServer u = Canary.Enabled (Annotations.Canary anns))
    /\ forall svc,
        IngressBackend.Service (HTTPIngressPath.Backend path) = Some svc ->
        is_Some (upstreams' !! upstreamName h (MCI.Namespace mci) (Some svc)).
Proof.
  unfold createUpstreamPath, applyHashAndLB.
  destruct (IngressBackend.Service (HTTPIngressPath.Backend path)) as [svc|] eqn:Hsvc.
  2: { eexists _, _. split; [reflexivity|]. split; [left; reflexivity|discriminate]. }
  destruct (upstreamServiceNameAndPort h svc) as [svcName svcPort].
  destruct (upstreams !! upstreamName h (MCI.Namespace mci) (Some svc)) as [b|] eqn:Hb.
  { eexists _, _. split; [reflexivity|]. split; [left; reflexivity|].
    intros svc' Heq. injection Heq as <-. rewrite Hb. eexists. reflexivity. }
  destruct (decide _); destruct (Annotations.ServiceUpstream anns);
    destruct (Canary.Enabled (Annotations.Canary anns));
    case_collaborators n; simpl; case_collaborators n; simpl;
    (eexists _, _; split; [reflexivity|]; split;
     [right; exists svc; eexists; split; [reflexivity|]; split; [exact Hb|];
      split; [reflexivity|]; split; reflexivity
     |intros svc' Heq; injection Heq as <-; rewrite lookup_insert_eq; eexists; reflexivity]).
Qed.

(** The default-backend branch either leaves the map as it is or stores a
    backend, named by its key, under the key of the referenced service. *)
Lemma createUpstreamDefaultBackend_shape (n : NGINXController) (h : Helpers) (mci : MCI.t)
    (anns : Annotations.t) (upstreams : gmap string Backend.t) :
  exists upstreams' log,
    createUpstreamDefaultBackend n h mci anns upstreams = (Some upstreams', log)
    /\ (upstreams' = upstreams
        \/ exists db svc u,
            Spec.DefaultBackend (MCI.Spec mci) = Some db
            /\ IngressBackend.Service db = Some svc
            /\ upstreams' = <[upstreamName h (MCI.Namespace mci) (Some svc) := u]> upstreams
            /\ Backend.Name u = upstreamName h (MCI.Namespace mci) (Some svc))
    /\ forall db svc,
        Spec.DefaultBackend (MCI.Spec mci) = Some db ->
        IngressBackend.Service db = Some svc ->
        is_Some (upstreams' !! upstreamName h (MCI.Namespace mci) (Some svc)).
Proof.
  unfold createUpstreamDefaultBackend, applyHashAndLB.
  destruct (Spec.DefaultBackend (MCI.Spec mci)) as [db|] eqn:Hdb.
  2: { eexists _, _. split; [reflexivity|]. split; [left; reflexivity|discriminate]. }
  destruct (IngressBackend.Service db) as [svc|] eqn:Hsvc.
  2: { eexists _, _. split; [reflexivity|]. split; [left; reflexivity|].
       intros db' svc' Heq. injection Heq as <-. congruence. }
  destruct (upstreamServiceNameAndPort h svc) as [svcName svcPort].
  destruct (decide _); destruct (Annotations.ServiceUpstream anns);
    destruct (Canary.Enabled (Annotations.Canary anns));
    case_collaborators n; simpl; case_collaborators n; simpl;
    (eexists _, _; split; [reflexivity|]; split;
     [right; exists db, svc; eexists; split; [reflexivity|]; split; [exact Hsvc|];
      split; reflexivity
     |intros db' svc' Heq Hs; injection Heq as <-; rewrite Hsvc in Hs;
      injection Hs as <-; rewrite lookup_insert_eq; eexists; reflexivity]).
Qed.

Lemma keysKept_refl {V : Type} (m : gmap string V) : keysKept m m.
Proof. intros k Hk. exact Hk. Qed.

Lemma keysKept_trans {V : Type} (m1 m2 m3 : gmap string V) :
  keysKept m1 m2 -> keysKept m2 m3 -> keysKept m1 m3.
Proof. intros H12 H23 k Hk. apply H23, H12, Hk. Qed.

Lemma keysKept_insert {V : Type} (m : gmap string V) (key : string) (v : V) :
  keysKept m (<[key := v]> m).
Proof.
  intros k Hk. destruct (decide (key = k)) as [->|Hne].
  - rewrite lookup_insert_eq. eexists. reflexivity.
  - rewrite lookup_insert_ne by exact Hne. exact Hk.
Qed.

Lemma createUpstreamRule_covers (n : NGINXController) (h : Helpers) (mci : MCI.t)
    (anns : Annotations.t) (upstreams : gmap string Backend.t) (rule : IngressRule.t) :
  exists upstreams' log,
    createUpstreamRule n h mci anns upstreams rule = (Some upstreams', log)
    /\ keysKept upstreams upstreams'
    /\ forall paths path svc,
        IngressRule.HTTP rule = Some paths -> In path paths ->
        IngressBackend.Service (HTTPIngressPath.Backend path) = Some svc ->
        is_Some (upstreams' !! upstreamName h (MCI.Namespace mci) (Some svc)).
Proof.
  unfold createUpstreamRule. destruct (IngressRule.HTTP rule) as [paths|].
  2: { exists upstreams, []. split; [reflexivity|]. split; [apply keysKept_refl|discriminate]. }
  destruct (forRange_total (fun _ => True) (createUpstreamPath n h mci anns) paths upstreams I)
    as (upstreams' & log & Hrun & _).
  { intros s0 path _ _.
    destruct (createUpstreamPath_shape n h mci anns s0 path) as (s1 & l1 & H1 & _).
    exists s1, l1. split; [exact H1|exact I]. }
  exists upstreams', log. split; [exact Hrun|].
  destruct (forRange_covers keysKept
              (fun path s => forall svc,
                   IngressBackend.Service (HTTPIngressPath.Backend path) = Some svc ->
                   is_Some (s !! upstreamName h (MCI.Namespace mci) (Some svc)))
              (createUpstreamPath n h mci anns) paths
              keysKept_refl keysKept_trans) with (s := upstreams) (s' := upstreams') (l := log)
    as [Hkept Hcov].
  - intros path s1 s2 H12 HQ svc Hsvc. apply H12, HQ, Hsvc.
  - intros s0 path s1 l1 _ Hb.
    destruct (createUpstreamPath_shape n h mci anns s0 path)
      as (s1' & l1' & H1 & Hshape & Hcov).
    rewrite H1 in Hb. injection Hb as <- <-. split; [|exact Hcov].
    destruct Hshape as [->|(svc & u & _ & _ & -> & _)];
      [apply keysKept_refl|apply keysKept_insert].
  - exact Hrun.
  - split; [exact Hkept|].
    intros paths' path svc Heq Hin. injection Heq as <-. apply Hcov. exact Hin.
Qed.

Lemma createUpstreamsOfMCI_covers (n : NGINXController) (h : Helpers)
    (upstreams : gmap string Backend.t) (mci : MCI.t) :
  exists upstreams' log,
    createUpstreamsOfMCI n h upstreams mci = (Some upstreams', log)
    /\ keysKept upstreams upstreams'
    /\ forall key, In key (referencedKeys h mci) -> is_Some (upstreams' !! key).
Proof.
  unfold createUpstreamsOfMCI.
  set (anns := annotationsOf n h mci).
  destruct (createUpstreamDefaultBackend_shape n h mci anns upstreams)
    as (u1 & l1 & H1 & Hshape & Hcov1).
  assert (Hk1 : keysKept upstreams u1).
  { destruct Hshape as [->|(db & svc & u & _ & _ & -> & _)];
      [apply keysKept_refl|apply keysKept_insert]. }
  destruct (forRange_total (fun _ => True) (createUpstreamRule n h mci anns)
              (Spec.Rules (MCI.Spec mci)) u1 I) as (u2 & l2 & Hrun & _).
  { intros s0 rule _ _.
    destruct (createUpstreamRule_covers n h mci anns s0 rule) as (s1 & l & Hr & _).
    exists s1, l. split; [exact Hr|exact I]. }
  exists u2, (l1 ++ l2). rewrite H1. cbn [bind]. rewrite Hrun. split; [reflexivity|].
  destruct (forRange_covers keysKept
              (fun rule s => forall paths path svc,
                   IngressRule.HTTP rule = Some paths -> In path paths ->
                   IngressBackend.Service (HTTPIngressPath.Backend path) = Some svc ->
                   is_Some (s !! upstreamName h (MCI.Namespace mci) (Some svc)))
              (createUpstreamRule n h mci anns) (Spec.Rules (MCI.Spec mci))
              keysKept_refl keysKept_trans) with (s := u1) (s' := u2) (l := l2)
    as [Hk2 Hcov2].
  - intros rule s1 s2 H12 HQ paths path svc Hp Hin Hsvc. eapply H12, HQ; eassumption.
  - intros s0 rule s1 l _ Hb.
    destruct (createUpstreamRule_covers n h mci anns s0 rule)
      as (s1' & l' & Hr & Hk & Hc).
    rewrite Hr in Hb. injection Hb as <- <-. split; assumption.
  - exact Hrun.
  - split; [eapply keysKept_trans; eassumption|].
    intros key Hin. unfold referencedKeys in Hin. apply in_app_or in Hin.
    destruct Hin as [Hin|Hin].
    + apply Hk2. unfold defaultBackendKeys in Hin.
      destruct (Spec.DefaultBackend (MCI.Spec mci)) as [db|] eqn:Hdb; [|destruct Hin].
      destruct (IngressBackend.Service db) as [svc|] eqn:Hsvc; [|destruct Hin].
      destruct Hin as [<-|[]]. eapply Hcov1; [reflexivity|exact Hsvc].
    + unfold pathKeys in Hin. apply in_flat_map in Hin.
      destruct Hin as (rule & Hrule & Hin).
      destruct (IngressRule.HTTP rule) as [paths|] eqn:Hhttp; [|destruct Hin].
      apply in_flat_map in Hin. destruct Hin as (path & Hpath & Hin).
      destruct (IngressBackend.Service (HTTPIngressPath.Backend path)) as [svc|] eqn:Hsvc;
        [|destruct Hin].
      destruct Hin as [<-|[]]. eapply Hcov2; eassumption.
Qed.

(** X1.  The upstream builder never panics, and its map holds the default
    upstream's key and the key of every service that a default-backend
    reference or a rule/path of any resource names. *)
Theorem upstreams_cover_every_reference (n : NGINXController) (h : Helpers)
    (mcis : list MCI.t) (defaultUpstream : Backend.t) :
  exists upstreams log,
    createUpstreamsFromMCIs n h mcis defaultUpstream = (Some upstreams, log)
    /\ is_Some (upstreams !! defUpstreamName)
    /\ forall mci key,
        In mci mcis -> In key (referencedKeys h mci) -> is_Some (upstreams !! key).
Proof.
  unfold createUpstreamsFromMCIs.
  set (start := <[defUpstreamName := defaultUpstream]> (∅ : gmap string Backend.t)).
  destruct (forRange_total (fun _ => True) (createUpstreamsOfMCI n h) mcis start I)
    as (upstreams & log & Hrun & _).
  { intros s0 mci _ _.
    destruct (createUpstreamsOfMCI_covers n h s0 mci) as (s1 & l & Hr & _).
    exists s1, l. split; [exact Hr|exact I]. }
  exists upstreams, log. split; [exact Hrun|].
  destruct (forRange_covers keysKept
              (fun mci s => forall key, In key (referencedKeys h mci) -> is_Some (s !! key))
              (createUpstreamsOfMCI n h) mcis keysKept_refl keysKept_trans)
    with (s := start) (s' := upstreams) (l := log) as [Hk Hcov].
  - intros mci s1 s2 H12 HQ key Hin. apply H12, HQ, Hin.
  - intros s0 mci s1 l _ Hb.
    destruct (createUpstreamsOfMCI_covers n h s0 mci) as (s1' & l' & Hr & Hk & Hc).
    rewrite Hr in Hb. injection Hb as <- <-. split; assumption.
  - exact Hrun.
  - split; [|intros mci key Hin; apply Hcov; exact Hin].
    apply Hk. unfold start. rewrite lookup_insert_eq. eexists. reflexivity.
Qed.

Lemma upstreams_cover_every_reference_witness :
  exists upstreams,
    result (createUpstreamsFromMCIs refController refHelpers [webEwma; canaryBoth]
              (getDefaultUpstream refController)) = Some upstreams
    /\ is_Some (upstreams !! "ns1-s2-80")
    /\ is_Some (upstreams !! "ns1-s3-80").
Proof.
  destruct (upstreams_cover_every_reference refController refHelpers [webEwma; canaryBoth]
              (getDefaultUpstream refController)) as (upstreams & log & Hrun & _ & Hcov).
  exists upstreams. rewrite Hrun. split; [reflexivity|]. split.
  - apply (Hcov canaryBoth); [right; left; reflexivity|left; reflexivity].
  - apply (Hcov canaryBoth); [right; left; reflexivity|right; left; reflexivity].
Defined.

(** X2.  When the default upstream is named by the reserved key, every
    backend of the map the upstream builder returns is named by the key it
    is stored under, so there is one backend per identity key. *)
Theorem upstreams_named_by_key (n : NGINXController) (h : Helpers)
    (mcis : list MCI.t) (defaultUpstream : Backend.t) (upstreams : gmap string Backend.t)
    (log : list LogEntry) :
  Backend.Name defaultUpstream = defUpstreamName ->
  createUpstreamsFromMCIs n h mcis defaultUpstream = (Some upstreams, log) ->
  namedByKey upstreams.
Proof.
  intros Hdef Hrun. unfold createUpstreamsFromMCIs in Hrun.
  assert (Hins : forall (m : gmap string Backend.t) key u,
             namedByKey m -> Backend.Name u = key -> namedByKey (<[key := u]> m)).
  { intros m key u Hm Hu k b Hk. destruct (decide (key = k)) as [->|Hne].
    - rewrite lookup_insert_eq in Hk. injection Hk as <-. exact Hu.
    - rewrite lookup_insert_ne in Hk by exact Hne. apply Hm. exact Hk. }
  eapply (forRange_invariant namedByKey); [exact Hrun| |].
  - apply Hins; [|exact Hdef]. intros k b Hk. rewrite lookup_empty in Hk. discriminate.
  - intros s0 mci s1 l1 _ Hbody Hs0. unfold createUpstreamsOfMCI in Hbody.
    apply bind_Some in Hbody. destruct Hbody as (u1 & ? & ? & Hd & Hrules & _).
    assert (Hu1 : namedByKey u1).
    { destruct (createUpstreamDefaultBackend_shape n h mci (annotationsOf n h mci) s0)
        as (u1' & l' & Hd' & Hshape & _).
      rewrite Hd' in Hd. injection Hd as <- _.
      destruct Hshape as [->|(db & svc & u & _ & _ & -> & Hname)];
        [exact Hs0|apply Hins; assumption]. }
    eapply (forRange_invariant namedByKey); [exact Hrules|exact Hu1|].
    intros s2 rule s3 l3 _ Hrule Hs2. unfold createUpstreamRule in Hrule.
    destruct (IngressRule.HTTP rule) as [paths|].
    2: { unfold ret in Hrule. injection Hrule as <- _. exact Hs2. }
    eapply (forRange_invariant namedByKey); [exact Hrule|exact Hs2|].
    intros s4 path s5 l5 _ Hpath Hs4.
    destruct (createUpstreamPath_shape n h mci (annotationsOf n h mci) s4 path)
      as (s5' & l5' & Hp & Hshape & _).
    rewrite Hp in Hpath. injection Hpath as <- _.
    destruct Hshape as [->|(svc & u & _ & _ & -> & Hname & _)];
      [exact Hs4|apply Hins; assumption].
Qed.

Lemma upstreams_named_by_key_witness :
  exists upstreams,
    result (createUpstreamsFromMCIs refController refHelpers [webEwma; canaryBoth]
              (getDefaultUpstream refController)) = Some upstreams
    /\ namedByKey upstreams.
Proof.
  destruct (createUpstreamsFromMCIs refController refHelpers [webEwma; canaryBoth]
              (getDefaultUpstream refController)) as [[upstreams|] log] eqn:Hrun;
    [|vm_compute in Hrun; discriminate].
  exists upstreams. split; [reflexivity|].
  exact (upstreams_named_by_key refController refHelpers [webEwma; canaryBoth]
           (getDefaultUpstream refController) upstreams log eq_refl Hrun).
Defined.

(** X3.  The rule/path references of a resource are first-writer-wins: the
    loop over its rules never panics and leaves every backend that was in
    the map before exactly as it was. *)
Theorem path_references_keep_existing_backends (n : NGINXController) (h : Helpers)
    (mci : MCI.t) (anns : Annotations.t) (upstreams : gmap string Backend.t) :
  exists upstreams' log,
    forRange (Spec.Rules (MCI.Spec mci)) (createUpstreamRule n h mci anns) upstreams
    = (Some upstreams', log)
    /\ forall key b, upstreams !! key = Some b -> upstreams' !! key = Some b.
Proof.
  set (kept := fun m : gmap string Backend.t =>
                 forall key b, upstreams !! key = Some b -> m !! key = Some b).
  assert (Hpath : forall s0 path,
             kept s0 ->
             exists s1 l1, createUpstreamPath n h mci anns s0 path = (Some s1, l1) /\ kept s1).
  { intros s0 path Hs0.
    destruct (createUpstreamPath_shape n h mci anns s0 path)
      as (s1 & l1 & Hp & Hshape & _).
    exists s1, l1. split; [exact Hp|].
    destruct Hshape as [->|(svc & u & _ & Hfree & -> & _)]; [exact Hs0|].
    intros key b Hb. rewrite lookup_insert_ne; [apply Hs0; exact Hb|].
    intros <-. rewrite (Hs0 _ _ Hb) in Hfree. discriminate. }
  apply (forRange_total kept).
  - intros key b Hb. exact Hb.
  - intros s0 rule _ Hs0. unfold createUpstreamRule.
    destruct (IngressRule.HTTP rule) as [paths|].
    + apply (forRange_total kept); [exact Hs0|].
      intros s1 path _ Hs1. apply Hpath. exact Hs1.
    + exists s0, []. split; [reflexivity|exact Hs0].
Qed.

Lemma path_references_keep_existing_backends_witness :
  exists upstreams',
    result (forRange (Spec.Rules (MCI.Spec canaryBoth))
              (createUpstreamRule refController refHelpers canaryBoth canaryAnnotations)
              sampleUpstreams) = Some upstreams'
    /\ upstreams' !! "ns1-s1-80" = Some (newUpstream "ns1-s1-80").
Proof.
  destruct (path_references_keep_existing_backends refController refHelpers canaryBoth
              canaryAnnotations sampleUpstreams) as (upstreams' & log & Hrun & Hkept).
  exists upstreams'. rewrite Hrun. split; [reflexivity|].
  apply Hkept. vm_compute. reflexivity.
Defined.

(** ** Server builder: servers, hostnames and certificates *)

Lemma serversNamed_insert (servers : gmap string Server.t) (key : string) (srv : Server.t) :
  serversNamed servers ->
  Server.Hostname srv = key -> Server.Locations srv <> [] ->
  serversNamed (<[key := srv]> servers).
Proof.
  intros Hall Hname Hlocs k s Hk. destruct (decide (key = k)) as [->|Hne].
  - rewrite lookup_insert_eq in Hk. injection Hk as <-. auto.
  - rewrite lookup_insert_ne in Hk by exact Hne. apply Hall. exact Hk.
Qed.

Lemma wellFormed_insert (servers : gmap string Server.t) (key : string) (srv : Server.t) :
  wellFormedServers servers ->
  Server.Hostname srv = key -> Server.Locations srv <> [] ->
  wellFormedServers (<[key := srv]> servers).
Proof.
  intros [Hall Hdef] Hname Hlocs. split.
  - apply serversNamed_insert; assumption.
  - apply (keysKept_insert servers key srv). exact Hdef.
Qed.

Lemma initialServers_wellFormed (n : NGINXController) (defaultUpstream : Backend.t) :
  wellFormedServers (initialServers n defaultUpstream).
Proof.
  unfold initialServers. split.
  - apply serversNamed_insert; [|reflexivity|discriminate].
    intros k s Hk. rewrite lookup_empty in Hk. discriminate.
  - rewrite lookup_insert_eq. eexists. reflexivity.
Qed.

(** The default-backend block never panics on a well-formed server map and
    changes at most the first location of the catch-all server. *)
Lemma bindDefaultBackend_wellFormed (h : Helpers) (mci : MCI.t) (anns : Annotations.t)
    (upstreams : gmap string Backend.t) (un : string) (servers : gmap string Server.t) :
  wellFormedServers servers ->
  exists un' servers' log,
    bindDefaultBackend h mci anns upstreams un servers = (Some (un', servers'), log)
    /\ wellFormedServers servers'
    /\ keysKept servers servers'
    /\ (forall k s, servers !! k = Some s ->
          exists s', servers' !! k = Some s' /\ Server.SSLCert s' = Server.SSLCert s).
Proof.
  intros Hwf. unfold bindDefaultBackend.
  assert (Hsame : forall k s, servers !! k = Some s ->
            exists s', servers !! k = Some s' /\ Server.SSLCert s' = Server.SSLCert s)
    by (intros k s Hk; exists s; auto).
  destruct (Spec.DefaultBackend (MCI.Spec mci)) as [db|];
    [|eexists _, _, _; split; [reflexivity|]; split; [exact Hwf|];
      split; [apply keysKept_refl|exact Hsame]].
  destruct (IngressBackend.Service db) as [svc|];
    [|eexists _, _, _; split; [reflexivity|]; split; [exact Hwf|];
      split; [apply keysKept_refl|exact Hsame]].
  destruct (upstreams !! upstreamName h (MCI.Namespace mci) (Some svc)) as [b|];
    [|eexists _, _, _; split; [reflexivity|]; split; [exact Hwf|];
      split; [apply keysKept_refl|exact Hsame]].
  destruct Hwf as [Hall [catchAll Hca]]. rewrite Hca.
  destruct (Hall _ _ Hca) as [Hname Hlocs].
  unfold deref at 1. rewrite bind_ret_l.
  destruct (Server.Locations catchAll) as [|defLoc rest] eqn:Hl; [contradiction|].
  cbn [head tail]. unfold deref. rewrite bind_ret_l.
  assert (Hres : forall root,
            wellFormedServers
              (<[defServerName := Server.setLocations (root :: rest) catchAll]> servers)
            /\ keysKept servers
                 (<[defServerName := Server.setLocations (root :: rest) catchAll]> servers)
            /\ (forall k s, servers !! k = Some s ->
                  exists s',
                    (<[defServerName := Server.setLocations (root :: rest) catchAll]> servers)
                      !! k = Some s'
                    /\ Server.SSLCert s' = Server.SSLCert s)).
  { intros root. split; [|split].
    - apply wellFormed_insert; [|exact Hname|discriminate].
      split; [exact Hall|eexists; exact Hca].
    - apply keysKept_insert.
    - intros k s Hk. destruct (decide (defServerName = k)) as [<-|Hne].
      + rewrite lookup_insert_eq. eexists. split; [reflexivity|].
        rewrite Hca in Hk. injection Hk as <-. reflexivity.
      + rewrite lookup_insert_ne by exact Hne. exists s. auto. }
  match goal with |- context [if ?c then _ else _] => destruct c end; cbn;
    eexists _, _, _; (split; [reflexivity|apply Hres]).
Qed.

Lemma initServerForRule_wellFormed (h : Helpers) (mci : MCI.t) (anns : Annotations.t)
    (un : string) (servers : gmap string Server.t) (rule : IngressRule.t) :
  serversNamed servers ->
  exists servers' log,
    initServerForRule h mci anns un servers rule = (Some servers', log)
    /\ serversNamed servers'
    /\ keysKept servers servers'
    /\ is_Some (servers' !! hostOf rule)
    /\ (forall k s, servers !! k = Some s -> servers' !! k = Some s).
Proof.
  intros Hall. unfold initServerForRule.
  destruct (servers !! hostOf rule) as [s|] eqn:Hs.
  - eexists _, _. split; [reflexivity|]. split; [exact Hall|].
    split; [apply keysKept_refl|]. split; [rewrite Hs; eexists; reflexivity|auto].
  - eexists _, _. split; [reflexivity|]. split; [|split; [|split]].
    + apply serversNamed_insert; [exact Hall|reflexivity|discriminate].
    + apply keysKept_insert.
    + rewrite lookup_insert_eq. eexists. reflexivity.
    + intros k s Hk. rewrite lookup_insert_ne; [exact Hk|].
      intros <-. rewrite Hk in Hs. discriminate.
Qed.

Lemma certificatesKept_refl (servers : gmap string Server.t) :
  certificatesKept servers servers.
Proof. intros k s c Hk Hc. exists s. auto. Qed.

Lemma certificatesKept_trans (s1 s2 s3 : gmap string Server.t) :
  certificatesKept s1 s2 -> certificatesKept s2 s3 -> certificatesKept s1 s3.
Proof.
  intros H12 H23 k s c Hk Hc. destruct (H12 k s c Hk Hc) as (s' & Hk' & Hc').
  apply (H23 k s' c Hk' Hc').
Qed.

(** The first pass for one resource: no panic on a well-formed map; the
    hosts of a non-canary resource all get a server. *)
Lemma initServersOfMCI_wellFormed (n : NGINXController) (h : Helpers)
    (upstreams : gmap string Backend.t) (defaultUpstream : Backend.t)
    (servers : gmap string Server.t) (mci : MCI.t) :
  wellFormedServers servers ->
  exists servers' log,
    initServersOfMCI n h upstreams defaultUpstream servers mci = (Some servers', log)
    /\ wellFormedServers servers'
    /\ keysKept servers servers'
    /\ certificatesKept servers servers'
    /\ (Canary.Enabled (Annotations.Canary (annotationsOf n h mci)) = false ->
        forall rule, In rule (Spec.Rules (MCI.Spec mci)) ->
          is_Some (servers' !! hostOf rule)).
Proof.
  intros Hwf. unfold initServersOfMCI.
  set (anns := annotationsOf n h mci).
  destruct (Canary.Enabled (Annotations.Canary anns)) eqn:Hcanary.
  { eexists _, _. split; [reflexivity|]. split; [exact Hwf|].
    split; [apply keysKept_refl|]. split; [apply certificatesKept_refl|discriminate]. }
  destruct (bindDefaultBackend_wellFormed h (MCI.withAnnotations anns mci) anns upstreams
              (Backend.Name defaultUpstream) servers Hwf)
    as (un & s1 & l1 & Hbind & Hwf1 & Hk1 & Hc1).
  rewrite Hbind. cbn [bind].
  set (mci' := MCI.withAnnotations anns mci).
  set (good := fun s : gmap string Server.t =>
                 wellFormedServers s /\ keysKept s1 s /\ certificatesKept s1 s).
  destruct (forRange_total good (initServerForRule h mci' anns un)
              (Spec.Rules (MCI.Spec mci')) s1) as (s2 & l2 & Hrun & Hgood).
  { split; [exact Hwf1|]. split; [apply keysKept_refl|apply certificatesKept_refl]. }
  { intros s0 rule _ (Hw0 & Hk0 & Hc0).
    destruct (initServerForRule_wellFormed h mci' anns un s0 rule (proj1 Hw0))
      as (s3 & l3 & Hr & Hn3 & Hk3 & _ & Hsame).
    exists s3, l3. split; [exact Hr|]. split; [|split].
    - split; [exact Hn3|apply Hk3; exact (proj2 Hw0)].
    - eapply keysKept_trans; eassumption.
    - intros k s c Hk Hc. destruct (Hc0 k s c Hk Hc) as (s' & Hk' & Hc').
      exists s'. split; [apply Hsame; exact Hk'|exact Hc']. }
  rewrite Hrun. destruct Hgood as (Hw2 & Hk2 & Hc2).
  eexists _, _. split; [reflexivity|]. split; [exact Hw2|].
  split; [eapply keysKept_trans; eassumption|]. split.
  - intros k s c Hk Hc. destruct (Hc1 k s Hk) as (s' & Hk' & Hc').
    apply (Hc2 k s' c Hk'). rewrite Hc'. exact Hc.
  - intros _.
    destruct (forRange_covers keysKept (fun rule s => is_Some (s !! hostOf rule))
                (initServerForRule h mci' anns un) (Spec.Rules (MCI.Spec mci'))
                keysKept_refl keysKept_trans) with (s := s1) (s' := s2) (l := l2)
      as [_ Hcov]; [| |exact Hrun|exact Hcov].
    + intros rule a b Hab HQ. apply Hab, HQ.
    + intros s0 rule s3 l3 _ Hb.
      unfold initServerForRule in Hb.
      destruct (s0 !! hostOf rule) as [sv|] eqn:Hsv.
      * unfold ret in Hb. injection Hb as <- _. split; [apply keysKept_refl|].
        rewrite Hsv. eexists. reflexivity.
      * unfold ret in Hb. injection Hb as <- _. split; [apply keysKept_insert|].
        rewrite lookup_insert_eq. eexists. reflexivity.
Qed.

(** Certificate resolution returns the server as it was or with another
    certificate, the latter only when it had none. *)
Lemma configureCertificate_shape (n : NGINXController) (h : Helpers) (host : string)
    (mci : MCI.t) (srv : Server.t) :
  exists srv' log,
    configureCertificate n h host mci srv = (Some srv', log)
    /\ (srv' = srv
        \/ exists c, srv' = Server.setSSLCert c srv /\ Server.SSLCert srv = None).
Proof.
  unfold configureCertificate.
  destruct (Server.SSLCert srv) eqn:Hcert;
    [eexists _, _; split; [reflexivity|left; reflexivity]|].
  case_decide; [eexists _, _; split; [reflexivity|left; reflexivity]|].
  destruct (extractTLSSecretNameFromMCI_total h host mci (GetLocalSSLCert n))
    as (name & log & ->).
  cbn [bind].
  case_decide; [eexists _, _; split; [reflexivity|right; eexists; auto]|].
  destruct (GetLocalSSLCert n _) as [cert|e];
    [|eexists _, _; split; [reflexivity|right; eexists; auto]].
  destruct (SSLCert.Certificate cert) as [x|];
    [|eexists _, _; split; [reflexivity|right; eexists; auto]].
  destruct (x509VerifyHostname h x host), (verifyHostname h host x),
    (SSLCert.ExpireTime cert <? now n)%Z,
    (SSLCert.ExpireTime cert <? now n + 240 * 3600)%Z;
    eexists _, _; (split; [reflexivity|right; eexists; auto]).
Qed.

(** The second pass for one rule: no panic when the host has a server;
    hostname, locations and an existing certificate of every server stay. *)
Lemma configureServerForRule_wellFormed (n : NGINXController) (h : Helpers) (mci : MCI.t)
    (anns : Annotations.t) (servers : gmap string Server.t)
    (allAliases : gmap string (list string)) (rule : IngressRule.t) :
  serversNamed servers ->
  is_Some (servers !! hostOf rule) ->
  exists servers' allAliases' log,
    configureServerForRule n h mci anns (servers, allAliases) rule
    = (Some (servers', allAliases'), log)
    /\ serversNamed servers'
    /\ keysKept servers servers'
    /\ certificatesKept servers servers'.
Proof.
  intros Hall [srv Hsrv]. unfold configureServerForRule. rewrite Hsrv.
  unfold deref. rewrite bind_ret_l.
  destruct (Hall _ _ Hsrv) as [Hname Hlocs].
  match goal with
  | |- context [bind ?m _] =>
    assert (Hstep1 : exists srv1 al1 l1,
               m = (Some (srv1, al1), l1)
               /\ Server.Hostname srv1 = Server.Hostname srv
               /\ Server.Locations srv1 = Server.Locations srv
               /\ Server.SSLCert srv1 = Server.SSLCert srv)
  end.
  { repeat case_decide; eexists _, _, _; (split; [reflexivity|auto]). }
  destruct Hstep1 as (srv1 & al1 & l1 & -> & Hn1 & Hl1 & Hc1). cbn [bind].
  match goal with
  | |- context [bind ?m _] =>
    assert (Hstep2 : exists srv2 l2,
               m = (Some srv2, l2)
               /\ Server.Hostname srv2 = Server.Hostname srv
               /\ Server.Locations srv2 = Server.Locations srv
               /\ Server.SSLCert srv2 = Server.SSLCert srv)
  end.
  { repeat case_decide; eexists _, _; (split; [reflexivity|auto]). }
  destruct Hstep2 as (srv2 & l2 & -> & Hn2 & Hl2 & Hc2). cbn [bind].
  match goal with
  | |- context [configureCertificate n h (hostOf rule) mci ?s] =>
    set (srv4 := s);
    assert (H4 : Server.Hostname srv4 = Server.Hostname srv
                 /\ Server.Locations srv4 = Server.Locations srv
                 /\ Server.SSLCert srv4 = Server.SSLCert srv)
      by (subst srv4;
          repeat match goal with |- context [if ?c then _ else _] => destruct c end; auto)
  end.
  destruct H4 as (Hn4 & Hl4 & Hc4).
  destruct (configureCertificate_shape n h (hostOf rule) mci srv4)
    as (srv5 & l5 & -> & Hshape). cbn [bind].
  eexists _, _, _. split; [reflexivity|].
  assert (H5 : Server.Hostname srv5 = hostOf rule /\ Server.Locations srv5 <> []
               /\ forall c, Server.SSLCert srv = Some c -> Server.SSLCert srv5 = Some c).
  { destruct Hshape as [->|(c & -> & Hnone)].
    - rewrite Hn4, Hl4, Hc4. auto.
    - cbn. rewrite Hn4, Hl4. split; [exact Hname|]. split; [exact Hlocs|].
      intros c' Hc'. rewrite Hc4, Hc' in Hnone. discriminate. }
  destruct H5 as (Hn5 & Hl5 & Hc5).
  split; [apply serversNamed_insert; assumption|]. split; [apply keysKept_insert|].
  intros k s c Hk Hc. destruct (decide (hostOf rule = k)) as [<-|Hne].
  - rewrite lookup_insert_eq. eexists. split; [reflexivity|].
    rewrite Hsrv in Hk. injection Hk as <-. apply Hc5. exact Hc.
  - rewrite lookup_insert_ne by exact Hne. exists s. auto.
Qed.

Lemma configureServersOfMCI_wellFormed (n : NGINXController) (h : Helpers)
    (servers : gmap string Server.t) (allAliases : gmap string (list string))
    (mci : MCI.t) :
  serversNamed servers ->
  (Canary.Enabled (Annotations.Canary (annotationsOf n h mci)) = false ->
   forall rule, In rule (Spec.Rules (MCI.Spec mci)) -> is_Some (servers !! hostOf rule)) ->
  exists servers' allAliases' log,
    configureServersOfMCI n h (servers, allAliases) mci
    = (Some (servers', allAliases'), log)
    /\ serversNamed servers'
    /\ keysKept servers servers'
    /\ certificatesKept servers servers'.
Proof.
  intros Hall Hcov. unfold configureServersOfMCI.
  set (anns := annotationsOf n h mci) in *.
  destruct (Canary.Enabled (Annotations.Canary anns)).
  { eexists _, _, _. split; [reflexivity|]. split; [exact Hall|].
    split; [apply keysKept_refl|apply certificatesKept_refl]. }
  specialize (Hcov eq_refl).
  set (good := fun st : gmap string Server.t * gmap string (list string) =>
                 serversNamed (fst st) /\ keysKept servers (fst st)
                 /\ certificatesKept servers (fst st)).
  destruct (forRange_total good
              (configureServerForRule n h (MCI.withAnnotations anns mci) anns)
              (Spec.Rules (MCI.Spec (MCI.withAnnotations anns mci)))
              (servers, allAliases)) as ([s2 a2] & l2 & Hrun & Hn2 & Hk2 & Hc2).
  { split; [exact Hall|]. split; [apply keysKept_refl|apply certificatesKept_refl]. }
  { intros [s0 a0] rule Hin (Hn0 & Hk0 & Hc0). cbn [fst] in *.
    destruct (configureServerForRule_wellFormed n h (MCI.withAnnotations anns mci) anns
                s0 a0 rule Hn0) as (s3 & a3 & l3 & Hr & Hn3 & Hk3 & Hc3).
    { apply Hk0, Hcov. exact Hin. }
    exists (s3, a3), l3. split; [exact Hr|]. split; [exact Hn3|].
    split; [eapply keysKept_trans; eassumption|eapply certificatesKept_trans; eassumption]. }
  exists s2, a2, l2. auto.
Qed.

Lemma dedupAliases_wellFormed (servers : gmap string Server.t)
    (entry : string * list string) :
  serversNamed servers ->
  serversNamed (dedupAliases servers entry)
  /\ keysKept servers (dedupAliases servers entry)
  /\ certificatesKept servers (dedupAliases servers entry).
Proof.
  intros Hall. destruct entry as [host hostAliases]. unfold dedupAliases.
  destruct (servers !! host) as [srv|] eqn:Hsrv.
  2: { split; [exact Hall|]. split; [apply keysKept_refl|apply certificatesKept_refl]. }
  destruct (Hall _ _ Hsrv) as [Hname Hlocs].
  split; [apply serversNamed_insert; assumption|]. split; [apply keysKept_insert|].
  intros k s c Hk Hc. destruct (decide (host = k)) as [<-|Hne].
  - rewrite lookup_insert_eq. eexists. split; [reflexivity|].
    rewrite Hsrv in Hk. injection Hk as <-. exact Hc.
  - rewrite lookup_insert_ne by exact Hne. exists s. auto.
Qed.

Lemma foldl_dedupAliases_wellFormed (entries : list (string * list string))
    (servers : gmap string Server.t) :
  serversNamed servers ->
  serversNamed (foldl dedupAliases servers entries)
  /\ keysKept servers (foldl dedupAliases servers entries)
  /\ certificatesKept servers (foldl dedupAliases servers entries).
Proof.
  revert servers. induction entries as [|entry entries IH]; intros servers Hall; cbn.
  - split; [exact Hall|]. split; [apply keysKept_refl|apply certificatesKept_refl].
  - destruct (dedupAliases_wellFormed servers entry Hall) as (Hn1 & Hk1 & Hc1).
    destruct (IH _ Hn1) as (Hn2 & Hk2 & Hc2).
    split; [exact Hn2|].
    split; [eapply keysKept_trans; eassumption|eapply certificatesKept_trans; eassumption].
Qed.

(** The server builder as a whole. *)
Lemma createServersFromMCIs_wellFormed (n : NGINXController) (h : Helpers)
    (mcis : list MCI.t) (upstreams : gmap string Backend.t) (defaultUpstream : Backend.t) :
  exists servers log,
    createServersFromMCIs n h mcis upstreams defaultUpstream = (Some servers, log)
    /\ wellFormedServers servers
    /\ hostsCovered n h mcis servers
    /\ certificatesKept (initialServers n defaultUpstream) servers.
Proof.
  unfold createServersFromMCIs.
  set (start := initialServers n defaultUpstream).
  set (good1 := fun s : gmap string Server.t =>
                  wellFormedServers s /\ certificatesKept start s).
  destruct (forRange_total good1 (initServersOfMCI n h upstreams defaultUpstream) mcis start)
    as (s1 & l1 & Hrun1 & Hwf1 & Hc1).
  { split; [apply initialServers_wellFormed|apply certificatesKept_refl]. }
  { intros s0 mci _ (Hw0 & Hc0).
    destruct (initServersOfMCI_wellFormed n h upstreams defaultUpstream s0 mci Hw0)
      as (s2 & l2 & Hr & Hw2 & _ & Hc2 & _).
    exists s2, l2. split; [exact Hr|]. split; [exact Hw2|].
    eapply certificatesKept_trans; eassumption. }
  assert (Hcov1 : hostsCovered n h mcis s1).
  { destruct (forRange_covers keysKept
                (fun mci s =>
                   Canary.Enabled (Annotations.Canary (annotationsOf n h mci)) = false ->
                   forall rule, In rule (Spec.Rules (MCI.Spec mci)) ->
                     is_Some (s !! hostOf rule))
                (fun s mci => initServersOfMCI n h upstreams defaultUpstream s mci) mcis
                keysKept_refl keysKept_trans) with (s := start) (s' := s1) (l := l1)
      as [_ Hcov].
    - intros mci a b Hab HQ Hc rule Hin. apply Hab, HQ; assumption.
    - intros s0 mci s2 l2 _ Hb. split.
      + unfold initServersOfMCI in Hb.
        destruct (Canary.Enabled _).
        * cbn in Hb. unfold ret in Hb. injection Hb as <- _. apply keysKept_refl.
        * apply bind_Some in Hb. destruct Hb as ([un s3] & ? & ? & Hbd & Hb & _).
          assert (Hk3 : keysKept s0 s3).
          { unfold bindDefaultBackend in Hbd.
            repeat match type of Hbd with
                   | match ?x with _ => _ end = _ => destruct x
                   end;
              try (unfold ret in Hbd; injection Hbd as _ <- _; apply keysKept_refl).
            apply bind_Some in Hbd. destruct Hbd as (ca & ? & ? & _ & Hbd & _).
            apply bind_Some in Hbd. destruct Hbd as (dl & ? & ? & _ & Hbd & _).
            apply bind_Some in Hbd. destruct Hbd as (dl' & ? & ? & _ & Hbd & _).
            unfold ret in Hbd. injection Hbd as _ <- _. apply keysKept_insert. }
          eapply keysKept_trans; [exact Hk3|].
          eapply (forRange_invariant (fun s => keysKept s3 s)); [exact Hb| |].
          -- apply keysKept_refl.
          -- intros s4 rule s5 l5 _ Hrule Hk4. eapply keysKept_trans; [exact Hk4|].
             unfold initServerForRule in Hrule. destruct (s4 !! hostOf rule).
             ++ unfold ret in Hrule. injection Hrule as <- _. apply keysKept_refl.
             ++ unfold ret in Hrule. injection Hrule as <- _. apply keysKept_insert.
      + intros Hc rule Hin. unfold initServersOfMCI in Hb. rewrite Hc in Hb.
        apply bind_Some in Hb. destruct Hb as ([un s3] & ? & ? & _ & Hb & _).
        destruct (forRange_covers keysKept (fun rule s => is_Some (s !! hostOf rule))
                    (initServerForRule h (MCI.withAnnotations (annotationsOf n h mci) mci)
                       (annotationsOf n h mci) un)
                    (Spec.Rules (MCI.Spec mci)) keysKept_refl keysKept_trans)
          with (s := s3) (s' := s2) (l := x0) as [_ Hcv]; [| |exact Hb|apply Hcv; exact Hin].
        * intros r a b Hab HQ. apply Hab, HQ.
        * intros s4 r s5 l5 _ Hrule. unfold initServerForRule in Hrule.
          destruct (s4 !! hostOf r) eqn:Hs4.
          -- unfold ret in Hrule. injection Hrule as <- _. split; [apply keysKept_refl|].
             rewrite Hs4. eexists. reflexivity.
          -- unfold ret in Hrule. injection Hrule as <- _. split; [apply keysKept_insert|].
             rewrite lookup_insert_eq. eexists. reflexivity.
    - exact Hrun1.
    - intros mci rule Hin Hc Hr. apply (Hcov mci Hin Hc rule Hr). }
  rewrite Hrun1. cbn [bind].
  set (good2 := fun st : gmap string Server.t * gmap string (list string) =>
                  serversNamed (fst st) /\ keysKept s1 (fst st)
                  /\ certificatesKept s1 (fst st)).
  destruct (forRange_total good2 (configureServersOfMCI n h) mcis (s1, ∅))
    as ([s2 a2] & l2 & Hrun2 & Hn2 & Hk2 & Hc2).
  { split; [exact (proj1 Hwf1)|]. split; [apply keysKept_refl|apply certificatesKept_refl]. }
  { intros [s0 a0] mci Hin (Hn0 & Hk0 & Hc0). cbn [fst] in *.
    destruct (configureServersOfMCI_wellFormed n h s0 a0 mci Hn0)
      as (s3 & a3 & l3 & Hr & Hn3 & Hk3 & Hc3).
    { intros Hc rule Hr. apply Hk0. apply (Hcov1 mci rule Hin Hc Hr). }
    exists (s3, a3), l3. split; [exact Hr|]. split; [exact Hn3|].
    split; [eapply keysKept_trans; eassumption|eapply certificatesKept_trans; eassumption]. }
  rewrite Hrun2. cbn [bind fst] in *.
  destruct (foldl_dedupAliases_wellFormed (map_to_list a2) s2 Hn2) as (Hn3 & Hk3 & Hc3).
  eexists _, _. split; [reflexivity|]. split; [|split].
  - split; [exact Hn3|]. apply Hk3, Hk2. exact (proj2 Hwf1).
  - intros mci rule Hin Hc Hr. apply Hk3, Hk2. apply (Hcov1 mci rule Hin Hc Hr).
  - eapply certificatesKept_trans; [exact Hc1|].
    eapply certificatesKept_trans; eassumption.
Qed.

(** X4.  createServersFromMCIs (lines 528-787) never dereferences a missing
    server: for every list of resources and every map of upstreams it
    returns a server map in which each server is stored under its own
    hostname and has at least one location, the catch-all server "_"
    exists, and every host named by a rule of a non-canary resource has a
    server. *)
Theorem servers_built_for_every_host (n : NGINXController) (h : Helpers)
    (mcis : list MCI.t) (upstreams : gmap string Backend.t) (defaultUpstream : Backend.t) :
  exists servers log,
    createServersFromMCIs n h mcis upstreams defaultUpstream = (Some servers, log)
    /\ wellFormedServers servers
    /\ hostsCovered n h mcis servers.
Proof.
  destruct (createServersFromMCIs_wellFormed n h mcis upstreams defaultUpstream)
    as (servers & log & Hrun & Hwf & Hcov & _).
  exists servers, log. auto.
Qed.

(** X5.  When the controller has a default certificate, the catch-all
    server "_" of createServersFromMCIs (lines 528-787) carries exactly that
    certificate whatever the resources declare: the TLS pass only fills in
    a certificate where a server has none (lines 700-703). *)
Theorem catch_all_keeps_default_certificate (n : NGINXController) (h : Helpers)
    (mcis : list MCI.t) (upstreams : gmap string Backend.t) (defaultUpstream : Backend.t)
    (c : SSLCert.t) :
  getDefaultSSLCertificate n = Some c ->
  exists servers log catchAll,
    createServersFromMCIs n h mcis upstreams defaultUpstream = (Some servers, log)
    /\ servers !! defServerName = Some catchAll
    /\ Server.SSLCert catchAll = Some c.
Proof.
  intros Hdefault.
  destruct (createServersFromMCIs_wellFormed n h mcis upstreams defaultUpstream)
    as (servers & log & Hrun & _ & _ & Hkept).
  destruct (Hkept defServerName _ c (lookup_insert_eq _ _ _) Hdefault)
    as (catchAll & Hlook & Hcert).
  exists servers, log, catchAll. auto.
Qed.

Lemma catch_all_keeps_default_certificate_witness :
  exists servers log catchAll,
    createServersFromMCIs refController refHelpers [tlsWrongHost; backendAndRules] ∅
      (getDefaultUpstream refController) = (Some servers, log)
    /\ servers !! defServerName = Some catchAll
    /\ Server.SSLCert catchAll = Some refDefaultCertificate.
Proof.
  apply (catch_all_keeps_default_certificate refController refHelpers
           [tlsWrongHost; backendAndRules] ∅ (getDefaultUpstream refController)
           refDefaultCertificate).
  reflexivity.
Defined.

(** ** Aliases *)

Lemma uniqAliases_spec (servers : gmap string Server.t) (host : string)
    (hostAliases seen : list string) :
  NoDup seen ->
  NoDup (uniqAliases servers host seen hostAliases)
  /\ forall a, a ∈ uniqAliases servers host seen hostAliases
       <-> a ∈ seen \/ (a ∈ hostAliases /\ a <> host /\ servers !! a = None).
Proof.
  revert seen. induction hostAliases as [|alias rest IH]; intros seen Hnd; cbn.
  - split; [exact Hnd|]. intros a. split; [auto|]. intros [H|[H _]]; [exact H|].
    apply elem_of_nil in H. destruct H.
  - assert (Hskip : (alias = host \/ is_Some (servers !! alias) \/ alias ∈ seen) ->
              NoDup (uniqAliases servers host seen rest)
              /\ forall a, a ∈ uniqAliases servers host seen rest
                   <-> a ∈ seen
                       \/ (a ∈ alias :: rest /\ a <> host /\ servers !! a = None)).
    { intros Hwhy. destruct (IH seen Hnd) as [Hn Hm]. split; [exact Hn|].
      intros a. rewrite Hm, elem_of_cons. split.
      - intros [H|(H & H1 & H2)]; [left; exact H|right; auto].
      - intros [H|([->|H] & H1 & H2)]; [left; exact H| |right; auto].
        destruct Hwhy as [Hw|[Hw|Hw]]; [contradiction| |left; exact Hw].
        rewrite H2 in Hw. destruct Hw as [? Hw]. discriminate. }
    destruct (decide (alias = host)) as [Hhost|Hhost]; [apply Hskip; auto|].
    destruct (decide (is_Some (servers !! alias))) as [Hsrv|Hsrv]; [apply Hskip; auto|].
    destruct (decide (alias ∈ seen)) as [Hseen|Hseen]; [apply Hskip; auto|].
    apply eq_None_not_Some in Hsrv.
    destruct (IH (seen ++ [alias])) as [Hn Hm].
    { apply NoDup_app. split; [exact Hnd|]. split; [|apply NoDup_singleton].
      intros x Hx Hx'. apply list_elem_of_singleton in Hx'. subst x. auto. }
    split; [exact Hn|]. intros a. rewrite Hm, elem_of_app, list_elem_of_singleton, elem_of_cons.
    split.
    + intros [[H | ->]|(H & H1 & H2)]; [left; exact H|right; auto|right; auto].
    + intros [H|([->|H] & H1 & H2)]; [left; left; exact H|left; right; reflexivity|right; auto].
Qed.

Lemma setList_spec (members : list string) :
  NoDup members ->
  NoDup (setList members)
  /\ StronglySorted (notAfter String.ltb) (setList members)
  /\ forall a, a ∈ setList members <-> a ∈ members.
Proof.
  intros Hnd. unfold setList.
  pose proof (sortSliceStable_perm String.ltb members) as Hperm.
  split; [rewrite Hperm; exact Hnd|]. split.
  - apply sortSliceStable_sorted; [exact string_ltb_asym|exact string_ltb_negtrans].
  - intros a. rewrite Hperm. reflexivity.
Qed.

Lemma dedupAliases_lookup (servers : gmap string Server.t) (host : string)
    (hostAliases : list string) (k : string) (s : Server.t) :
  dedupAliases servers (host, hostAliases) !! k = Some s ->
  (k = host
   /\ exists srv, servers !! host = Some srv
        /\ s = Server.setAliases (setList (uniqAliases servers host [] hostAliases)) srv)
  \/ (k <> host /\ servers !! k = Some s).
Proof.
  unfold dedupAliases. destruct (servers !! host) as [srv|] eqn:Hsrv.
  - destruct (decide (host = k)) as [<-|Hne].
    + rewrite lookup_insert_eq. intros H. injection H as <-. left. eauto.
    + rewrite lookup_insert_ne by exact Hne. intros H. right. auto.
  - intros H. right. split; [|exact H]. intros ->. congruence.
Qed.

Lemma dedupAliases_None (servers : gmap string Server.t) (entry : string * list string)
    (a : string) :
  dedupAliases servers entry !! a = None -> servers !! a = None.
Proof.
  destruct entry as [host hostAliases]. unfold dedupAliases.
  destruct (servers !! host) as [srv|] eqn:Hsrv; [|auto].
  destruct (decide (host = a)) as [<-|Hne].
  - rewrite lookup_insert_eq. discriminate.
  - rewrite lookup_insert_ne by exact Hne. auto.
Qed.

Lemma foldl_dedupAliases_None (entries : list (string * list string))
    (servers : gmap string Server.t) (a : string) :
  servers !! a = None -> foldl dedupAliases servers entries !! a = None.
Proof.
  revert servers. induction entries as [|entry entries IH]; intros servers Ha; cbn;
    [exact Ha|].
  apply IH. destruct entry as [host hostAliases]. unfold dedupAliases.
  destruct (servers !! host) as [srv|] eqn:Hsrv; [|exact Ha].
  rewrite lookup_insert_ne; [exact Ha|]. intros ->. congruence.
Qed.

Lemma foldl_dedupAliases_clean (entries : list (string * list string))
    (servers : gmap string Server.t) (k : string) (s' : Server.t) :
  serversNamed servers ->
  foldl dedupAliases servers entries !! k = Some s' ->
  aliasesClean servers s'
  \/ ((k ∉ entries.*1)
      /\ exists s, servers !! k = Some s /\ Server.Aliases s' = Server.Aliases s
                   /\ Server.Hostname s' = Server.Hostname s).
Proof.
  revert servers. induction entries as [|[host hostAliases] entries IH];
    intros servers Hall Hk; cbn in Hk.
  - right. split; [apply not_elem_of_nil|]. exists s'. auto.
  - destruct (dedupAliases_wellFormed servers (host, hostAliases) Hall) as (Hall1 & _ & _).
    destruct (IH _ Hall1 Hk) as [(Hnd & Hsort & Hmem)|(Hnot & s1 & Hs1 & Hal & Hhn)].
    + left. split; [exact Hnd|]. split; [exact Hsort|]. intros a Ha.
      destruct (Hmem a Ha) as [Hne Hnone]. split; [exact Hne|].
      eapply dedupAliases_None. exact Hnone.
    + apply dedupAliases_lookup in Hs1.
      destruct Hs1 as [(-> & srv & Hsrv & ->)|(Hne & Hs)].
      * left. destruct (Hall _ _ Hsrv) as [Hname _].
        destruct (uniqAliases_spec servers host hostAliases [] (NoDup_nil_2))
          as [Hnd Hmem].
        destruct (setList_spec _ Hnd) as (Hnd' & Hsort & Hmem').
        unfold aliasesClean. rewrite Hal, Hhn. cbn. rewrite Hname.
        split; [exact Hnd'|]. split; [exact Hsort|]. intros a Ha.
        apply Hmem', Hmem in Ha. destruct Ha as [Ha|(_ & Ha)]; [|exact Ha].
        apply elem_of_nil in Ha. destruct Ha.
      * right. split; [|eauto]. cbn. rewrite not_elem_of_cons. auto.
Qed.

Lemma initServersOfMCI_noAliases (n : NGINXController) (h : Helpers)
    (upstreams : gmap string Backend.t) (defaultUpstream : Backend.t)
    (servers servers' : gmap string Server.t) (mci : MCI.t) (log : list LogEntry) :
  initServersOfMCI n h upstreams defaultUpstream servers mci = (Some servers', log) ->
  noAliases servers -> noAliases servers'.
Proof.
  intros Hb Hno. unfold initServersOfMCI in Hb.
  destruct (Canary.Enabled _).
  { cbn in Hb. unfold ret in Hb. injection Hb as <- _. exact Hno. }
  apply bind_Some in Hb. destruct Hb as ([un s3] & ? & ? & Hbd & Hb & _).
  assert (Hno3 : noAliases s3).
  { unfold bindDefaultBackend in Hbd.
    repeat match type of Hbd with
           | match ?x with _ => _ end = _ => destruct x
           end;
      try (unfold ret in Hbd; injection Hbd as _ <- _; exact Hno).
    apply bind_Some in Hbd. destruct Hbd as (ca & ? & ? & Hca & Hbd & _).
    apply deref_Some in Hca. destruct Hca as [Hca _].
    apply bind_Some in Hbd. destruct Hbd as (dl & ? & ? & _ & Hbd & _).
    apply bind_Some in Hbd. destruct Hbd as (dl' & ? & ? & _ & Hbd & _).
    unfold ret in Hbd. injection Hbd as _ <- _.
    intros k s Hk. destruct (decide (defServerName = k)) as [<-|Hne].
    - rewrite lookup_insert_eq in Hk. injection Hk as <-. cbn. eapply Hno. exact Hca.
    - rewrite lookup_insert_ne in Hk by exact Hne. eapply Hno. exact Hk. }
  eapply (forRange_invariant noAliases); [exact Hb|exact Hno3|].
  intros s4 rule s5 l5 _ Hrule Hno4. unfold initServerForRule in Hrule.
  destruct (s4 !! hostOf rule) eqn:Hs4.
  - unfold ret in Hrule. injection Hrule as <- _. exact Hno4.
  - unfold ret in Hrule. injection Hrule as <- _.
    intros k s Hk. destruct (decide (hostOf rule = k)) as [<-|Hne].
    + rewrite lookup_insert_eq in Hk. injection Hk as <-. reflexivity.
    + rewrite lookup_insert_ne in Hk by exact Hne. eapply Hno4. exact Hk.
Qed.

Lemma configureServerForRule_tracked (n : NGINXController) (h : Helpers) (mci : MCI.t)
    (anns : Annotations.t) (servers servers' : gmap string Server.t)
    (allAliases allAliases' : gmap string (list string)) (rule : IngressRule.t)
    (log : list LogEntry) :
  configureServerForRule n h mci anns (servers, allAliases) rule
  = (Some (servers', allAliases'), log) ->
  aliasesTracked servers allAliases -> aliasesTracked servers' allAliases'.
Proof.
  intros Hrun Htr. unfold configureServerForRule in Hrun.
  destruct (servers !! hostOf rule) as [srv|] eqn:Hsrv; [|cbn in Hrun; discriminate].
  unfold deref in Hrun. rewrite bind_ret_l in Hrun.
  apply bind_Some in Hrun. destruct Hrun as ([srv1 al1] & l1 & l1' & Hstep1 & Hrun & _).
  assert (H1 : (Server.Aliases srv1 <> [] -> is_Some (al1 !! hostOf rule))
               /\ keysKept allAliases al1).
  { clear Hrun.
    repeat case_decide; cbn in Hstep1; unfold ret in Hstep1; injection Hstep1 as <- <- _.
    - split; [|apply keysKept_insert]. intros _. rewrite lookup_insert_eq. eauto.
    - split; [|apply keysKept_refl]. intros _.
      destruct (allAliases !! hostOf rule); [eauto|]. cbn in *. congruence.
    - split; [|apply keysKept_refl]. intros Hne. eapply Htr; eassumption. }
  destruct H1 as [Hsome Hkept].
  apply bind_Some in Hrun. destruct Hrun as (srv2 & l2 & l2' & Hstep2 & Hrun & _).
  assert (H2 : Server.Aliases srv2 = Server.Aliases srv1).
  { clear Hrun.
    repeat case_decide; cbn in Hstep2; unfold ret in Hstep2; injection Hstep2 as <- _;
      reflexivity. }
  apply bind_Some in Hrun. destruct Hrun as (srv5 & l5 & l5' & Hstep5 & Hrun & _).
  match type of Hstep5 with
  | configureCertificate n h (hostOf rule) mci ?s = _ =>
    set (srv4 := s) in *;
    assert (H4 : Server.Aliases srv4 = Server.Aliases srv2)
      by (subst srv4;
          repeat match goal with |- context [if ?c then _ else _] => destruct c end;
          reflexivity)
  end.
  destruct (configureCertificate_shape n h (hostOf rule) mci srv4)
    as (srv5' & l5'' & Heq & Hshape).
  rewrite Heq in Hstep5. injection Hstep5 as -> _.
  assert (H5 : Server.Aliases srv5 = Server.Aliases srv1).
  { destruct Hshape as [->|(c & -> & _)]; cbn; congruence. }
  unfold ret in Hrun. injection Hrun as <- <- _.
  intros k s Hk Hne. destruct (decide (hostOf rule = k)) as [<-|Hneq].
  - rewrite lookup_insert_eq in Hk. injection Hk as <-. apply Hsome. congruence.
  - rewrite lookup_insert_ne in Hk by exact Hneq. apply Hkept. eapply Htr; eassumption.
Qed.

Lemma configureServersOfMCI_tracked (n : NGINXController) (h : Helpers)
    (servers servers' : gmap string Server.t)
    (allAliases allAliases' : gmap string (list string)) (mci : MCI.t)
    (log : list LogEntry) :
  configureServersOfMCI n h (servers, allAliases) mci
  = (Some (servers', allAliases'), log) ->
  aliasesTracked servers allAliases -> aliasesTracked servers' allAliases'.
Proof.
  intros Hrun Htr. unfold configureServersOfMCI in Hrun.
  destruct (Canary.Enabled _).
  { cbn in Hrun. unfold ret in Hrun. injection Hrun as <- <- _. exact Htr. }
  apply (forRange_invariant (fun st => aliasesTracked (fst st) (snd st)) _ _ _ _ _ Hrun Htr).
  intros [s0 a0] rule [s1 a1] l1 _ Hstep H0. cbn [fst snd] in *.
  eapply configureServerForRule_tracked; eassumption.
Qed.

(** X6.  In the server map that createServersFromMCIs (lines 528-787)
    returns, the aliases of every server are in ascending order without
    duplicates, none of them is the server's own hostname and none is the
    hostname of any server of the map. *)
Theorem aliases_never_name_a_server (n : NGINXController) (h : Helpers)
    (mcis : list MCI.t) (upstreams : gmap string Backend.t) (defaultUpstream : Backend.t) :
  exists servers log,
    createServersFromMCIs n h mcis upstreams defaultUpstream = (Some servers, log)
    /\ forall k s, servers !! k = Some s -> aliasesClean servers s.
Proof.
  destruct (createServersFromMCIs_wellFormed n h mcis upstreams defaultUpstream)
    as (servers & log & Hrun & _).
  exists servers, log. split; [exact Hrun|].
  unfold createServersFromMCIs in Hrun.
  apply bind_Some in Hrun. destruct Hrun as (s1 & l1 & l1' & Hpass1 & Hrun & _).
  apply bind_Some in Hrun. destruct Hrun as ([s2 a2] & l2 & l2' & Hpass2 & Hrun & _).
  unfold ret in Hrun. injection Hrun as <- _.
  assert (Hno1 : noAliases s1).
  { eapply (forRange_invariant noAliases); [exact Hpass1| |].
    - intros k s Hk. unfold initialServers in Hk.
      destruct (decide (defServerName = k)) as [<-|Hne].
      + rewrite lookup_insert_eq in Hk. injection Hk as <-. reflexivity.
      + rewrite lookup_insert_ne, lookup_empty in Hk by exact Hne. discriminate.
    - intros s0 mci s3 l3 _ Hstep. eapply initServersOfMCI_noAliases. exact Hstep. }
  assert (Htr2 : aliasesTracked s2 a2).
  { apply (forRange_invariant (fun st => aliasesTracked (fst st) (snd st))
             _ _ _ _ _ Hpass2).
    - intros k s Hk Hne. cbn in *. exfalso. apply Hne. eapply Hno1. exact Hk.
    - intros [s0 a0] mci [s3 a3] l3 _ Hstep H0. cbn [fst snd] in *.
      eapply configureServersOfMCI_tracked; eassumption. }
  assert (Hn2 : serversNamed s2).
  { destruct (forRange_total
                (fun s : gmap string Server.t => wellFormedServers s)
                (initServersOfMCI n h upstreams defaultUpstream) mcis
                (initialServers n defaultUpstream))
      as (s1' & l1'' & Hrun1 & Hwf1).
    { apply initialServers_wellFormed. }
    { intros s0 mci _ Hw0.
      destruct (initServersOfMCI_wellFormed n h upstreams defaultUpstream s0 mci Hw0)
        as (s3 & l3 & Hr & Hw3 & _).
      exists s3, l3. auto. }
    rewrite Hpass1 in Hrun1. injection Hrun1 as <- _.
    apply (forRange_invariant (fun st : gmap string Server.t * gmap string (list string) =>
                                 serversNamed (fst st)) _ _ _ _ _ Hpass2).
    - exact (proj1 Hwf1).
    - intros [s0 a0] mci [s3 a3] l3 _ Hstep H0. cbn [fst] in *.
      unfold configureServersOfMCI in Hstep. destruct (Canary.Enabled _).
      { cbn in Hstep. unfold ret in Hstep. injection Hstep as <- _ _. exact H0. }
      apply (forRange_invariant (fun st : gmap string Server.t * gmap string (list string) =>
                                   serversNamed (fst st)) _ _ _ _ _ Hstep H0).
      intros [s4 a4] rule [s5 a5] l5 _ Hrule H4. cbn [fst] in *.
      assert (Hsome : is_Some (s4 !! hostOf rule)).
      { unfold configureServerForRule in Hrule.
        destruct (s4 !! hostOf rule); [eauto|cbn in Hrule; discriminate]. }
      destruct (configureServerForRule_wellFormed n h
                  (MCI.withAnnotations (annotationsOf n h mci) mci) (annotationsOf n h mci)
                  s4 a4 rule H4 Hsome) as (s6 & a6 & l6 & Hr & Hn6 & _).
      rewrite Hrule in Hr. injection Hr as <- _ _. exact Hn6. }
  intros k s Hk.
  destruct (foldl_dedupAliases_clean _ _ _ _ Hn2 Hk)
    as [(Hnd & Hsort & Hmem)|(Hnot & s0 & Hs0 & Hal & _)].
  - split; [exact Hnd|]. split; [exact Hsort|]. intros a Ha.
    destruct (Hmem a Ha) as [Hne Hnone]. split; [exact Hne|].
    apply foldl_dedupAliases_None. exact Hnone.
  - assert (Hempty : Server.Aliases s0 = []).
    { destruct (Server.Aliases s0) as [|a l] eqn:Ha; [reflexivity|]. exfalso.
      destruct (Htr2 k s0 Hs0) as [l0 Hl0]; [rewrite Ha; discriminate|].
      apply Hnot. apply list_elem_of_fmap. exists (k, l0). split; [reflexivity|].
      apply elem_of_map_to_list. exact Hl0. }
    unfold aliasesClean. rewrite Hal, Hempty.
    split; [constructor|]. split; [constructor|]. intros a Ha.
    apply elem_of_nil in Ha. destruct Ha.
Qed.

(** X7.  The alias pass of createServersFromMCIs (lines 761-784) keeps
    exactly the declared aliases of a host that are neither the host itself
    nor the hostname of a server. *)
Theorem alias_pass_keeps_the_free_aliases (servers : gmap string Server.t)
    (host : string) (hostAliases : list string) (srv : Server.t) :
  servers !! host = Some srv ->
  exists srv',
    dedupAliases servers (host, hostAliases) !! host = Some srv'
    /\ forall a, a ∈ Server.Aliases srv'
         <-> a ∈ hostAliases /\ a <> host /\ servers !! a = None.
Proof.
  intros Hsrv. unfold dedupAliases. rewrite Hsrv, lookup_insert_eq.
  eexists. split; [reflexivity|]. cbn. intros a.
  destruct (uniqAliases_spec servers host hostAliases [] (NoDup_nil_2)) as [Hnd Hmem].
  destruct (setList_spec _ Hnd) as (_ & _ & Hmem').
  rewrite Hmem', Hmem. split; [|auto].
  intros [H|H]; [|exact H]. apply elem_of_nil in H. destruct H.
Qed.

Lemma alias_pass_keeps_the_free_aliases_witness :
  exists srv',
    dedupAliases aliasServers ("a.com", ["z.com"; "b.com"; "a.com"; "c.com"; "z.com"])
      !! "a.com" = Some srv'
    /\ forall a, a ∈ Server.Aliases srv'
         <-> a ∈ ["z.com"; "b.com"; "a.com"; "c.com"; "z.com"] /\ a <> "a.com"
             /\ aliasServers !! a = None.
Proof.
  apply (alias_pass_keeps_the_free_aliases aliasServers "a.com"
           ["z.com"; "b.com"; "a.com"; "c.com"; "z.com"] (bareServer "a.com")).
  reflexivity.
Defined.

(** ** Locations *)

Lemma claimedKept_refl (locs : list Location.t) : claimedKept locs locs.
Proof. intros i l Hi _. exact Hi. Qed.

Lemma claimedKept_trans (a b c : list Location.t) :
  claimedKept a b -> claimedKept b c -> claimedKept a c.
Proof. intros Hab Hbc i l Hi Hl. apply Hbc; [apply Hab; assumption|exact Hl]. Qed.

Lemma claimedKept_app (locs extra : list Location.t) : claimedKept locs (locs ++ extra).
Proof. intros i l Hi _. apply lookup_app_l_Some. exact Hi. Qed.

Lemma serversClaimedKept_refl (servers : gmap string Server.t) :
  serversClaimedKept servers servers.
Proof. intros k s Hk. exists s. split; [exact Hk|apply claimedKept_refl]. Qed.

Lemma serversClaimedKept_trans (a b c : gmap string Server.t) :
  serversClaimedKept a b -> serversClaimedKept b c -> serversClaimedKept a c.
Proof.
  intros Hab Hbc k s Hk. destruct (Hab k s Hk) as (s1 & Hk1 & H1).
  destruct (Hbc k s1 Hk1) as (s2 & Hk2 & H2). exists s2.
  split; [exact Hk2|]. eapply claimedKept_trans; eassumption.
Qed.

(** Lines 181-216: the scan changes at most a placeholder, and no length. *)
Lemma updateExistingLocation_shape (h : Helpers) (mci : MCI.t) (anns : Annotations.t)
    (ups : Backend.t) (nginxPath : string) (pathType : option PathType)
    (locs : list Location.t) :
  exists locs' addLoc www log,
    updateExistingLocation h mci anns ups nginxPath pathType locs
    = (Some (locs', addLoc, www), log)
    /\ length locs' = length locs
    /\ claimedKept locs locs'.
Proof.
  induction locs as [|loc rest IH]; cbn [updateExistingLocation].
  - eexists _, _, _, _. split; [reflexivity|]. split; [reflexivity|apply claimedKept_refl].
  - destruct (decide (Location.Path loc = nginxPath)) as [Hpath|Hpath].
    + destruct (decide (Location.PathType loc = pathType)) as [Htype|Htype].
      * destruct (Location.IsDefBackend loc) eqn:Hdef.
        -- eexists _, _, _, _. split; [reflexivity|]. split; [reflexivity|].
           intros [|i] l Hi Hl; cbn in *; [|exact Hi]. injection Hi as <-. congruence.
        -- eexists _, _, _, _. split; [reflexivity|]. split; [reflexivity|].
           apply claimedKept_refl.
      * eexists _, _, _, _. split; [reflexivity|]. split; [reflexivity|].
        apply claimedKept_refl.
    + destruct IH as (locs' & addLoc & www & log & -> & Hlen & Hkept). cbn [bind].
      eexists _, _, _, _. split; [reflexivity|]. cbn. split; [rewrite Hlen; reflexivity|].
      intros [|i] l Hi Hl; cbn in *; [exact Hi|]. apply Hkept; assumption.
Qed.

Lemma applySessionAffinity_total (anns : Annotations.t) (host : string)
    (aliases : list string) (path : string) (ups : Backend.t) :
  exists ups' log,
    applySessionAffinity anns host aliases path ups = (Some ups', log)
    /\ Backend.Name ups' = Backend.Name ups
    /\ Backend.NoServer ups' = Backend.NoServer ups
    /\ Backend.AlternativeBackends ups' = Backend.AlternativeBackends ups.
Proof.
  unfold applySessionAffinity.
  destruct (decide (AffinityConfig.Type_ (Annotations.SessionAffinity anns) = "cookie")).
  - destruct (Rewrite.UseRegex (Annotations.Rewrite anns)
              && bool_decide (AffinityCookie.Path
                                (AffinityConfig.Cookie (Annotations.SessionAffinity anns)) = ""));
      eexists _, _; (split; [reflexivity|auto]).
  - eexists _, _. split; [reflexivity|auto].
Qed.

Lemma applyServerAuth_total (n : NGINXController) (anns : Annotations.t)
    (server : Server.t) :
  exists server' log,
    applyServerAuth n anns server = (Some server', log)
    /\ Server.Hostname server' = Server.Hostname server
    /\ Server.Locations server' = Server.Locations server
    /\ Server.Aliases server' = Server.Aliases server
    /\ Server.SSLPassthrough server' = Server.SSLPassthrough server.
Proof.
  unfold applyServerAuth.
  repeat first
    [ progress cbn [bind klog ret]
    | match goal with
      | |- context [if ?c then _ else _] =>
        match c with
        | context [if _ then _ else _] => fail 1
        | _ => destruct c eqn:?
        end
      end ];
    eexists _, _; (split; [reflexivity|auto]).
Qed.

Ltac split_ands := repeat match goal with |- _ /\ _ => split end.

(** Lines 159-277: with the backend of its service present, a path never
    panics, keeps the keys of the Backend map both ways and every claimed
    location of the server. *)
Lemma locationForPath_shape (h : Helpers) (mci : MCI.t) (anns : Annotations.t)
    (host : string) (server : Server.t) (upstreams : gmap string Backend.t)
    (path : HTTPIngressPath.t) :
  (forall svc, IngressBackend.Service (HTTPIngressPath.Backend path) = Some svc ->
     is_Some (upstreams !! upstreamName h (MCI.Namespace mci) (Some svc))) ->
  exists server' upstreams' log,
    locationForPath h mci anns host (server, upstreams) path
    = (Some (server', upstreams'), log)
    /\ keysKept upstreams upstreams'
    /\ keysKept upstreams' upstreams
    /\ Server.Hostname server' = Server.Hostname server
    /\ Server.SSLPassthrough server' = Server.SSLPassthrough server
    /\ Server.Aliases server' = Server.Aliases server
    /\ length (Server.Locations server) <= length (Server.Locations server')
    /\ claimedKept (Server.Locations server) (Server.Locations server').
Proof.
  intros Hcov. unfold locationForPath.
  destruct (IngressBackend.Service (HTTPIngressPath.Backend path)) as [svc|] eqn:Hsvc.
  2: { eexists _, _, _. split; [reflexivity|].
       split_ands; try apply keysKept_refl; try apply claimedKept_refl;
         try reflexivity. }
  destruct (Hcov svc eq_refl) as [ups Hups]. rewrite Hups.
  unfold deref. rewrite bind_ret_l.
  destruct (Backend.NoServer ups).
  { eexists _, _, _. split; [reflexivity|].
    split_ands; try apply keysKept_refl; try apply claimedKept_refl;
      try reflexivity. }
  match goal with
  | |- context [updateExistingLocation h mci anns ups ?p ?t ?l] =>
    destruct (updateExistingLocation_shape h mci anns ups p t l)
      as (locs' & addLoc & www & l1 & -> & Hlen & Hkept)
  end.
  cbn [bind].
  match goal with
  | |- context [bind ?m _] =>
    assert (Hadd : exists server1 l2,
               m = (Some server1, l2)
               /\ Server.Hostname server1 = Server.Hostname server
               /\ Server.SSLPassthrough server1 = Server.SSLPassthrough server
               /\ Server.Aliases server1 = Server.Aliases server
               /\ length (Server.Locations server) <= length (Server.Locations server1)
               /\ claimedKept (Server.Locations server) (Server.Locations server1))
  end.
  { destruct addLoc; destruct www; cbn [bind klog ret];
      repeat match goal with
             | |- context [if ?c then _ else _] => destruct c
             end;
      eexists _, _; (split; [reflexivity|]); cbn;
      split_ands;
      try reflexivity;
      try (rewrite length_app, Hlen; lia); try (rewrite Hlen; lia);
      try (eapply claimedKept_trans; [exact Hkept|apply claimedKept_app]);
      try exact Hkept. }
  destruct Hadd as (server1 & l2 & -> & Hn1 & Hp1 & Ha1 & Hl1 & Hc1). cbn [bind].
  match goal with
  | |- context [applySessionAffinity anns host ?a ?p ups] =>
    destruct (applySessionAffinity_total anns host a p ups) as (ups' & l3 & -> & _)
  end.
  cbn [bind]. eexists _, _, _. split; [reflexivity|].
  split; [apply keysKept_insert|]. split.
  { intros k Hk. destruct (decide (upstreamName h (MCI.Namespace mci) (Some svc) = k))
      as [<-|Hne]; [eauto|]. rewrite lookup_insert_ne in Hk by exact Hne. exact Hk. }
  auto.
Qed.

(** Lines 109-278: one rule. *)
Lemma locationsForRule_shape (n : NGINXController) (h : Helpers) (mci : MCI.t)
    (anns : Annotations.t) (servers : gmap string Server.t)
    (upstreams : gmap string Backend.t) (rule : IngressRule.t) :
  serversNamed servers ->
  is_Some (servers !! defServerName) ->
  (forall paths path svc,
     IngressRule.HTTP rule = Some paths -> In path paths ->
     IngressBackend.Service (HTTPIngressPath.Backend path) = Some svc ->
     is_Some (upstreams !! upstreamName h (MCI.Namespace mci) (Some svc))) ->
  exists servers' upstreams' log,
    locationsForRule n h mci anns (servers, upstreams) rule
    = (Some (servers', upstreams'), log)
    /\ serversNamed servers'
    /\ keysKept servers servers'
    /\ keysKept servers' servers
    /\ keysKept upstreams upstreams'
    /\ keysKept upstreams' upstreams
    /\ serversClaimedKept servers servers'.
Proof.
  intros Hnamed Hcatch Hcov. unfold locationsForRule.
  set (key := if decide (is_Some (servers !! hostOf rule)) then hostOf rule
              else defServerName).
  match goal with
  | |- context [if ?c then _ else _] => destruct c
  end.
  { eexists _, _, _. split; [reflexivity|]. split; [exact Hnamed|].
    split_ands; try apply keysKept_refl. apply serversClaimedKept_refl. }
  assert (Hkey : is_Some (servers !! key)).
  { subst key. destruct (decide (is_Some (servers !! hostOf rule))); assumption. }
  destruct Hkey as [server Hserver]. rewrite Hserver.
  unfold deref. rewrite bind_ret_l.
  destruct (Hnamed _ _ Hserver) as [Hname Hlocs].
  destruct (applyServerAuth_total n anns server)
    as (server1 & l1 & -> & Hn1 & Hl1 & _). cbn [bind].
  assert (Hput : forall server2,
             Server.Hostname server2 = Server.Hostname server ->
             length (Server.Locations server) <= length (Server.Locations server2) ->
             claimedKept (Server.Locations server) (Server.Locations server2) ->
             serversNamed (<[key := server2]> servers)
             /\ keysKept servers (<[key := server2]> servers)
             /\ keysKept (<[key := server2]> servers) servers
             /\ serversClaimedKept servers (<[key := server2]> servers)).
  { intros server2 Hn2 Hlen2 Hc2. split; [|split; [|split]].
    - apply serversNamed_insert; [exact Hnamed|congruence|].
      intros Hnil. rewrite Hnil in Hlen2. cbn in Hlen2.
      destruct (Server.Locations server); [congruence|cbn in Hlen2; lia].
    - apply keysKept_insert.
    - intros k Hk. destruct (decide (key = k)) as [<-|Hne]; [eauto|].
      rewrite lookup_insert_ne in Hk by exact Hne. exact Hk.
    - intros k s Hk. destruct (decide (key = k)) as [<-|Hne].
      + rewrite lookup_insert_eq. eexists. split; [reflexivity|].
        rewrite Hserver in Hk. injection Hk as <-. exact Hc2.
      + rewrite lookup_insert_ne by exact Hne. exists s.
        split; [exact Hk|apply claimedKept_refl]. }
  destruct (IngressRule.HTTP rule) as [paths|] eqn:Hhttp.
  2: { eexists _, _, _. split; [reflexivity|].
       destruct (Hput server1 Hn1) as (H1 & H2 & H3 & H4).
       { rewrite Hl1. lia. }
       { rewrite Hl1. apply claimedKept_refl. }
       split_ands; try assumption; apply keysKept_refl. }
  set (good := fun st : Server.t * gmap string Backend.t =>
                 keysKept upstreams (snd st) /\ keysKept (snd st) upstreams
                 /\ Server.Hostname (fst st) = Server.Hostname server
                 /\ length (Server.Locations server) <= length (Server.Locations (fst st))
                 /\ claimedKept (Server.Locations server) (Server.Locations (fst st))).
  destruct (forRange_total good (locationForPath h mci anns (hostOf rule)) paths
              (server1, upstreams))
    as ([server2 upstreams2] & l2 & -> & Hk2 & Hk2' & Hn2 & Hlen2 & Hc2).
  { unfold good. cbn [fst snd]. rewrite Hl1.
    split_ands; try apply keysKept_refl; try apply claimedKept_refl; auto. }
  { intros [s0 u0] path Hin (Hk0 & Hk0' & Hn0 & Hlen0 & Hc0). cbn [fst snd] in *.
    destruct (locationForPath_shape h mci anns (hostOf rule) s0 u0 path)
      as (s3 & u3 & l3 & Hr & Hk3 & Hk3' & Hn3 & _ & _ & Hlen3 & Hc3).
    { intros svc Hsvc. apply Hk0. eapply Hcov; eauto. }
    exists (s3, u3), l3. split; [exact Hr|]. unfold good. cbn [fst snd].
    split; [eapply keysKept_trans; eassumption|].
    split; [eapply keysKept_trans; eassumption|].
    split; [congruence|]. split; [lia|]. eapply claimedKept_trans; eassumption. }
  cbn [bind fst snd] in *. eexists _, _, _. split; [reflexivity|].
  destruct (Hput server2 Hn2 Hlen2 Hc2) as (H1 & H2 & H3 & H4).
  split_ands; assumption.
Qed.

(** Lines 101-284: one resource. *)
Lemma locationsOfMCI_shape (n : NGINXController) (h : Helpers)
    (servers : gmap string Server.t) (upstreams : gmap string Backend.t)
    (canaryMCIs : list MCI.t) (mci : MCI.t) :
  serversNamed servers ->
  is_Some (servers !! defServerName) ->
  (forall key, In key (pathKeys h mci) -> is_Some (upstreams !! key)) ->
  exists servers' upstreams' log,
    locationsOfMCI n h (servers, upstreams, canaryMCIs) mci
    = (Some (servers', upstreams', canaryMCIs ++ canariesOf n h [mci]), log)
    /\ serversNamed servers'
    /\ keysKept servers servers'
    /\ keysKept servers' servers
    /\ keysKept upstreams upstreams'
    /\ keysKept upstreams' upstreams
    /\ serversClaimedKept servers servers'.
Proof.
  intros Hnamed Hcatch Hcov. unfold locationsOfMCI.
  set (anns := annotationsOf n h mci).
  set (good := fun st : gmap string Server.t * gmap string Backend.t =>
                 serversNamed (fst st)
                 /\ keysKept servers (fst st) /\ keysKept (fst st) servers
                 /\ keysKept upstreams (snd st) /\ keysKept (snd st) upstreams
                 /\ serversClaimedKept servers (fst st)).
  destruct (forRange_total good
              (locationsForRule n h (MCI.withAnnotations anns mci) anns)
              (Spec.Rules (MCI.Spec (MCI.withAnnotations anns mci)))
              (servers, upstreams))
    as ([servers2 upstreams2] & l2 & -> & Hgood).
  { unfold good. cbn [fst snd].
    split_ands; try apply keysKept_refl; try apply serversClaimedKept_refl; auto;
      apply Hnamed. }
  { intros [s0 u0] rule Hin (Hn0 & Hk0 & Hk0' & Hu0 & Hu0' & Hc0). cbn [fst snd] in *.
    destruct (locationsForRule_shape n h (MCI.withAnnotations anns mci) anns s0 u0 rule)
      as (s3 & u3 & l3 & Hr & Hn3 & Hk3 & Hk3' & Hu3 & Hu3' & Hc3).
    { exact Hn0. }
    { apply Hk0. exact Hcatch. }
    { intros paths path svc Hhttp Hpath Hsvc. apply Hu0, Hcov.
      unfold pathKeys. apply in_flat_map. exists rule. split; [exact Hin|].
      rewrite Hhttp. apply in_flat_map. exists path. split; [exact Hpath|].
      rewrite Hsvc. left. reflexivity. }
    exists (s3, u3), l3. split; [exact Hr|]. unfold good. cbn [fst snd].
    split_ands; try (eapply keysKept_trans; eassumption);
      try (eapply serversClaimedKept_trans; eassumption); apply Hn3. }
  cbn [bind fst snd] in *.
  destruct Hgood as (Hn2 & Hk2 & Hk2' & Hu2 & Hu2' & Hc2).
  unfold canariesOf. cbn [filter list_filter].
  fold anns.
  destruct (Canary.Enabled (Annotations.Canary anns)) eqn:Hcanary.
  - eexists _, _, _. split.
    + rewrite decide_True by reflexivity. reflexivity.
    + split_ands; try assumption; apply Hn2.
  - eexists _, _, _. split.
    + rewrite decide_False by discriminate. cbn. rewrite (app_nil_r canaryMCIs).
      reflexivity.
    + split_ands; try assumption; apply Hn2.
Qed.

Lemma canariesOf_cons (n : NGINXController) (h : Helpers) (mci : MCI.t)
    (mcis : list MCI.t) :
  canariesOf n h (mci :: mcis) = canariesOf n h [mci] ++ canariesOf n h mcis.
Proof.
  unfold canariesOf. cbn [filter list_filter].
  destruct (decide (Canary.Enabled (Annotations.Canary (annotationsOf n h mci)) = true));
    reflexivity.
Qed.

(** Lines 101-284: all resources. *)
Lemma locationsPass_shape (n : NGINXController) (h : Helpers) (mcis : list MCI.t) :
  forall (servers : gmap string Server.t) (upstreams : gmap string Backend.t)
         (canaryMCIs : list MCI.t),
  serversNamed servers ->
  is_Some (servers !! defServerName) ->
  pathsCovered h mcis upstreams ->
  exists servers' upstreams' log,
    forRange mcis (locationsOfMCI n h) (servers, upstreams, canaryMCIs)
    = (Some (servers', upstreams', canaryMCIs ++ canariesOf n h mcis), log)
    /\ serversNamed servers'
    /\ keysKept servers servers'
    /\ keysKept servers' servers
    /\ keysKept upstreams upstreams'
    /\ keysKept upstreams' upstreams
    /\ serversClaimedKept servers servers'.
Proof.
  induction mcis as [|mci mcis IH]; intros servers upstreams canaryMCIs Hn Hcatch Hcov.
  - exists servers, upstreams, []. cbn. rewrite app_nil_r. split; [reflexivity|].
    split_ands; try apply keysKept_refl; try apply serversClaimedKept_refl; apply Hn.
  - destruct (locationsOfMCI_shape n h servers upstreams canaryMCIs mci Hn Hcatch)
      as (s1 & u1 & l1 & Hr1 & Hn1 & Hk1 & Hk1' & Hu1 & Hu1' & Hc1).
    { intros key Hkey. apply (Hcov mci key); [left; reflexivity|exact Hkey]. }
    destruct (IH s1 u1 (canaryMCIs ++ canariesOf n h [mci]) Hn1 (Hk1 _ Hcatch))
      as (s2 & u2 & l2 & Hr2 & Hn2 & Hk2 & Hk2' & Hu2 & Hu2' & Hc2).
    { intros m key Hm Hkey. apply Hu1. apply (Hcov m key); [right; exact Hm|exact Hkey]. }
    exists s2, u2, (l1 ++ l2). split.
    + cbn [forRange]. rewrite Hr1. cbn [bind]. rewrite Hr2.
      rewrite (canariesOf_cons n h mci mcis), app_assoc. reflexivity.
    + split_ands; try (eapply keysKept_trans; eassumption);
        try (eapply serversClaimedKept_trans; eassumption); apply Hn2.
Qed.

Lemma createUpstreamsFromMCIs_pathsCovered (n : NGINXController) (h : Helpers)
    (mcis : list MCI.t) (defaultUpstream : Backend.t) :
  exists upstreams log,
    createUpstreamsFromMCIs n h mcis defaultUpstream = (Some upstreams, log)
    /\ pathsCovered h mcis upstreams.
Proof.
  unfold createUpstreamsFromMCIs.
  set (start := <[defUpstreamName := defaultUpstream]> (∅ : gmap string Backend.t)).
  destruct (forRange_total (fun _ => True) (createUpstreamsOfMCI n h) mcis start I)
    as (upstreams & log & Hrun & _).
  { intros s0 mci _ _.
    destruct (createUpstreamsOfMCI_covers n h s0 mci) as (s1 & l & Hr & _).
    exists s1, l. split; [exact Hr|exact I]. }
  exists upstreams, log. split; [exact Hrun|].
  destruct (forRange_covers keysKept
              (fun mci s => forall key, In key (pathKeys h mci) -> is_Some (s !! key))
              (createUpstreamsOfMCI n h) mcis keysKept_refl keysKept_trans)
    with (s := start) (s' := upstreams) (l := log) as [_ Hcov].
  - intros mci s1 s2 H12 HQ key Hin. apply H12, HQ, Hin.
  - intros s0 mci s1 l _ Hb.
    destruct (createUpstreamsOfMCI_covers n h s0 mci) as (s1' & l' & Hr & Hk & Hc).
    rewrite Hr in Hb. injection Hb as <- <-. split; [exact Hk|].
    intros key Hin. apply Hc. unfold referencedKeys. apply in_or_app. right. exact Hin.
  - exact Hrun.
  - intros mci key Hin. apply Hcov. exact Hin.
Qed.

(** ** Assembly *)

(** Lines 303-344: a visit moves exactly one location to the visited list. *)
Lemma customDefaultBackend_done (n : NGINXController) (h : Helpers)
    (upstream : Backend.t) (server : Server.t)
    (acc acc' : list Location.t * list Backend.t * bool) (location : Location.t)
    (l : list LogEntry) :
  customDefaultBackend n h upstream server acc location = (Some acc', l) ->
  exists location', fst (fst acc') = fst (fst acc) ++ [location'].
Proof.
  destruct acc as [[done created] https]. unfold customDefaultBackend. intros H.
  destruct (shouldCreateUpstreamForLocationDefaultBackend h upstream location);
    cbn [negb] in H.
  2: { unfold ret in H. injection H as <- _. eexists. reflexivity. }
  apply bind_Some in H. destruct H as (db & ? & ? & _ & H & _).
  destruct (Service.Ports db) as [|sp ports].
  { cbn in H. unfold ret in H. injection H as <- _. eexists. reflexivity. }
  apply bind_Some in H. destruct H as ([location' created'] & ? & ? & _ & H & _).
  destruct (Server.SSLPassthrough server && bool_decide (Location.Path location' = rootLocation)).
  - destruct (decide (Location.Backend location' = defUpstreamName));
      cbn in H; unfold ret in H; injection H as <- _; eexists; reflexivity.
  - unfold ret in H. injection H as <- _. eexists. reflexivity.
Qed.

Lemma customDefaultBackend_total (n : NGINXController) (h : Helpers)
    (upstream : Backend.t) (server : Server.t)
    (acc : list Location.t * list Backend.t * bool) (location : Location.t) :
  defaultBackendGuarded h ->
  exists acc' l, customDefaultBackend n h upstream server acc location = (Some acc', l).
Proof.
  intros Hguard. destruct acc as [[done created] https]. unfold customDefaultBackend.
  destruct (shouldCreateUpstreamForLocationDefaultBackend h upstream location) eqn:Hshould;
    cbn [negb].
  2: { eexists _, _. reflexivity. }
  destruct (Hguard _ _ Hshould) as [db Hdb]. rewrite Hdb.
  unfold deref. rewrite bind_ret_l.
  destruct (Service.Ports db) as [|sp ports]; [eexists _, _; reflexivity|].
  destruct (decide (length (getEndpoints n db sp) = 0%nat)).
  - rewrite bind_ret_l.
    repeat match goal with |- context [if ?c then _ else _] => destruct c end;
      eexists _, _; reflexivity.
  - destruct (decide (length (Backend.Endpoints upstream) = 0%nat));
      cbn [bind klog ret];
      repeat match goal with |- context [if ?c then _ else _] => destruct c end;
      eexists _, _; reflexivity.
Qed.

Lemma customDefaultBackend_loop_length (n : NGINXController) (h : Helpers)
    (upstream : Backend.t) (server : Server.t) (locs : list Location.t) :
  forall (acc acc' : list Location.t * list Backend.t * bool) (l : list LogEntry),
    forRange locs (customDefaultBackend n h upstream server) acc = (Some acc', l) ->
    length (fst (fst acc')) = (length (fst (fst acc)) + length locs)%nat.
Proof.
  induction locs as [|loc locs IH]; intros acc acc' l H; cbn [forRange] in H.
  - unfold ret in H. injection H as <- _. cbn. lia.
  - apply bind_Some in H. destruct H as (acc1 & l1 & l2 & Hstep & Hrest & _).
    apply customDefaultBackend_done in Hstep. destruct Hstep as [loc' Hdone].
    rewrite (IH _ _ _ Hrest), Hdone, length_app. cbn. lia.
Qed.

(** Lines 302-345: the visit of one server keeps the server map's keys,
    names and non-empty location lists. *)
Lemma customDefaultBackendsOfServer_named (n : NGINXController) (h : Helpers)
    (upstream : Backend.t) (st st' : gmap string Server.t * list Backend.t * bool)
    (key : string) (l : list LogEntry) :
  customDefaultBackendsOfServer n h upstream st key = (Some st', l) ->
  serversNamed (fst (fst st)) ->
  serversNamed (fst (fst st'))
  /\ keysKept (fst (fst st)) (fst (fst st'))
  /\ keysKept (fst (fst st')) (fst (fst st)).
Proof.
  destruct st as [[servers created] https]. unfold customDefaultBackendsOfServer.
  intros H Hnamed. cbn [fst] in *.
  apply bind_Some in H. destruct H as (server & ? & ? & Hserver & H & _).
  apply deref_Some in Hserver. destruct Hserver as [Hserver _].
  apply bind_Some in H. destruct H as ([[locs c2] h2] & ? & ? & Hlocs & H & _).
  unfold ret in H. injection H as <- _. cbn [fst].
  apply customDefaultBackend_loop_length in Hlocs. cbn [fst length] in Hlocs.
  destruct (Hnamed _ _ Hserver) as [Hname Hne].
  split; [|split].
  - apply serversNamed_insert; [exact Hnamed|exact Hname|]. cbn.
    intros ->. cbn in Hlocs. destruct (Server.Locations server); [congruence|].
    cbn in Hlocs. lia.
  - apply keysKept_insert.
  - intros k Hk. destruct (decide (key = k)) as [<-|Hneq]; [eauto|].
    rewrite lookup_insert_ne in Hk by exact Hneq. exact Hk.
Qed.

Lemma assembleUpstreamIn_named (order : MapOrder) (n : NGINXController) (h : Helpers)
    (st st' : list Backend.t * gmap string Server.t) (upstream : Backend.t)
    (l : list LogEntry) :
  assembleUpstreamIn order n h st upstream = (Some st', l) ->
  serversNamed (snd st) ->
  serversNamed (snd st') /\ keysKept (snd st) (snd st') /\ keysKept (snd st') (snd st).
Proof.
  destruct st as [aUpstreams servers]. unfold assembleUpstreamIn. intros H Hnamed.
  cbn [snd] in *.
  destruct (decide (Backend.Name upstream = defUpstreamName)).
  { unfold ret in H. injection H as <- _. cbn.
    split; [exact Hnamed|split; apply keysKept_refl]. }
  apply bind_Some in H. destruct H as ([[servers2 created] https] & ? & ? & Hloop & H & _).
  unfold ret in H. injection H as <- _. cbn [snd].
  apply (forRange_invariant
           (fun s : gmap string Server.t * list Backend.t * bool =>
              serversNamed (fst (fst s)) /\ keysKept servers (fst (fst s))
              /\ keysKept (fst (fst s)) servers) _ _ _ _ _ Hloop).
  - cbn. split; [exact Hnamed|split; apply keysKept_refl].
  - intros s0 key s1 l1 _ Hstep (Hn0 & Hk0 & Hk0').
    destruct (customDefaultBackendsOfServer_named n h upstream s0 s1 key l1 Hstep Hn0)
      as (Hn1 & Hk1 & Hk1').
    split; [exact Hn1|]. split; eapply keysKept_trans; eassumption.
Qed.

Lemma assembleUpstreamIn_total (order : MapOrder) (n : NGINXController) (h : Helpers)
    (aUpstreams : list Backend.t) (servers : gmap string Server.t) (upstream : Backend.t) :
  validOrder order ->
  defaultBackendGuarded h ->
  exists st' l, assembleUpstreamIn order n h (aUpstreams, servers) upstream = (Some st', l).
Proof.
  intros (_ & Hvalid & _) Hguard. unfold assembleUpstreamIn.
  destruct (decide (Backend.Name upstream = defUpstreamName)); [eexists _, _; reflexivity|].
  destruct (forRange_total
              (fun s : gmap string Server.t * list Backend.t * bool =>
                 keysKept servers (fst (fst s)))
              (customDefaultBackendsOfServer n h upstream)
              (map fst (overServers order upstream servers)) (servers, [], false))
    as ([[servers2 created] https] & l & -> & _).
  { cbn. apply keysKept_refl. }
  { intros [[s0 c0] h0] key Hin Hk0. cbn [fst] in *.
    assert (Hkey : is_Some (s0 !! key)).
    { apply Hk0. apply in_map_iff in Hin. destruct Hin as ([k v] & <- & Hin).
      exists v. apply elem_of_map_to_list. rewrite <- (Hvalid upstream servers).
      apply list_elem_of_In. exact Hin. }
    destruct Hkey as [server Hserver].
    destruct (forRange_total (fun _ => True) (customDefaultBackend n h upstream server)
                (Server.Locations server) ([], c0, h0) I)
      as ([[locs c1] h1] & l1 & Hlocs & _).
    { intros acc location _ _.
      destruct (customDefaultBackend_total n h upstream server acc location Hguard)
        as (acc' & l2 & Hacc). exists acc', l2. split; [exact Hacc|exact I]. }
    eexists (_, _, _), _. split.
    - unfold customDefaultBackendsOfServer. rewrite Hserver.
      unfold deref. rewrite bind_ret_l. rewrite Hlocs. cbn [bind]. reflexivity.
    - cbn [fst]. eapply keysKept_trans; [exact Hk0|]. apply keysKept_insert. }
  cbn [bind]. eexists _, _. reflexivity.
Qed.

Lemma assembleIn_total (order : MapOrder) (n : NGINXController) (h : Helpers)
    (upstreams : gmap string Backend.t) (servers : gmap string Server.t) :
  validOrder order ->
  defaultBackendGuarded h ->
  exists aUpstreams aServers log,
    assembleIn order n h upstreams servers = (Some (aUpstreams, aServers), log).
Proof.
  intros Hvalid Hguard. unfold assembleIn.
  destruct (forRange_total (fun _ => True) (assembleUpstreamIn order n h)
              (map snd (overBackends order upstreams)) ([], servers) I)
    as ([aUpstreams servers'] & l & -> & _).
  { intros [a0 s0] upstream _ _.
    destruct (assembleUpstreamIn_total order n h a0 s0 upstream Hvalid Hguard)
      as (st' & l & Hst).
    exists st', l. split; [exact Hst|exact I]. }
  cbn [bind]. eexists _, _, _. reflexivity.
Qed.

Lemma validOrder_goOrder : validOrder goOrder.
Proof. split; [|split]; intros; reflexivity. Qed.

Lemma assemble_total (n : NGINXController) (h : Helpers)
    (upstreams : gmap string Backend.t) (servers : gmap string Server.t) :
  defaultBackendGuarded h ->
  exists aUpstreams aServers log,
    assemble n h upstreams servers = (Some (aUpstreams, aServers), log).
Proof. apply assembleIn_total. apply validOrder_goOrder. Qed.

(** The server map after the loop over the Backend map. *)
Lemma assembleIn_loop_named (order : MapOrder) (n : NGINXController) (h : Helpers)
    (xs : list Backend.t) (servers servers' : gmap string Server.t)
    (built : list Backend.t) (log : list LogEntry) :
  forRange xs (assembleUpstreamIn order n h) ([], servers) = (Some (built, servers'), log) ->
  serversNamed servers ->
  serversNamed servers' /\ keysKept servers servers' /\ keysKept servers' servers.
Proof.
  intros Hloop Hnamed.
  apply (forRange_invariant
           (fun st : list Backend.t * gmap string Server.t =>
              serversNamed (snd st) /\ keysKept servers (snd st)
              /\ keysKept (snd st) servers) _ _ _ _ _ Hloop).
  - cbn. split; [exact Hnamed|split; apply keysKept_refl].
  - intros s0 upstream s1 l3 _ Hstep (Hn0 & Hk0 & Hk0').
    destruct (assembleUpstreamIn_named order n h s0 s1 upstream l3 Hstep Hn0)
      as (Hn1 & Hk1 & Hk1').
    split; [exact Hn1|]. split; eapply keysKept_trans; eassumption.
Qed.

(** Lines 292-372: the final server list holds one server per key of the
    server map, each with at least one location, whatever the order in
    which the maps are visited. *)
Lemma assembleIn_servers (order : MapOrder) (n : NGINXController) (h : Helpers)
    (upstreams : gmap string Backend.t) (servers : gmap string Server.t)
    (aUpstreams : list Backend.t) (aServers : list Server.t) (log : list LogEntry) :
  validOrder order ->
  assembleIn order n h upstreams servers = (Some (aUpstreams, aServers), log) ->
  serversNamed servers ->
  NoDup (map Server.Hostname aServers)
  /\ (forall k, In k (map Server.Hostname aServers) <-> is_Some (servers !! k))
  /\ Forall (fun s => Server.Locations s <> []) aServers.
Proof.
  unfold assembleIn. intros (_ & _ & Hvalid) H Hnamed. apply bind_Some in H.
  destruct H as ([built servers'] & l1 & l2 & Hloop & Hret & _).
  unfold ret in Hret. injection Hret as _ <- _.
  destruct (assembleIn_loop_named order n h _ _ _ _ _ Hloop Hnamed) as (Hn' & Hk & Hk').
  assert (Hentry : forall k s, (k, s) ∈ overSorted order servers' <-> servers' !! k = Some s).
  { intros k s. rewrite (Hvalid servers'). apply elem_of_map_to_list. }
  assert (Hnames : map Server.Hostname
                     (map (fun kv : string * Server.t => sortLocations (snd kv))
                        (overSorted order servers'))
                   = map fst (overSorted order servers')).
  { rewrite map_map. apply map_ext_in. intros [k s] Hin. cbn.
    apply list_elem_of_In, Hentry in Hin. apply (Hn' _ _ Hin). }
  pose proof (sortSliceStable_perm hostnameLess
                (map (fun kv : string * Server.t => sortLocations (snd kv))
                   (overSorted order servers'))) as Hperm.
  split; [|split].
  - rewrite Hperm, Hnames.
    change (map fst (overSorted order servers')) with (fst <$> overSorted order servers').
    rewrite (Hvalid servers'). apply NoDup_fst_map_to_list.
  - intros k. rewrite <- list_elem_of_In, Hperm, Hnames. split.
    + intros Hin. apply Hk'. apply list_elem_of_fmap in Hin.
      destruct Hin as ([k' s] & -> & Hin). apply Hentry in Hin.
      cbn. eauto.
    + intros Hsome. apply Hk in Hsome. destruct Hsome as [s Hs].
      apply list_elem_of_fmap. exists (k, s). split; [reflexivity|].
      apply Hentry. exact Hs.
  - rewrite Hperm. apply Forall_forall. intros s Hin.
    apply list_elem_of_fmap in Hin. destruct Hin as ([k s0] & -> & Hin).
    apply Hentry in Hin. destruct (Hn' _ _ Hin) as [_ Hne].
    cbn. intros Hnil. apply Hne.
    pose proof (sortSliceStable_perm pathLonger
                  (sortSliceStable pathGreater (Server.Locations s0))) as Hp1.
    pose proof (sortSliceStable_perm pathGreater (Server.Locations s0)) as Hp2.
    rewrite Hnil in Hp1. apply Permutation_nil in Hp1.
    rewrite Hp1 in Hp2. apply Permutation_nil in Hp2. exact Hp2.
Qed.

Lemma assemble_servers (n : NGINXController) (h : Helpers)
    (upstreams : gmap string Backend.t) (servers : gmap string Server.t)
    (aUpstreams : list Backend.t) (aServers : list Server.t) (log : list LogEntry) :
  assemble n h upstreams servers = (Some (aUpstreams, aServers), log) ->
  serversNamed servers ->
  NoDup (map Server.Hostname aServers)
  /\ (forall k, In k (map Server.Hostname aServers) <-> is_Some (servers !! k))
  /\ Forall (fun s => Server.Locations s <> []) aServers.
Proof. apply assembleIn_servers. apply validOrder_goOrder. Qed.

Lemma canariesOf_withoutCanaries (n : NGINXController) (h : Helpers) (mcis : list MCI.t) :
  withoutCanaries n h mcis -> canariesOf n h mcis = [].
Proof.
  induction 1 as [|mci mcis Hmci _ IH]; [reflexivity|].
  rewrite canariesOf_cons, IH, app_nil_r. unfold canariesOf. cbn [filter list_filter].
  rewrite decide_False; [reflexivity|]. rewrite Hmci. discriminate.
Qed.

(** Lines 94-373: the server list of a run that returns. *)
Lemma getBackendServersFromMCIs_servers (n : NGINXController) (h : Helpers)
    (mcis : list MCI.t) (aUpstreams : list Backend.t) (aServers : list Server.t)
    (log : list LogEntry) :
  getBackendServersFromMCIs n h mcis = (Some (aUpstreams, aServers), log) ->
  NoDup (map Server.Hostname aServers)
  /\ In defServerName (map Server.Hostname aServers)
  /\ (forall mci rule,
        In mci mcis ->
        Canary.Enabled (Annotations.Canary (annotationsOf n h mci)) = false ->
        In rule (Spec.Rules (MCI.Spec mci)) ->
        In (hostOf rule) (map Server.Hostname aServers))
  /\ Forall (fun s => Server.Locations s <> []) aServers.
Proof.
  intros Hrun. unfold getBackendServersFromMCIs in Hrun.
  apply bind_Some in Hrun. destruct Hrun as (upstreams & ? & ? & Hups & Hrun & _).
  apply bind_Some in Hrun. destruct Hrun as (servers & ? & ? & Hsrv & Hrun & _).
  apply bind_Some in Hrun.
  destruct Hrun as ([[servers' upstreams'] canaryMCIs] & ? & ? & Hpass & Hrun & _).
  apply bind_Some in Hrun. destruct Hrun as (merged & ? & ? & _ & Hasm & _).
  destruct (createUpstreamsFromMCIs_pathsCovered n h mcis (getDefaultUpstream n))
    as (u0 & l0 & Hu0 & Hcov).
  rewrite Hups in Hu0. injection Hu0 as <- _.
  destruct (createServersFromMCIs_wellFormed n h mcis upstreams (getDefaultUpstream n))
    as (s0 & l1 & Hs0 & [Hnamed Hcatch] & Hhosts & _).
  rewrite Hsrv in Hs0. injection Hs0 as <- _.
  destruct (locationsPass_shape n h mcis servers upstreams [] Hnamed Hcatch Hcov)
    as (s2 & u2 & l2 & Hs2 & Hnamed2 & Hk2 & _).
  rewrite Hpass in Hs2. injection Hs2 as <- _ _ _.
  destruct (assemble_servers n h merged servers' aUpstreams aServers _ Hasm Hnamed2)
    as (Hnodup & Hkeys & Hlocs).
  split; [exact Hnodup|]. split; [apply Hkeys, Hk2, Hcatch|]. split; [|exact Hlocs].
  intros mci rule Hin Hcanary Hrule. apply Hkeys, Hk2. eapply Hhosts; eassumption.
Qed.

(** X8.  Whenever getBackendServersFromMCIs (lines 94-373) returns, its
    server list has one server per hostname: the hostnames are pairwise
    distinct, the catch-all server "_" is among them, so is the host of
    every rule of every non-canary resource, and every server has at least
    one location. *)
Theorem synthesis_one_server_per_host (n : NGINXController) (h : Helpers)
    (mcis : list MCI.t) (aUpstreams : list Backend.t) (aServers : list Server.t)
    (log : list LogEntry) :
  getBackendServersFromMCIs n h mcis = (Some (aUpstreams, aServers), log) ->
  NoDup (map Server.Hostname aServers)
  /\ In defServerName (map Server.Hostname aServers)
  /\ (forall mci rule,
        In mci mcis ->
        Canary.Enabled (Annotations.Canary (annotationsOf n h mci)) = false ->
        In rule (Spec.Rules (MCI.Spec mci)) ->
        In (hostOf rule) (map Server.Hostname aServers))
  /\ Forall (fun s => Server.Locations s <> []) aServers.
Proof.
  intros Hrun.
  destruct (getBackendServersFromMCIs_servers n h mcis aUpstreams aServers log Hrun)
    as (Hnodup & Hcatch & Hhosts & Hlocs).
  split; [exact Hnodup|]. split; [exact Hcatch|]. split; [exact Hhosts|exact Hlocs].
Qed.

Lemma synthesis_one_server_per_host_witness :
  exists aUpstreams aServers log,
    getBackendServersFromMCIs refController refHelpers [backendAndRules; canaryOfPrimary]
    = (Some (aUpstreams, aServers), log)
    /\ NoDup (map Server.Hostname aServers)
    /\ In defServerName (map Server.Hostname aServers).
Proof.
  destruct (getBackendServersFromMCIs refController refHelpers
              [backendAndRules; canaryOfPrimary])
    as [[[aUpstreams aServers]|] log] eqn:Hrun; [|vm_compute in Hrun; discriminate].
  exists aUpstreams, aServers, log. split; [reflexivity|].
  destruct (synthesis_one_server_per_host refController refHelpers
              [backendAndRules; canaryOfPrimary] aUpstreams aServers log Hrun)
    as (Hnodup & Hcatch & _).
  split; assumption.
Defined.

(** X9.  Without canary resources, and with a helper that asks for a
    custom default backend only at locations naming one,
    getBackendServersFromMCIs (lines 94-373) never panics: it returns a
    backend list and a server list for every list of resources. *)
Theorem synthesis_without_canaries_returns (n : NGINXController) (h : Helpers)
    (mcis : list MCI.t) :
  withoutCanaries n h mcis ->
  defaultBackendGuarded h ->
  exists aUpstreams aServers log,
    getBackendServersFromMCIs n h mcis = (Some (aUpstreams, aServers), log).
Proof.
  intros Hplain Hguard. unfold getBackendServersFromMCIs.
  destruct (createUpstreamsFromMCIs_pathsCovered n h mcis (getDefaultUpstream n))
    as (upstreams & l0 & -> & Hcov). cbn [bind].
  destruct (createServersFromMCIs_wellFormed n h mcis upstreams (getDefaultUpstream n))
    as (servers & l1 & -> & [Hnamed Hcatch] & _). cbn [bind].
  destruct (locationsPass_shape n h mcis servers upstreams [] Hnamed Hcatch Hcov)
    as (servers' & upstreams' & l2 & -> & _). cbn [bind app].
  rewrite (canariesOf_withoutCanaries n h mcis Hplain).
  assert (Hmerge : (if nonCanaryMCIExists mcis [] then
                      forRange []
                        (fun ups canaryMCI =>
                           mergeAlternativeBackendsByMCI h canaryMCI ups servers')
                        upstreams'
                    else ret upstreams') = ret upstreams').
  { destruct (nonCanaryMCIExists mcis []); reflexivity. }
  rewrite Hmerge, bind_ret_l.
  destruct (assemble_total n h upstreams' servers' Hguard) as (a & s & l3 & ->).
  eexists _, _, _. reflexivity.
Qed.

Lemma synthesis_without_canaries_returns_witness :
  exists aUpstreams aServers log,
    getBackendServersFromMCIs refController refHelpers [backendAndRules; tlsWrongHost]
    = (Some (aUpstreams, aServers), log).
Proof.
  apply (synthesis_without_canaries_returns refController refHelpers
           [backendAndRules; tlsWrongHost]).
  - repeat constructor.
  - intros upstream location Hshould. cbn in Hshould.
    unfold refShouldCreateUpstream in Hshould.
    apply andb_prop in Hshould. destruct Hshould as [_ Hsome].
    apply bool_decide_eq_true in Hsome. exact Hsome.
Defined.

(** X10.  A rule path whose service has a backend never panics in
    getBackendServersFromMCIs (lines 159-277) and never replaces a location
    that a resource has already claimed: every location of the server with
    IsDefBackend false is afterwards at the same index, unchanged, and the
    server loses no location. *)
Theorem claimed_locations_are_never_replaced (h : Helpers) (mci : MCI.t)
    (anns : Annotations.t) (host : string) (server : Server.t)
    (upstreams : gmap string Backend.t) (path : HTTPIngressPath.t) :
  (forall svc, IngressBackend.Service (HTTPIngressPath.Backend path) = Some svc ->
     is_Some (upstreams !! upstreamName h (MCI.Namespace mci) (Some svc))) ->
  exists server' upstreams' log,
    locationForPath h mci anns host (server, upstreams) path
    = (Some (server', upstreams'), log)
    /\ claimedKept (Server.Locations server) (Server.Locations server')
    /\ length (Server.Locations server) <= length (Server.Locations server').
Proof.
  intros Hcov.
  destruct (locationForPath_shape h mci anns host server upstreams path Hcov)
    as (server' & upstreams' & log & Hrun & _ & _ & _ & _ & _ & Hlen & Hkept).
  exists server', upstreams', log. auto.
Qed.

Lemma claimed_locations_are_never_replaced_witness :
  exists server' upstreams' log,
    locationForPath refHelpers twoPaths plainAnnotations "a.com"
      (claimedServer, sampleUpstreams) (pathTo "/" PathTypePrefix "s1" 80)
    = (Some (server', upstreams'), log)
    /\ claimedKept (Server.Locations claimedServer) (Server.Locations server')
    /\ length (Server.Locations claimedServer) <= length (Server.Locations server').
Proof.
  apply (claimed_locations_are_never_replaced refHelpers twoPaths plainAnnotations "a.com"
           claimedServer sampleUpstreams (pathTo "/" PathTypePrefix "s1" 80)).
  intros svc Hsvc. vm_compute in Hsvc. injection Hsvc as <-.
  vm_compute. eexists. reflexivity.
Defined.

(** ** Overlap check *)

Lemma locationsOwners_spec (path : string) (locs : list Location.t) :
  forall (owners : list KarmadaMCI.t) (log : list LogEntry),
    locationsOwners path locs = (Some owners, log) ->
    forall o, In o owners <->
      exists location m,
        In location locs /\ Location.Path location = path
        /\ Location.IsDefBackend location = false
        /\ Location.MultiClusterIngress location = Some m
        /\ o = MCI.MultiClusterIngress m.
Proof.
  induction locs as [|loc rest IH]; intros owners log H o; cbn [locationsOwners] in H.
  - unfold ret in H. injection H as <- _. split; [intros []|].
    intros (location & m & [] & _).
  - assert (Hskip : (Location.Path loc <> path \/ Location.IsDefBackend loc = true) ->
              locationsOwners path rest = (Some owners, log) ->
              In o owners <->
              exists location m,
                In location (loc :: rest) /\ Location.Path location = path
                /\ Location.IsDefBackend location = false
                /\ Location.MultiClusterIngress location = Some m
                /\ o = MCI.MultiClusterIngress m).
    { intros Hwhy Hrest. rewrite (IH _ _ Hrest o). split.
      - intros (location & m & Hin & Hrestp). exists location, m.
        split; [right; exact Hin|exact Hrestp].
      - intros (location & m & [<-|Hin] & Hp & Hd & Hrestp).
        + destruct Hwhy as [Hw|Hw]; [contradiction|congruence].
        + exists location, m. auto. }
    destruct (decide (Location.Path loc = path)) as [Hpath|Hpath];
      [|apply Hskip; [left; exact Hpath|exact H]].
    destruct (Location.IsDefBackend loc) eqn:Hdef;
      [apply Hskip; [right; reflexivity|exact H]|].
    apply bind_Some in H. destruct H as (owner & ? & ? & Howner & H & _).
    apply deref_Some in Howner. destruct Howner as [Howner _].
    apply bind_Some in H. destruct H as (more & ? & ? & Hmore & H & _).
    unfold ret in H. injection H as <- _. cbn [In]. rewrite (IH _ _ Hmore o). split.
    + intros [<-|(location & m & Hin & Hrestp)].
      * exists loc, owner. auto.
      * exists location, m. auto.
    + intros (location & m & [<-|Hin] & Hp & Hd & Hm & ->).
      * left. rewrite Howner in Hm. injection Hm as <-. reflexivity.
      * right. exists location, m. auto.
Qed.


Lemma mciForHostPath_spec (hostname path : string) (servers : list Server.t) :
  forall (owners : list KarmadaMCI.t) (log : list LogEntry),
    mciForHostPath hostname path servers = (Some owners, log) ->
    forall o, In o owners <-> ownsLocation servers hostname path o.
Proof.
  induction servers as [|server rest IH]; intros owners log H o;
    cbn [mciForHostPath] in H.
  - unfold ret in H. injection H as <- _. split; [intros []|].
    intros (s & location & m & [] & _).
  - destruct (decide (hostname = Server.Hostname server)) as [Hhost|Hhost].
    + apply bind_Some in H. destruct H as (here & ? & ? & Hhere & H & _).
      apply bind_Some in H. destruct H as (more & ? & ? & Hmore & H & _).
      unfold ret in H. injection H as <- _.
      rewrite in_app_iff, (locationsOwners_spec _ _ _ _ Hhere o), (IH _ _ Hmore o).
      split.
      * intros [(location & m & Hin & Hrestp)|(s & location & m & Hs & Hrestp)].
        -- exists server, location, m. split; [left; reflexivity|]. auto.
        -- exists s, location, m. split; [right; exact Hs|exact Hrestp].
      * intros (s & location & m & [<-|Hs] & Hn & Hin & Hrestp).
        -- left. exists location, m. auto.
        -- right. exists s, location, m. auto.
    + rewrite (IH _ _ H o). split.
      * intros (s & location & m & Hs & Hrestp). exists s, location, m.
        split; [right; exact Hs|exact Hrestp].
      * intros (s & location & m & [<-|Hs] & Hn & Hrestp); [congruence|].
        exists s, location, m. auto.
Qed.


Lemma firstConflict_sound (h : Helpers) (host path : string)
    (candidate : bool * AnnotationErr) (owners : list KarmadaMCI.t) (e : OverlapError) :
  firstConflict h host path candidate owners = Some e ->
  exists o, In o owners
    /\ e = AlreadyDefined host path (KarmadaMCI.Namespace o) (KarmadaMCI.Name o)
    /\ annotationsConflict candidate (GetBoolAnnotationFromMCI h "canary" o).
Proof.
  induction owners as [|o rest IH]; cbn [firstConflict]; [discriminate|].
  destruct candidate as [c ce].
  destruct (GetBoolAnnotationFromMCI h "canary" o) as [c' e'] eqn:Ho.
  intros H.
  assert (Hnext : firstConflict h host path (c, ce) rest = Some e ->
            exists o0, In o0 (o :: rest)
              /\ e = AlreadyDefined host path (KarmadaMCI.Namespace o0) (KarmadaMCI.Name o0)
              /\ annotationsConflict (c, ce) (GetBoolAnnotationFromMCI h "canary" o0)).
  { intros Hrest. destruct (IH Hrest) as (o0 & Hin & He & Hc). exists o0.
    split; [right; exact Hin|auto]. }
  assert (Hhere : Some (AlreadyDefined host path (KarmadaMCI.Namespace o)
                          (KarmadaMCI.Name o)) = Some e ->
            annotationsConflict (c, ce) (c', e') ->
            exists o0, In o0 (o :: rest)
              /\ e = AlreadyDefined host path (KarmadaMCI.Namespace o0) (KarmadaMCI.Name o0)
              /\ annotationsConflict (c, ce) (GetBoolAnnotationFromMCI h "canary" o0)).
  { intros He Hc. injection He as <-. exists o. rewrite Ho.
    split; [left; reflexivity|auto]. }
  destruct c, c'; cbn [andb] in H;
    try (apply Hhere; [exact H|left; split; reflexivity]);
    destruct ce, e';
    try (apply Hnext; exact H);
    (apply Hhere; [exact H|right; split; reflexivity]).
Qed.


Lemma checkOverlapPaths_sound (h : Helpers) (mci : KarmadaMCI.t) (host : string)
    (servers : list Server.t) (paths : list HTTPIngressPath.t) :
  forall (e : OverlapError) (log : list LogEntry),
    checkOverlapPaths h mci host servers paths = (Some (Return (Some e)), log) ->
    exists owner,
      ownsLocation servers (overlapHost e) (overlapPath e) owner
      /\ overlapHost e = host
      /\ KarmadaMCI.Namespace owner = overlapNamespace e
      /\ KarmadaMCI.Name owner = overlapName e
      /\ sameResource owner mci = false
      /\ conflictsWith h mci owner.
Proof.
  induction paths as [|path rest IH]; intros e log H; cbn [checkOverlapPaths] in H.
  - unfold ret in H. discriminate.
  - destruct (IngressBackend.Service (HTTPIngressPath.Backend path)).
    2: { apply bind_klog in H. destruct H as (l2 & H & _). eapply IH. exact H. }
    apply bind_Some in H. destruct H as (owners & ? & ? & Howners & H & _).
    destruct (decide (length owners = 0%nat)); [eapply IH; exact H|].
    destruct (existsb (fun existing => sameResource existing mci) owners) eqn:Hsame.
    { unfold ret in H. discriminate. }
    unfold ret in H. injection H as H _.
    apply firstConflict_sound in H. destruct H as (o & Hin & -> & Hconflict).
    exists o. cbn. split; [|split; [reflexivity|]].
    + apply (mciForHostPath_spec _ _ _ _ _ Howners). exact Hin.
    + split; [reflexivity|]. split; [reflexivity|]. split; [|exact Hconflict].
      destruct (sameResource o mci) eqn:Ho; [|reflexivity].
      assert (Hex : existsb (fun existing => sameResource existing mci) owners = true).
      { apply existsb_exists. exists o. auto. }
      congruence.
Qed.

(** X11.  An error of checkOverlapWithMCI (lines 1126-1186) is never
    spurious: the resource it names is another resource than the candidate,
    it owns a claimed location of a server for the host and path of the
    error, and the two carry a rejected pair of canary annotations (both
    enabled, or both without annotation). *)
Theorem overlap_error_names_a_real_owner (h : Helpers) (mci : KarmadaMCI.t)
    (servers : list Server.t) (e : OverlapError) (log : list LogEntry) :
  checkOverlapWithMCI h mci servers = (Some (Some e), log) ->
  exists owner,
    ownsLocation servers (overlapHost e) (overlapPath e) owner
    /\ KarmadaMCI.Namespace owner = overlapNamespace e
    /\ KarmadaMCI.Name owner = overlapName e
    /\ sameResource owner mci = false
    /\ conflictsWith h mci owner.
Proof.
  unfold checkOverlapWithMCI. generalize (Spec.Rules (KarmadaMCI.Spec mci)).
  intros rules. revert log. induction rules as [|rule rest IH]; intros log H;
    cbn [checkOverlapRules] in H.
  - unfold ret in H. discriminate.
  - destruct (IngressRule.HTTP rule) as [paths|]; [|eapply IH; exact H].
    apply bind_Some in H. destruct H as (flow & ? & ? & Hpaths & H & _).
    destruct flow as [|r]; [eapply IH; exact H|].
    unfold ret in H. injection H as -> _.
    destruct (checkOverlapPaths_sound h mci (hostOf rule) servers paths e _ Hpaths)
      as (owner & Howns & _ & Hrest).
    exists owner. auto.
Qed.

Lemma overlap_error_names_a_real_owner_witness :
  exists e log owner,
    checkOverlapWithMCI refHelpers otherRoot [claimedServer] = (Some (Some e), log)
    /\ ownsLocation [claimedServer] (overlapHost e) (overlapPath e) owner
    /\ KarmadaMCI.Namespace owner = overlapNamespace e
    /\ KarmadaMCI.Name owner = overlapName e
    /\ sameResource owner otherRoot = false
    /\ conflictsWith refHelpers otherRoot owner.
Proof.
  destruct (checkOverlapWithMCI refHelpers otherRoot [claimedServer])
    as [[[e|]|] log] eqn:Hrun; try (vm_compute in Hrun; discriminate).
  destruct (overlap_error_names_a_real_owner refHelpers otherRoot [claimedServer] e log Hrun)
    as (owner & Hprops).
  exists e, log, owner. split; [reflexivity|exact Hprops].
Defined.



(** X13.  When mciForHostPath (lines 1188-1210) returns, its result holds
    exactly the resources of the claimed locations (IsDefBackend false)
    with the given path in the servers with the given hostname. *)
Theorem mciForHostPath_owners (hostname path : string) (servers : list Server.t)
    (owners : list KarmadaMCI.t) (log : list LogEntry) :
  mciForHostPath hostname path servers = (Some owners, log) ->
  forall o, In o owners <-> ownsLocation servers hostname path o.
Proof.
  intros Hrun o. split.
  - intros Hin. apply (mciForHostPath_spec _ _ _ _ _ Hrun). exact Hin.
  - intros Howns. apply (mciForHostPath_spec _ _ _ _ _ Hrun). exact Howns.
Qed.

Lemma mciForHostPath_owners_witness :
  ownsLocation [claimedServer; bareServer "b.com"] "a.com" "/"
    (MCI.MultiClusterIngress plainWeb).
Proof.
  assert (Hrun : mciForHostPath "a.com" "/" [claimedServer; bareServer "b.com"]
                 = (Some [MCI.MultiClusterIngress plainWeb], []))
    by (vm_compute; reflexivity).
  apply (mciForHostPath_owners "a.com" "/" [claimedServer; bareServer "b.com"]
           [MCI.MultiClusterIngress plainWeb] [] Hrun).
  left. reflexivity.
Defined.

(** ** What the merger leaves alone *)

Lemma onlyMerged_refl (b : Backend.t) : onlyMerged b b.
Proof. split; [destruct b; reflexivity|]. exists []. rewrite app_nil_r. reflexivity. Qed.

Lemma onlyMerged_trans (a b c : Backend.t) :
  onlyMerged a b -> onlyMerged b c -> onlyMerged a c.
Proof.
  intros [Hab [m1 H1]] [Hbc [m2 H2]]. split.
  - rewrite <- Hab at 3. rewrite <- Hbc. destruct c. reflexivity.
  - exists (m1 ++ m2). rewrite H2, H1, app_assoc. reflexivity.
Qed.

Lemma mergedFrom_refl (upstreams : gmap string Backend.t) : mergedFrom upstreams upstreams.
Proof. intros k b Hk. exists b. split; [exact Hk|apply onlyMerged_refl]. Qed.

Lemma mergedFrom_trans (a b c : gmap string Backend.t) :
  mergedFrom a b -> mergedFrom b c -> mergedFrom a c.
Proof.
  intros Hab Hbc k b'' Hk. destruct (Hbc k b'' Hk) as (b' & Hk' & H2).
  destruct (Hab k b' Hk') as (b0 & Hk0 & H1). exists b0.
  split; [exact Hk0|]. eapply onlyMerged_trans; eassumption.
Qed.

Lemma mergedFrom_insert (upstreams : gmap string Backend.t) (key : string)
    (b b' : Backend.t) :
  upstreams !! key = Some b -> onlyMerged b b' ->
  mergedFrom upstreams (<[key := b']> upstreams).
Proof.
  intros Hb Hm k b0 Hk. destruct (decide (key = k)) as [<-|Hne].
  - rewrite lookup_insert_eq in Hk. injection Hk as <-. eauto.
  - rewrite lookup_insert_ne in Hk by exact Hne. exists b0.
    split; [exact Hk|apply onlyMerged_refl].
Qed.

Lemma mergedFrom_delete (upstreams : gmap string Backend.t) (key : string) :
  mergedFrom upstreams (delete key upstreams).
Proof.
  intros k b Hk. apply lookup_delete_Some in Hk. destruct Hk as [_ Hk].
  exists b. split; [exact Hk|apply onlyMerged_refl].
Qed.

(** mergeAlternativeBackendByMCI (lines 949-971) *)
Lemma mergeAlternativeBackendByMCI_only (mci : MCI.t) (priUps altUps : Backend.t) :
  exists verdict pri' alt' log,
    mergeAlternativeBackendByMCI mci priUps altUps = (Some (verdict, pri', alt'), log)
    /\ onlyMerged priUps pri'
    /\ onlyMerged altUps alt'.
Proof.
  unfold mergeAlternativeBackendByMCI.
  destruct (Backend.NoServer priUps);
    [eexists _, _, _, _; split; [reflexivity|split; apply onlyMerged_refl]|].
  destruct (existsb _ _);
    [eexists _, _, _, _; split; [reflexivity|split; apply onlyMerged_refl]|].
  eexists _, _, _, _. split; [reflexivity|]. split.
  - split; [destruct priUps; reflexivity|]. cbn. eexists. reflexivity.
  - case_decide; [apply onlyMerged_refl|].
    split; [destruct altUps; reflexivity|]. exists []. cbn. rewrite app_nil_r. reflexivity.
Qed.

Lemma scanLocations_mergedFrom (h : Helpers) (mci : MCI.t) (altKey : string)
    (extra : Location.t -> M bool) (locs : list Location.t) :
  forall merged upstreams altEqualsPri merged' upstreams' log,
    scanLocations h mci altKey extra locs merged upstreams
    = (Some (altEqualsPri, merged', upstreams'), log) ->
    mergedFrom upstreams upstreams'.
Proof.
  induction locs as [|loc rest IH]; intros merged upstreams aeq merged' upstreams' log H.
  - cbn in H. unfold ret in H. injection H as _ _ <- _. apply mergedFrom_refl.
  - cbn [scanLocations] in H.
    apply bind_Some in H. destruct H as (altUps & ? & ? & Halt & H & _).
    apply deref_Some in Halt. destruct Halt as [Halt _].
    apply bind_Some in H. destruct H as (priUps & ? & ? & Hpri & H & _).
    apply deref_Some in Hpri. destruct Hpri as [Hpri _].
    destruct (decide (Backend.Name altUps = Backend.Name priUps)).
    { apply bind_klog in H. destruct H as (? & H & _).
      unfold ret in H. injection H as _ _ <- _. apply mergedFrom_refl. }
    apply bind_Some in H. destruct H as (ok & ? & ? & _ & H & _).
    destruct ok; [|eapply IH; exact H].
    apply bind_klog in H. destruct H as (? & H & _).
    apply bind_Some in H. destruct H as ([[verdict pri'] alt'] & ? & ? & Hm & H & _).
    destruct (mergeAlternativeBackendByMCI_only mci priUps altUps)
      as (v & p & a & lg & Hm' & Hp & Ha).
    rewrite Hm' in Hm. injection Hm as -> -> -> ->.
    eapply mergedFrom_trans; [|eapply IH; exact H].
    intros k b Hk. destruct (decide (altKey = k)) as [<-|Hne].
    + rewrite lookup_insert_eq in Hk. injection Hk as <-. eauto.
    + rewrite lookup_insert_ne in Hk by exact Hne.
      eapply mergedFrom_insert; eassumption.
Qed.

Lemma scan_then_drop_mergedFrom (h : Helpers) (mci : MCI.t) (key : string)
    (extra : Location.t -> M bool) (locs : list Location.t)
    (upstreams upstreams' : gmap string Backend.t) (log : list LogEntry) :
  bind (scanLocations h mci key extra locs false upstreams) (dropUnmerged key)
  = (Some upstreams', log) ->
  mergedFrom upstreams upstreams'.
Proof.
  intros H. apply bind_Some in H.
  destruct H as ([[aeq merged] scanned] & l1 & l2 & Hscan & Hdrop & _).
  apply scanLocations_mergedFrom in Hscan.
  eapply mergedFrom_trans; [exact Hscan|].
  unfold dropUnmerged in Hdrop. destruct (negb aeq && negb merged).
  - apply bind_Some in Hdrop. destruct Hdrop as (alt & ? & ? & _ & Hdrop & _).
    apply bind_klog in Hdrop. destruct Hdrop as (? & Hdrop & _).
    unfold ret in Hdrop. injection Hdrop as <- _. apply mergedFrom_delete.
  - unfold ret in Hdrop. injection Hdrop as <- _. apply mergedFrom_refl.
Qed.

Lemma mergePath_mergedFrom (h : Helpers) (mci : MCI.t) (servers : gmap string Server.t)
    (host : string) (upstreams upstreams' : gmap string Backend.t)
    (path : HTTPIngressPath.t) (log : list LogEntry) :
  mergePath h mci servers host upstreams path = (Some upstreams', log) ->
  mergedFrom upstreams upstreams'.
Proof.
  unfold mergePath. intros H.
  destruct (IngressBackend.Service (HTTPIngressPath.Backend path)) as [svc|].
  - destruct (upstreams !! upstreamName h (MCI.Namespace mci) (Some svc)).
    + destruct (servers !! host) as [server|].
      * eapply scan_then_drop_mergedFrom; eassumption.
      * apply bind_klog in H. destruct H as (? & H & _).
        unfold ret in H. injection H as <- _. apply mergedFrom_refl.
    + apply bind_klog in H. destruct H as (? & H & _).
      unfold ret in H. injection H as <- _. apply mergedFrom_refl.
  - apply bind_klog in H. destruct H as (? & H & _).
    unfold ret in H. injection H as <- _. apply mergedFrom_refl.
Qed.

Lemma mergeDefaultBackend_mergedFrom (h : Helpers) (mci : MCI.t)
    (servers : gmap string Server.t) (upstreams upstreams' : gmap string Backend.t)
    (log : list LogEntry) :
  mergeDefaultBackend h mci servers upstreams = (Some upstreams', log) ->
  mergedFrom upstreams upstreams'.
Proof.
  unfold mergeDefaultBackend. intros H.
  destruct (Spec.DefaultBackend (MCI.Spec mci)) as [db|].
  - destruct (upstreams !! upstreamName h (MCI.Namespace mci) (IngressBackend.Service db)).
    + apply bind_Some in H. destruct H as (catchAll & ? & ? & _ & H & _).
      eapply scan_then_drop_mergedFrom; eassumption.
    + apply bind_klog in H. destruct H as (? & H & _).
      unfold ret in H. injection H as <- _. apply mergedFrom_refl.
  - unfold ret in H. injection H as <- _. apply mergedFrom_refl.
Qed.

(** X14.  When mergeAlternativeBackendsByMCI (lines 848-946) returns, it
    has added no backend, and every backend it kept is the one it was but
    for its session affinity and for names appended to its
    alternative-backend list: name, service, port, endpoints, traffic
    shaping policy and NoServer flag are untouched. *)
Theorem merger_only_extends_alternatives (h : Helpers) (mci : MCI.t)
    (servers : gmap string Server.t) (upstreams upstreams' : gmap string Backend.t)
    (log : list LogEntry) :
  mergeAlternativeBackendsByMCI h mci upstreams servers = (Some upstreams', log) ->
  mergedFrom upstreams upstreams'.
Proof.
  unfold mergeAlternativeBackendsByMCI. intros H.
  apply bind_Some in H. destruct H as (u1 & ? & ? & Hdef & H & _).
  apply mergeDefaultBackend_mergedFrom in Hdef.
  eapply (forRange_invariant (mergedFrom upstreams)); [exact H|exact Hdef|].
  intros s0 rule s1 l1 _ Hrule Hs0. unfold mergeRule in Hrule.
  apply bind_Some in Hrule. destruct Hrule as (paths & ? & ? & _ & Hrule & _).
  eapply (forRange_invariant (mergedFrom upstreams)); [exact Hrule|exact Hs0|].
  intros s2 path s3 l3 _ Hpath Hs2.
  eapply mergedFrom_trans; [exact Hs2|]. eapply mergePath_mergedFrom. exact Hpath.
Qed.

Lemma merger_only_extends_alternatives_witness :
  exists upstreams' log,
    mergeAlternativeBackendsByMCI refHelpers canaryOfRoot sampleUpstreams sampleServers
    = (Some upstreams', log)
    /\ mergedFrom sampleUpstreams upstreams'
    /\ Backend.AlternativeBackends <$> (upstreams' !! "ns1-s1-80") = Some ["ns1-s9-80"].
Proof.
  destruct (mergeAlternativeBackendsByMCI refHelpers canaryOfRoot sampleUpstreams
              sampleServers) as [[upstreams'|] log] eqn:Hrun;
    [|vm_compute in Hrun; discriminate].
  exists upstreams', log. split; [reflexivity|]. split.
  - exact (merger_only_extends_alternatives refHelpers canaryOfRoot sampleServers
             sampleUpstreams upstreams' log Hrun).
  - vm_compute in Hrun. injection Hrun as <- _. vm_compute. reflexivity.
Defined.

(** ** Configuration *)

(** Lines 64-76: at most one passthrough backend, that of a root
    location. *)
Lemma passthroughOf_shape (server : Server.t) (locs : list Location.t) :
  exists pass log,
    passthroughOf server locs = (Some pass, log)
    /\ (pass = []
        \/ exists location,
             In location locs /\ Location.Path location = rootLocation
             /\ pass = [SSLPassthroughBackend.mk (Location.Service location)
                          (Location.Port location) (Location.Backend location)
                          (Server.Hostname server)]).
Proof.
  induction locs as [|loc rest IH]; cbn [passthroughOf].
  - eexists _, _. split; [reflexivity|left; reflexivity].
  - destruct (decide (Location.Path loc = rootLocation)) as [Hroot|Hroot].
    + eexists _, _. split; [reflexivity|]. right. exists loc.
      split; [left; reflexivity|auto].
    + destruct IH as (pass & l & -> & Hpass). cbn [bind klog].
      eexists _, _. split; [reflexivity|].
      destruct Hpass as [->|(location & Hin & Hp & ->)]; [left; reflexivity|].
      right. exists location. split; [right; exact Hin|auto].
Qed.

(** Lines 35-77: the loop over the servers. *)
Lemma finishServers_shape (h : Helpers) (srvs : list Server.t) :
  forall (hosts : gset string) (acc : list Server.t)
         (pass : list SSLPassthroughBackend.t),
  exists hosts' pass' log,
    forRange srvs (finishServer h) (hosts, acc, pass)
    = (Some (hosts', acc ++ map (finished h) srvs, pass ++ pass'), log)
    /\ (forall x, x ∈ hosts' <->
          x ∈ hosts \/ exists s, In s srvs /\ (x = Server.Hostname s \/ x ∈ Server.Aliases s))
    /\ map SSLPassthroughBackend.Hostname pass' `sublist_of` map Server.Hostname srvs
    /\ Forall (passthroughFrom (map (finished h) srvs)) pass'.
Proof.
  induction srvs as [|server rest IH]; intros hosts acc pass.
  - exists hosts, [], []. cbn. rewrite !app_nil_r. split; [reflexivity|].
    split; [|split; constructor].
    intros x. split; [auto|]. intros [H|(s & [] & _)]. exact H.
  - cbn [forRange]. unfold finishServer at 1. fold (finished h server).
    assert (Hstep : exists here l1,
               (if Server.SSLPassthrough (finished h server) then
                  let* p := passthroughOf (finished h server)
                              (Server.Locations (finished h server)) in
                  ret (hosts ∪ {[Server.Hostname (finished h server)]}
                         ∪ list_to_set (Server.Aliases (finished h server)),
                       acc ++ [finished h server], pass ++ p)
                else ret (hosts ∪ {[Server.Hostname (finished h server)]}
                            ∪ list_to_set (Server.Aliases (finished h server)),
                          acc ++ [finished h server], pass))
               = (Some (hosts ∪ {[Server.Hostname server]}
                          ∪ list_to_set (Server.Aliases server),
                        acc ++ [finished h server], pass ++ here), l1)
               /\ (here = []
                   \/ (Server.SSLPassthrough server = true
                       /\ exists location,
                            In location (Server.Locations (finished h server))
                            /\ Location.Path location = rootLocation
                            /\ here = [SSLPassthroughBackend.mk (Location.Service location)
                                         (Location.Port location) (Location.Backend location)
                                         (Server.Hostname server)]))).
    { change (Server.Hostname (finished h server)) with (Server.Hostname server).
      change (Server.Aliases (finished h server)) with (Server.Aliases server).
      change (Server.SSLPassthrough (finished h server))
        with (Server.SSLPassthrough server).
      destruct (Server.SSLPassthrough server) eqn:Hpass.
      - destruct (passthroughOf_shape (finished h server)
                    (Server.Locations (finished h server))) as (p & l & -> & Hp).
        cbn [bind]. eexists _, _. split; [reflexivity|].
        destruct Hp as [->|Hp]; [left; reflexivity|right; split; [reflexivity|exact Hp]].
      - exists [], []. rewrite app_nil_r. split; [reflexivity|left; reflexivity]. }
    destruct Hstep as (here & l1 & -> & Hhere). cbn [bind].
    destruct (IH (hosts ∪ {[Server.Hostname server]} ∪ list_to_set (Server.Aliases server))
                (acc ++ [finished h server]) (pass ++ here))
      as (hosts' & pass' & l2 & -> & Hhosts & Hsub & Hfrom).
    exists hosts', (here ++ pass'), (l1 ++ l2). split.
    { cbn [map]. rewrite <- !app_assoc. reflexivity. }
    split; [|split].
    + intros x. rewrite Hhosts, !elem_of_union, elem_of_singleton, elem_of_list_to_set.
      split.
      * intros [[[H|H]|H]|(s & Hs & H)]; [left; exact H| | |].
        -- right. exists server. split; [left; reflexivity|left; exact H].
        -- right. exists server. split; [left; reflexivity|right; exact H].
        -- right. exists s. split; [right; exact Hs|exact H].
      * intros [H|(s & [<-|Hs] & [H|H])]; [left; left; left; exact H| | | |].
        -- left. left. right. exact H.
        -- left. right. exact H.
        -- right. exists s. auto.
        -- right. exists s. auto.
    + rewrite map_app. cbn [map].
      destruct Hhere as [->|(_ & location & _ & _ & ->)]; cbn.
      * apply sublist_cons. exact Hsub.
      * apply sublist_skip. exact Hsub.
    + apply Forall_app. split.
      * destruct Hhere as [->|(Hpass & location & Hin & Hroot & ->)]; constructor;
          [|constructor].
        exists (finished h server), location. cbn [map].
        split; [left; reflexivity|]. cbn. split_ands; auto.
      * eapply Forall_impl; [exact Hfrom|]. cbn [map].
        intros p (s & location & Hs & Hrest). exists s, location.
        split; [right; exact Hs|exact Hrest].
Qed.

(** X15.  getConfigurationFromMCI (lines 29-89) returns whenever
    getBackendServersFromMCIs does.  Its backends are the synthesized
    ones, its servers the synthesized ones with their locations passed
    through updateServerLocations, and its host set holds exactly the
    hostnames and the aliases of these servers. *)
Theorem configuration_hosts (n : NGINXController) (h : Helpers) (mcis : list MCI.t)
    (aUpstreams : list Backend.t) (aServers : list Server.t) (log : list LogEntry) :
  getBackendServersFromMCIs n h mcis = (Some (aUpstreams, aServers), log) ->
  exists hosts cfg log',
    getConfigurationFromMCI n h mcis = (Some (hosts, map (finished h) aServers, cfg), log')
    /\ Configuration.Backends cfg = aUpstreams
    /\ Configuration.Servers cfg = map (finished h) aServers
    /\ forall x, x ∈ hosts <->
         exists s, In s (map (finished h) aServers)
           /\ (x = Server.Hostname s \/ x ∈ Server.Aliases s).
Proof.
  intros Hrun. unfold getConfigurationFromMCI. rewrite Hrun. cbn [bind].
  destruct (finishServers_shape h aServers ∅ [] [])
    as (hosts & pass & l & -> & Hhosts & _). cbn [bind app].
  eexists _, _, _. split; [reflexivity|]. split; [reflexivity|]. split; [reflexivity|].
  intros x. rewrite Hhosts. split.
  - intros [H|(s & Hs & H)]; [apply elem_of_empty in H; destruct H|].
    exists (finished h s). split; [apply in_map; exact Hs|exact H].
  - intros (s & Hs & H). right. apply in_map_iff in Hs.
    destruct Hs as (s0 & <- & Hs0). exists s0. split; [exact Hs0|exact H].
Qed.

Lemma configuration_hosts_witness :
  exists hosts servers cfg log',
    getConfigurationFromMCI refController refHelpers [passthroughWeb; backendAndRules]
    = (Some (hosts, servers, cfg), log')
    /\ Configuration.Servers cfg = servers
    /\ forall x, x ∈ hosts <->
         exists s, In s servers /\ (x = Server.Hostname s \/ x ∈ Server.Aliases s).
Proof.
  destruct (getBackendServersFromMCIs refController refHelpers
              [passthroughWeb; backendAndRules])
    as [[[aUpstreams aServers]|] log] eqn:Hrun; [|vm_compute in Hrun; discriminate].
  destruct (configuration_hosts refController refHelpers [passthroughWeb; backendAndRules]
              aUpstreams aServers log Hrun) as (hosts & cfg & log' & Hcfg & _ & Hs & Hhosts).
  exists hosts, (map (finished refHelpers) aServers), cfg, log'. auto.
Defined.

(** X16.  In the configuration of getConfigurationFromMCI (lines 29-89)
    no two passthrough backends share a hostname, and each is the backend,
    service and port of a root location of a server of the configuration
    that has SSLPassthrough set. *)
Theorem one_passthrough_backend_per_host (n : NGINXController) (h : Helpers)
    (mcis : list MCI.t) (hosts : gset string) (servers : list Server.t)
    (cfg : Configuration.t) (log : list LogEntry) :
  getConfigurationFromMCI n h mcis = (Some (hosts, servers, cfg), log) ->
  NoDup (map SSLPassthroughBackend.Hostname (Configuration.PassthroughBackends cfg))
  /\ Forall (passthroughFrom servers) (Configuration.PassthroughBackends cfg).
Proof.
  intros Hrun. unfold getConfigurationFromMCI in Hrun.
  apply bind_Some in Hrun.
  destruct Hrun as ([aUpstreams aServers] & l1 & l2 & Hsynth & Hrun & _).
  destruct (finishServers_shape h aServers ∅ [] [])
    as (hosts' & pass & l & Hloop & _ & Hsub & Hfrom).
  rewrite Hloop in Hrun. cbn [bind app] in Hrun.
  unfold ret in Hrun. injection Hrun as <- <- <- _. cbn.
  split; [|exact Hfrom].
  eapply sublist_NoDup; [|exact Hsub].
  apply (getBackendServersFromMCIs_servers n h mcis aUpstreams aServers l1 Hsynth).
Qed.

Lemma one_passthrough_backend_per_host_witness :
  exists hosts servers cfg log,
    getConfigurationFromMCI refController refHelpers [passthroughWeb; backendAndRules]
    = (Some (hosts, servers, cfg), log)
    /\ map SSLPassthroughBackend.Hostname (Configuration.PassthroughBackends cfg) = ["a.com"]
    /\ NoDup (map SSLPassthroughBackend.Hostname (Configuration.PassthroughBackends cfg))
    /\ Forall (passthroughFrom servers) (Configuration.PassthroughBackends cfg).
Proof.
  destruct (getConfigurationFromMCI refController refHelpers
              [passthroughWeb; backendAndRules])
    as [[[[hosts servers] cfg]|] log] eqn:Hrun; [|vm_compute in Hrun; discriminate].
  exists hosts, servers, cfg, log. split; [reflexivity|]. split.
  - vm_compute in Hrun. injection Hrun as _ _ <- _. reflexivity.
  - exact (one_passthrough_backend_per_host refController refHelpers
             [passthroughWeb; backendAndRules] hosts servers cfg log Hrun).
Defined.

(** * Final ordering *)











